(** * scripts/deploy.py: the Zenodo release uploader

    A shallow embedding of [scripts/deploy.py] and the properties of its
    request/response contract.

    The script is dynamically typed glue code over a web API: every value it
    handles is a decoded JSON document, every operation is an HTTP exchange
    judged by its status code, and every failure is either [sys.exit] with a
    message or an uncaught Python exception.  The embedding keeps all three:
    - decoded JSON as the inductive type [json], Python dictionaries as
      association lists in insertion order;
    - the outside world (environment variables, files, clock, network) as an
      explicit state [world] threaded through a state-and-failure monad [M];
    - [sys.exit] and uncaught exceptions as the two failing outcomes. *)

From stdpp Require Import gmap strings pretty list fin_maps.
From Stdlib Require Import ZArith Ascii.

Local Open Scope Z_scope.
Set Warnings "-register-all".

(** ** Strings *)

Module Str.

(** [s.startswith(p)]. *)
Fixpoint startswith (s p : string) {struct p} : bool :=
  match p, s with
  | EmptyString, _ => true
  | String a p', String b s' => if Ascii.eqb a b then startswith s' p' else false
  | String _ _, EmptyString => false
  end.

(** [sub in s] for two strings. *)
Fixpoint contains (sub s : string) : bool :=
  startswith s sub ||
  match s with
  | EmptyString => false
  | String _ s' => contains sub s'
  end.

Definition has_char (c : ascii) (s : string) : bool :=
  contains (String c EmptyString) s.

(** [s.split(c)]: the fields of [s] between occurrences of [c]. *)
Fixpoint split (c : ascii) (s : string) : list string :=
  match s with
  | EmptyString => [EmptyString]
  | String a s' =>
      if Ascii.eqb a c then EmptyString :: split c s'
      else match split c s' with
           | f :: fs => String a f :: fs
           | [] => [String a EmptyString]
           end
  end.

(** The part of [s] after its last occurrence of [c] (all of [s] when
    there is none). *)
Definition after_last (c : ascii) (s : string) : string :=
  List.last (split c s) EmptyString.

(** The part of [s] before its first occurrence of [c]. *)
Definition before_first (c : ascii) (s : string) : string :=
  List.hd EmptyString (split c s).

Fixpoint drop (n : nat) (s : string) : string :=
  match n, s with
  | O, _ => s
  | S n', String _ s' => drop n' s'
  | S _, EmptyString => EmptyString
  end.

(** [s.endswith(p)]. *)
Definition endswith (s p : string) : bool :=
  (String.length p <=? String.length s)%nat
  && String.eqb (drop (String.length s - String.length p) s) p.

(** The characters of [s], each as a one-character string. *)
Fixpoint chars (s : string) : list string :=
  match s with
  | EmptyString => []
  | String a s' => String a EmptyString :: chars s'
  end.

End Str.

(** ** Decoded JSON and the Python operations the script applies to it *)

(** What [response.json()] and [json.loads] return.  Numbers are integers:
    the script never computes with them, it only formats them. *)
Inductive json : Type :=
  | JNull
  | JBool (b : bool)
  | JNum (n : Z)
  | JStr (s : string)
  | JArr (items : list json)
  | JObj (fields : list (string * json)).

(** A Python [dict] with string keys, in insertion order. *)
Abbreviation dict := (list (string * json)).

(** The exceptions the script can die of; none of them is caught.
    [OutOfModel] marks the few places where Python would go on with a value
    the embedding has no type for: a dictionary key that is not a string,
    a [glob] pattern with a bracket class. *)
Inductive exn : Type :=
  | KeyError (key : string)
  | TypeError
  | AttributeError
  | ValueError
  | FileNotFoundError (path : string)
  | IsADirectoryError (path : string)
  | ConnectionError
  | JSONDecodeError
  | OutOfModel.

(** How a computation ends: normally, by [sys.exit(msg)], or by an uncaught
    exception. *)
Inductive outcome (A : Type) : Type :=
  | Ok (a : A)
  | Exit (msg : string)
  | Raise (e : exn).
Arguments Ok {A} a.
Arguments Exit {A} msg.
Arguments Raise {A} e.

Module Dict.

(** [d.get(k)]. *)
Fixpoint get {V} (k : string) (d : list (string * V)) : option V :=
  match d with
  | [] => None
  | (k', v) :: d' => if String.eqb k' k then Some v else get k d'
  end.

(** [k in d]. *)
Definition mem {V} (k : string) (d : list (string * V)) : bool :=
  match get k d with Some _ => true | None => false end.

(** [d[k] = v]: an existing key keeps its place, a new one goes last. *)
Fixpoint set {V} (k : string) (v : V) (d : list (string * V)) : list (string * V) :=
  match d with
  | [] => [(k, v)]
  | (k', v') :: d' =>
      if String.eqb k' k then (k, v) :: d' else (k', v') :: set k v d'
  end.

(** [d.update(other)] for a dictionary [other]. *)
Definition update {V} (d other : list (string * V)) : list (string * V) :=
  fold_left (λ acc kv, set (fst kv) (snd kv) acc) other d.

End Dict.

Module Py.

(** Truth value of a decoded JSON value. *)
Definition truthy (j : json) : bool :=
  match j with
  | JNull => false
  | JBool b => b
  | JNum n => negb (n =? 0)
  | JStr s => negb (bool_decide (s = ""))
  | JArr l => match l with [] => false | _ => true end
  | JObj d => match d with [] => false | _ => true end
  end.

(** Truth value of a string, as in [if doi:]. *)
Definition nonempty (s : string) : bool := negb (bool_decide (s = "")).

(** Truth value of an optional string argument ([None] or a string). *)
Definition given (o : option string) : bool :=
  match o with Some s => nonempty s | None => false end.

(** [j[k]] for a string [k]. *)
Definition subscript (j : json) (k : string) : outcome json :=
  match j with
  | JObj d => match Dict.get k d with Some v => Ok v | None => Raise (KeyError k) end
  | _ => Raise TypeError
  end.

(** [j == s] for a string [s]. *)
Definition eq_str (j : json) (s : string) : bool :=
  match j with JStr s' => bool_decide (s' = s) | _ => false end.

(** [k in j] for a string [k]. *)
Definition contains (k : string) (j : json) : outcome bool :=
  match j with
  | JObj d => Ok (Dict.mem k d)
  | JArr l => Ok (existsb (fun x => eq_str x k) l)
  | JStr s => Ok (Str.contains k s)
  | _ => Raise TypeError
  end.

(** The items a [for] loop over [j] visits. *)
Definition iter (j : json) : outcome (list json) :=
  match j with
  | JArr l => Ok l
  | JObj d => Ok (map (fun kv => JStr (fst kv)) d)
  | JStr s => Ok (map JStr (Str.chars s))
  | _ => Raise TypeError
  end.

(** [j.get(k, default)]; only dictionaries have the method. *)
Definition get_default (j : json) (k : string) (default : json) : outcome json :=
  match j with
  | JObj d => Ok (match Dict.get k d with Some v => v | None => default end)
  | _ => Raise AttributeError
  end.

(** [j.items()]. *)
Definition items (j : json) : outcome dict :=
  match j with
  | JObj d => Ok d
  | _ => Raise AttributeError
  end.

(** A byte as two hexadecimal digits. *)
Definition hex (c : ascii) : string :=
  let digit (n : nat) : string :=
    match String.get n "0123456789abcdef" with
    | Some d => String d ""
    | None => ""
    end in
  digit (nat_of_ascii c / 16)%nat +:+ digit (nat_of_ascii c mod 16)%nat.

(** One character in [repr] of a string delimited by [quote]: the quote
    and the backslash are escaped, so are the control characters; what is
    not ASCII is left as it is, as [repr] leaves printable characters. *)
Definition repr_char (quote c : ascii) : string :=
  let escaped (text : string) : string := String "092" text in
  if Ascii.eqb c quote || Ascii.eqb c "092" then escaped (String c "")
  else if Ascii.eqb c "009" then escaped "t"
  else if Ascii.eqb c "010" then escaped "n"
  else if Ascii.eqb c "013" then escaped "r"
  else if (nat_of_ascii c <? 32)%nat || Ascii.eqb c "127" then escaped ("x" +:+ hex c)
  else String c "".

Fixpoint repr_chars (quote : ascii) (s : string) : string :=
  match s with
  | EmptyString => ""
  | String c s' => repr_char quote c +:+ repr_chars quote s'
  end.

(** [repr] of a string: between single quotes, or between double quotes
    when the string has a single quote and no double quote. *)
Definition repr_str (s : string) : string :=
  let quote : ascii :=
    if Str.has_char "'" s && negb (Str.has_char "034" s) then "034"%char else "'"%char in
  String quote (repr_chars quote s) +:+ String quote "".

Definition join_with (sep : string) (l : list string) : string :=
  match l with
  | [] => ""
  | x :: xs => fold_left (fun acc y => acc +:+ sep +:+ y) xs x
  end.

(** [repr(j)], which is what [%s] prints for everything but a string. *)
Fixpoint repr (j : json) : string :=
  match j with
  | JNull => "None"
  | JBool true => "True"
  | JBool false => "False"
  | JNum n => pretty n
  | JStr s => repr_str s
  | JArr l => "[" +:+ join_with ", " (map repr l) +:+ "]"
  | JObj d =>
      "{" +:+ join_with ", "
                (map (fun kv => repr_str (fst kv) +:+ ": " +:+ repr (snd kv)) d)
          +:+ "}"
  end.

(** [str(j)], what [%s] prints. *)
Definition str (j : json) : string :=
  match j with JStr s => s | _ => repr j end.

End Py.

(** ** The outside world *)

Inductive method : Type := GET | POST | PUT | DELETE.

(** What a request carries: nothing, a JSON document ([json=] or
    [data=json.dumps(...)]), or the bytes of an open file ([data=fp]). *)
Inductive payload : Type :=
  | NoBody
  | JsonBody (j : json)
  | FileBody (content : string).

Module Http.

(** One call of the [requests] library: the method, the URL and the
    keyword arguments [params], [headers] and [data] or [json]. *)
Record request : Type := Request {
  meth : method;
  url : string;
  params : list (string * string);
  headers : list (string * string);
  body : payload
}.

(** A response: its [status_code] and what there is to decode in its
    body: a JSON document, or nothing when the body is not JSON (an empty
    body, the error page of a proxy). *)
Record response : Type := Response {
  status_code : Z;
  decoded : option json
}.

(** [response.json()]: the document, or the decoder's exception. *)
Definition json (r : response) : outcome json :=
  match decoded r with
  | Some document => Ok document
  | None => Raise JSONDecodeError
  end.

(** A URL the library agrees to send to.  Anything else is refused with a
    [ValueError] ([MissingSchema], [InvalidSchema]) before any exchange. *)
Definition valid_url (u : string) : bool :=
  Str.startswith u "http://" || Str.startswith u "https://".

(** The host a URL names: what stands between the scheme and the first
    slash after it. *)
Definition host_of (u : string) : string :=
  if Str.startswith u "https://" then Str.before_first "/" (Str.drop 8 u)
  else if Str.startswith u "http://" then Str.before_first "/" (Str.drop 7 u)
  else "".

End Http.

Inductive node : Type :=
  | File (content : string)
  | Dir.

(** What the script prints: a line of text, or [json.dumps(j, indent=4)]. *)
Inductive output : Type :=
  | Line (text : string)
  | Dump (j : json).

(** The world the script runs in.  [inbox] holds the responses the network
    is going to deliver, in order: whatever the server does, one run of the
    script sees one such sequence, and when none is left the connection has
    failed.  [sent] records the requests made, oldest first.  [clock] is the
    current instant in seconds since the epoch (UTC) and [tz_offset] the
    local time zone's offset from UTC in seconds. *)
Record world : Type := World {
  environ : gmap string string;
  fs : gmap string node;
  cwd : string;
  clock : Z;
  tz_offset : Z;
  inbox : list Http.response;
  sent : list Http.request;
  stdout : list output
}.

Definition set_fs (f : gmap string node) (w : world) : world :=
  World (environ w) f (cwd w) (clock w) (tz_offset w) (inbox w) (sent w) (stdout w).

Definition set_net (i : list Http.response) (s : list Http.request) (w : world) : world :=
  World (environ w) (fs w) (cwd w) (clock w) (tz_offset w) i s (stdout w).

Definition set_stdout (o : list output) (w : world) : world :=
  World (environ w) (fs w) (cwd w) (clock w) (tz_offset w) (inbox w) (sent w) o.

(** ** The monad of the script: state and failure *)

Definition M (A : Type) : Type := world → outcome A * world.

Definition ret {A} (a : A) : M A := λ w, (Ok a, w).

Definition bind {A B} (m : M A) (k : A → M B) : M B := λ w,
  match m w with
  | (Ok a, w') => k a w'
  | (Exit msg, w') => (Exit msg, w')
  | (Raise e, w') => (Raise e, w')
  end.

Declare Scope script_scope.
Delimit Scope script_scope with script.
Notation "'let*' x := m 'in' k" := (bind m (λ x, k))
  (at level 10, x name, m at level 100, k at level 200) : script_scope.
Notation "m ;;; k" := (bind m (λ _, k))
  (at level 100, right associativity) : script_scope.
Local Open Scope script_scope.

(** An operation that fails or not without touching the world. *)
Definition lift {A} (o : outcome A) : M A := λ w, (o, w).

(** [sys.exit(msg)]. *)
Definition sys_exit {A} (msg : string) : M A := lift (Exit msg).

Definition raise {A} (e : exn) : M A := lift (Raise e).

(** [if c: body] with nothing to do otherwise. *)
Definition when (c : bool) (body : M unit) : M unit :=
  if c then body else ret tt.

(** [for x in l: body(x)]. *)
Fixpoint for_each {A} (l : list A) (body : A → M unit) : M unit :=
  match l with
  | [] => ret tt
  | x :: l' => body x ;;; for_each l' body
  end.

Definition print (text : string) : M unit := λ w,
  (Ok tt, set_stdout (stdout w ++ [Line text]) w).

Definition print_json (j : json) : M unit := λ w,
  (Ok tt, set_stdout (stdout w ++ [Dump j]) w).

(** One exchange with the network, as [requests.get/post/put/delete] make
    it: the request goes out, the next response comes back. *)
Definition requests_send (r : Http.request) : M Http.response := λ w,
  if negb (Http.valid_url (Http.url r)) then (Raise ValueError, w)
  else
    match inbox w with
    | [] => (Raise ConnectionError, set_net [] (sent w ++ [r]) w)
    | resp :: rest => (Ok resp, set_net rest (sent w ++ [r]) w)
    end.

(** [os.environ.get(name)]. *)
Definition environ_get (name : string) : M (option string) := λ w,
  (Ok (environ w !! name), w).

(** ** Paths and files *)

Module Path.

(** [os.path.join(a, b)]. *)
Definition join (a b : string) : string :=
  if Str.startswith b "/" then b
  else if String.eqb a "" || Str.endswith a "/" then a +:+ b
  else a +:+ "/" +:+ b.

(** The loop of [os.path.normpath] over the components of the path: empty
    components and [.] are dropped, [..] takes the component before it
    away, except at the start of a relative path.  [new_comps] is the list
    the loop builds, last component first. *)
Fixpoint collapse (initial_slashes : bool) (comps new_comps : list string) : list string :=
  match comps with
  | [] => rev new_comps
  | comp :: comps' =>
      if String.eqb comp "" || String.eqb comp "." then
        collapse initial_slashes comps' new_comps
      else if negb (String.eqb comp "..")
              || (negb initial_slashes && bool_decide (new_comps = []))
              || match new_comps with
                 | top :: _ => String.eqb top ".."
                 | [] => false
                 end
      then collapse initial_slashes comps' (comp :: new_comps)
      else collapse initial_slashes comps' (tail new_comps)
  end.

(** [os.path.normpath(path)]; two slashes at the start are kept, three or
    more are one. *)
Definition normpath (path : string) : string :=
  if String.eqb path "" then "."
  else
    let initial_slashes := Str.startswith path "/" in
    let slashes :=
      if Str.startswith path "//" && negb (Str.startswith path "///") then "//"
      else if initial_slashes then "/" else "" in
    let path :=
      slashes +:+ Py.join_with "/" (collapse initial_slashes (Str.split "/" path) []) in
    if String.eqb path "" then "." else path.

(** [os.path.abspath(path)] in the working directory [dir]. *)
Definition abspath (dir path : string) : string :=
  normpath (if Str.startswith path "/" then path else join dir path).

(** [os.path.basename]. *)
Definition basename (path : string) : string := Str.after_last "/" path.

(** [os.path.dirname] of an absolute path. *)
Definition dirname (path : string) : string :=
  match Str.split "/" path with
  | [] => ""
  | fields =>
      match Py.join_with "/" (removelast fields) with
      | "" => "/"
      | d => d
      end
  end.

End Path.

(** [os.path.exists(path)] for an absolute, normalised path. *)
Definition path_exists (path : string) : M bool := λ w,
  (Ok (bool_decide (is_Some (fs w !! path))), w).

(** [os.path.abspath(path)]. *)
Definition os_abspath (path : string) : M string := λ w,
  (Ok (Path.abspath (cwd w) path), w).

(** [with open(path, "r") as fd: fd.read()], and the same for ["rb"].
    The files are looked up under their absolute, normalised paths; there
    are no symbolic links. *)
Definition open_read (path : string) : M string := λ w,
  let p := Path.abspath (cwd w) path in
  match fs w !! p with
  | Some (File content) => (Ok content, w)
  | Some Dir => (Raise (IsADirectoryError p), w)
  | None => (Raise (FileNotFoundError p), w)
  end.

(** [with open(path, "a") as f: f.write(text)].  [path] is what
    [os.environ.get] returned: [open(None, "a")] is a [TypeError].  A file
    that is not there is created if its directory is. *)
Definition open_append (path : option string) (text : string) : M unit :=
  match path with
  | None => raise TypeError
  | Some path => λ w,
      let p := Path.abspath (cwd w) path in
      match fs w !! p with
      | Some (File content) => (Ok tt, set_fs (<[p := File (content +:+ text)]> (fs w)) w)
      | Some Dir => (Raise (IsADirectoryError p), w)
      | None =>
          match fs w !! Path.dirname p with
          | Some Dir => (Ok tt, set_fs (<[p := File text]> (fs w)) w)
          | _ => (Raise (FileNotFoundError p), w)
          end
      end
  end.

(** ** The clock *)

Module Clock.

(** Civil date (year, month, day) of a day number counted from
    1970-01-01, in the proleptic Gregorian calendar. *)
Definition civil_of_days (days : Z) : Z * Z * Z :=
  let z := days + 719468 in
  let era := z / 146097 in
  let doe := z - era * 146097 in
  let yoe := (doe - doe / 1460 + doe / 36524 - doe / 146096) / 365 in
  let doy := doe - (365 * yoe + yoe / 4 - yoe / 100) in
  let mp := (5 * doy + 2) / 153 in
  let d := doy - (153 * mp + 2) / 5 + 1 in
  let m := if mp <? 10 then mp + 3 else mp - 9 in
  let y := yoe + era * 400 + (if m <=? 2 then 1 else 0) in
  (y, m, d).

Definition two_digits (n : Z) : string :=
  if n <? 10 then "0" +:+ pretty n else pretty n.

(** [strftime("%Y-%m-%d")] of an instant given in seconds, for years of
    four digits. *)
Definition strftime_ymd (seconds : Z) : string :=
  match civil_of_days (seconds / 86400) with
  | (y, m, d) => pretty y +:+ "-" +:+ two_digits m +:+ "-" +:+ two_digits d
  end.

(** The date in UTC at the instant [clock w]. *)
Definition utc_date (w : world) : string := strftime_ymd (clock w).

(** The date on the local clock at the instant [clock w]. *)
Definition local_date (w : world) : string := strftime_ymd (clock w + tz_offset w).

End Clock.

(** [datetime.today()]: the current local date and time, as seconds. *)
Definition datetime_today : M Z := λ w, (Ok (clock w + tz_offset w), w).

(** ** [glob.glob] *)

Module Glob.

(** [glob.has_magic]. *)
Definition has_magic (s : string) : bool :=
  Str.has_char "*" s || Str.has_char "?" s || Str.has_char "[" s.

(** [fnmatch] of one name against one pattern made of literal characters,
    [*] and [?]. *)
Fixpoint fnmatch (pat name : string) : bool :=
  match pat with
  | EmptyString => bool_decide (name = "")
  | String c pat' =>
      if Ascii.eqb c "*" then
        (fix star (n : string) : bool :=
           fnmatch pat' n ||
           match n with
           | EmptyString => false
           | String _ n' => star n'
           end) name
      else
        match name with
        | EmptyString => false
        | String d name' =>
            if Ascii.eqb c "?" then fnmatch pat' name'
            else if Ascii.eqb c d then fnmatch pat' name' else false
        end
  end.

(** One path component against one pattern component.  A component
    without wildcards has to be the name itself; a wildcard component
    does not match a name that starts with a dot unless it starts with
    one too. *)
Definition component (pat name : string) : bool :=
  if has_magic pat then
    (Str.startswith pat "." || negb (Str.startswith name ".")) && fnmatch pat name
  else bool_decide (pat = name).

Fixpoint components (pats names : list string) : bool :=
  match pats, names with
  | [], [] => true
  | p :: pats', n :: names' => component p n && components pats' names'
  | _, _ => false
  end.

(** Whether the absolute path [path] is one that [glob] lists for the
    absolute pattern [pat]. *)
Definition matches (pat path : string) : bool :=
  components (Str.split "/" pat) (Str.split "/" path).

(** [glob(pat)] for an absolute pattern over a file system in which every
    entry's directory is an entry too.  The order of the result is the
    order in which the directories list their entries, which Python
    leaves open as well.  Bracket classes [[...]] are not modelled:
    [None] for a pattern with a bracket. *)
Definition glob (files : gmap string node) (pat : string) : option (list string) :=
  if Str.has_char "[" pat then None
  else if has_magic pat then
    Some (filter (λ p, matches pat p = true) (map fst (map_to_list files)))
  else
    Some (if bool_decide (is_Some (files !! pat)) then [pat] else []).

End Glob.

Definition glob (pat : string) : M (list string) := λ w,
  match Glob.glob (fs w) pat with
  | Some paths => (Ok paths, w)
  | None => (Raise OutOfModel, w)
  end.

(** ** The script *)

Definition nl : string := String "010"%char EmptyString.

(** Lines 36-38: the token is read from the environment when the module is
    loaded; without one the script stops there. *)
Definition load_token : M string :=
  let* token := environ_get "ZENODO_TOKEN" in
  if Py.given token then ret (default "" token)
  else sys_exit "A ZENODO_TOKEN is required to be exported in the environment!".

(** [set_env_and_output(name, value)]. *)
Definition set_env_and_output (name : string) (value : json) : M unit :=
  for_each ["GITHUB_ENV"; "GITHUB_OUTPUT"] (λ env_var,
    let* environment_file_path := environ_get env_var in
    print ("Writing " +:+ name +:+ "=" +:+ Py.str value +:+ " to " +:+ env_var) ;;;
    open_append environment_file_path (name +:+ "=" +:+ Py.str value +:+ nl)).

(** An open text file as [argparse.FileType] hands it over: [read()] returns
    what is left to read. *)
Record TextIO : Type := { unread : string }.

Module Zenodo.
Section Client.

(** The module-level [ZENODO_TOKEN], as [load_token] left it. *)
Variable ZENODO_TOKEN : string.

(** [json.loads]: the decoded document, or nothing for text that is not
    JSON. *)
Variable json_loads : string → option json.

(** The client object: [self.headers], [self.params], [self.host]. *)
Record client : Type := Client {
  headers : list (string * string);
  params : list (string * string);
  host : string
}.

(** [read_json(filename)]. *)
Definition read_json (filename : string) : M json :=
  let* content := open_read filename in
  match json_loads content with
  | Some j => ret j
  | None => raise JSONDecodeError
  end.

Definition set_host (self : client) (sandbox : bool) : client :=
  let self := Client (headers self) (params self) "zenodo.org" in
  if sandbox then Client (headers self) (params self) "sandbox.zenodo.org"
  else self.

(** [Zenodo(sandbox)]. *)
Definition init (sandbox : bool) : client :=
  set_host (Client [("Accept", "application/json")]
                   [("access_token", ZENODO_TOKEN)] "") sandbox.

(** [response.status_code not in codes]. *)
Definition status_not_in (response : Http.response) (codes : list Z) : bool :=
  negb (bool_decide (Http.status_code response ∈ codes)).

(** [self.get(url)]; [url] is a literal or comes out of a JSON document,
    and only a string has [startswith]. *)
Definition get (self : client) (url : json) : M Http.response :=
  match url with
  | JStr url =>
      let url := if negb (Str.startswith url "http")
                 then "https://" +:+ host self +:+ url else url in
      requests_send (Http.Request GET url (params self) (headers self) NoBody)
  | _ => raise AttributeError
  end.

(** [self.post(url)]. *)
Definition post (self : client) (url : json) : M Http.response :=
  match url with
  | JStr url =>
      let url := if negb (Str.startswith url "http")
                 then "https://" +:+ host self +:+ url else url in
      requests_send (Http.Request POST url (params self) (headers self) NoBody)
  | _ => raise AttributeError
  end.

Definition get_depositions (self : client) : M json :=
  let* response := get self (JStr "/api/deposit/depositions") in
  if status_not_in response [200; 201] then
    let* body := lift (Http.json response) in
    sys_exit ("Cannot query depositions: " +:+ pretty (Http.status_code response)
              +:+ ", " +:+ Py.str body)
  else lift (Http.json response).

(** The loop of [find_deposit]: [None] when it runs to the end, the
    deposit at which it breaks otherwise. *)
Fixpoint find_deposit_loop (doi : string) (deposits : list json) : M (option json) :=
  match deposits with
  | [] => ret None
  | deposit :: rest =>
      let* has_doi := lift (Py.contains "doi" deposit) in
      if negb has_doi then find_deposit_loop doi rest
      else
        let* deposit_doi := lift (Py.subscript deposit "doi") in
        print ("looking at deposit " +:+ Py.str deposit_doi) ;;;
        let* conceptdoi := lift (Py.subscript deposit "conceptdoi") in
        if Py.eq_str conceptdoi doi then
          print ("Found deposit " +:+ doi +:+ "! 🎉️") ;;;
          ret (Some deposit)
        else find_deposit_loop doi rest
  end.

Definition find_deposit (self : client) (doi : string) : M (option json) :=
  let* deposits := get_depositions self in
  let* deposits := lift (Py.iter deposits) in
  find_deposit_loop doi deposits.

Definition new_doi (self : client) : M json :=
  let* response :=
    requests_send (Http.Request POST "https://zenodo.org/api/deposit/depositions"
                     (params self) (headers self) (JsonBody (JObj []))) in
  if status_not_in response [200; 201] then
    let* body := lift (Http.json response) in
    sys_exit ("Trouble requesting new upload: " +:+ pretty (Http.status_code response)
              +:+ ", " +:+ Py.str body)
  else lift (Http.json response).

(** The body of the deletion loop of [update_doi].  The line it prints
    about a refused deletion is built from the file's name and the decoded
    answer, in that order, before anything is printed. *)
Definition delete_file (self : client) (file : json) : M unit :=
  let* links := lift (Py.subscript file "links") in
  let* self_url := lift (Py.subscript links "self") in
  let* response :=
    requests_send (Http.Request DELETE (Py.str self_url) (params self) (headers self)
                     NoBody) in
  when (status_not_in response [200; 204])
    (let* filename := lift (Py.subscript file "filename") in
     let* body := lift (Http.json response) in
     print ("could not delete file " +:+ Py.str filename +:+ ": " +:+ Py.str body)).

(** Lines 149-160 of [update_doi]: an unsubmitted deposit is the draft, a
    submitted one gets a new version. *)
Definition select_draft (self : client) (doi : string) (target_deposit : json) : M json :=
  let* submitted := lift (Py.subscript target_deposit "submitted") in
  if negb (Py.truthy submitted) then ret target_deposit
  else
    let* links := lift (Py.subscript target_deposit "links") in
    let* newversion := lift (Py.subscript links "newversion") in
    let* response := post self newversion in
    if status_not_in response [200; 201] then
      let* body := lift (Http.json response) in
      sys_exit ("Cannot create a new version for doi '" +:+ doi +:+ "'. "
                +:+ Py.str body)
    else lift (Http.json response).

(** Lines 162-166 of [update_doi]: the draft's [latest_draft] is fetched. *)
Definition fetch_draft (self : client) (doi : string) (draft : json) : M json :=
  let* links := lift (Py.subscript draft "links") in
  let* latest_draft := lift (Py.subscript links "latest_draft") in
  let* response := get self latest_draft in
  if status_not_in response [200; 201] then
    let* body := lift (Http.json response) in
    sys_exit ("Cannot create a draft for doi '" +:+ doi +:+ "'. " +:+ Py.str body)
  else lift (Http.json response).

(** Lines 168-177 of [update_doi]: the files of the previous version are
    removed from the new one. *)
Definition clear_files (self : client) (new_version : json) : M unit :=
  let* files := lift (Py.get_default new_version "files" (JArr [])) in
  let* files := lift (Py.iter files) in
  for_each files (delete_file self).

Definition update_doi (self : client) (doi : string) : M json :=
  let* target_deposit := find_deposit self doi in
  let* target_deposit :=
    match target_deposit with
    | Some deposit =>
        if Py.truthy deposit then ret deposit
        else sys_exit ("Cannot find deposit with doi: '" +:+ doi
                       +:+ "'. Are you currently editing it?")
    | None => sys_exit ("Cannot find deposit with doi: '" +:+ doi
                        +:+ "'. Are you currently editing it?")
    end in
  let* draft := select_draft self doi target_deposit in
  let* new_version := fetch_draft self doi draft in
  clear_files self new_version ;;;
  ret new_version.

Definition upload_archive (self : client) (upload : json) (archive : string) : M unit :=
  let* links := lift (Py.subscript upload "links") in
  let* bucket_url := lift (Py.subscript links "bucket") in
  let* fp := open_read archive in
  let* response :=
    requests_send (Http.Request PUT (Py.str bucket_url +:+ "/" +:+ Path.basename archive)
                     (params self) [] (FileBody fp)) in
  if status_not_in response [200; 201] then
    sys_exit ("Trouble uploading artifact " +:+ archive
              +:+ " to bucket with response code " +:+ pretty (Http.status_code response))
  else ret tt.

Definition publish (self : client) (data : json) : M unit :=
  let* links := lift (Py.subscript data "links") in
  let* publish_url := lift (Py.subscript links "publish") in
  let* r := requests_send (Http.Request POST (Py.str publish_url) (params self) []
                             NoBody) in
  if status_not_in r [200; 201; 202] then
    let* body := lift (Http.json r) in
    sys_exit ("Issue publishing record: " +:+ pretty (Http.status_code r)
              +:+ ", " +:+ Py.str body)
  else
    let* published := lift (Http.json r) in
    print "::group::Record" ;;;
    print_json published ;;;
    print "::endgroup::" ;;;
    let* links := lift (Py.subscript published "links") in
    let* items := lift (Py.items links) in
    for_each items (λ kv, set_env_and_output (fst kv) (snd kv)).

(** One element of a sequence given to [dict.update]: an iterable of two
    items, the key and the value.  What cannot be iterated is a
    [TypeError], what has not two items a [ValueError]. *)
Definition update_item (element : json) : outcome (json * json) :=
  match Py.iter element with
  | Ok [key; value] => Ok (key, value)
  | Ok _ => Raise ValueError
  | Exit msg => Exit msg
  | Raise e => Raise e
  end.

(** [metadata.update(other)] for a list [other], element by element.  The
    key has to be hashable, which a list and a dictionary are not.  A key
    that is a number, a boolean or [None] would make a dictionary whose
    keys are not all strings: [OutOfModel]. *)
Fixpoint update_from_items (metadata : dict) (items : list json) : outcome dict :=
  match items with
  | [] => Ok metadata
  | element :: rest =>
      match update_item element with
      | Ok (JStr key, value) => update_from_items (Dict.set key value metadata) rest
      | Ok (JArr _, _) | Ok (JObj _, _) => Raise TypeError
      | Ok _ => Raise OutOfModel
      | Exit msg => Exit msg
      | Raise e => Raise e
      end
  end.

(** [metadata.update(other)] for a decoded document [other]: a dictionary
    is merged in, a list is read as a sequence of key/value pairs, a
    non-empty string yields items of length one, and a number, a boolean
    or [None] cannot be iterated. *)
Definition metadata_update (metadata : dict) (other : json) : outcome dict :=
  match other with
  | JObj other => Ok (Dict.update metadata other)
  | JArr other => update_from_items metadata other
  | JStr other => if Py.nonempty other then Raise ValueError else Ok metadata
  | _ => Raise TypeError
  end.

(** The entry [upload_metadata] appends to [related_identifiers]. *)
Definition related_identifier (html_url : string) : json :=
  JObj [("identifier", JStr html_url); ("relation", JStr "isSupplementTo");
        ("resource_type", JStr "software"); ("scheme", JStr "url")].

(** [upload_metadata]; the client comes back with the header the method
    adds to [self.headers].  The dictionary the method edits in place is
    the caller's [upload["metadata"]], which the caller does not read
    again. *)
Definition upload_metadata (self : client) (upload : json)
    (zenodo_json : option string) (version : string) (html_url : option string)
    (title description : option string) (description_file : option TextIO)
  : M (json * client) :=
  let* metadata := lift (Py.subscript upload "metadata") in
  match metadata with
  | JObj metadata =>
      let* metadata :=
        if Py.given zenodo_json then
          let* template := read_json (default "" zenodo_json) in
          lift (metadata_update metadata template)
        else ret metadata in
      let metadata := Dict.set "version" (JStr version) metadata in
      let* today := datetime_today in
      let metadata :=
        Dict.set "publication_date" (JStr (Clock.strftime_ymd today)) metadata in
      let metadata :=
        if negb (Dict.mem "upload_type" metadata)
        then Dict.set "upload_type" (JStr "software") metadata else metadata in
      let self := Client (Dict.set "Content-Type" "application/json" (headers self))
                         (params self) (host self) in
      let* metadata :=
        if Py.given html_url then
          let metadata :=
            if Dict.mem "related_identifiers" metadata then metadata
            else Dict.set "related_identifiers" (JArr []) metadata in
          match Dict.get "related_identifiers" metadata with
          | Some (JArr identifiers) =>
              ret (Dict.set "related_identifiers"
                     (JArr (identifiers ++ [related_identifier (default "" html_url)]))
                     metadata)
          | _ => raise AttributeError
          end
        else ret metadata in
      let metadata :=
        match title with
        | Some title => Dict.set "title" (JStr title) metadata
        | None => metadata
        end in
      let metadata :=
        match description, description_file with
        | Some description, _ => Dict.set "description" (JStr description) metadata
        | None, Some description_file =>
            Dict.set "description" (JStr (unread description_file)) metadata
        | None, None => metadata
        end in
      let* id := lift (Py.subscript upload "id") in
      let url := "https://zenodo.org/api/deposit/depositions/" +:+ Py.str id in
      let* response :=
        requests_send (Http.Request PUT url (params self) (headers self)
                         (JsonBody (JObj [("metadata", JObj metadata)]))) in
      if negb (Http.status_code response =? 200) then
        let* body := lift (Http.json response) in
        sys_exit ("Trouble uploading metadata " +:+ pretty (Http.status_code response)
                  +:+ ", " +:+ Py.str body)
      else
        let* data := lift (Http.json response) in
        ret (data, self)
  | _ => raise (if Py.given zenodo_json then AttributeError else TypeError)
  end.

End Client.
End Zenodo.

(** ** The orchestrator *)

Section Orchestrator.

Variable ZENODO_TOKEN : string.
Variable json_loads : string → option json.

(** The module-level [upload_archive]. *)
Definition upload_archive (archive version : string) (html_url zenodo_json doi : option string)
    (sandbox : bool) (title description : option string)
    (description_file : option TextIO) : M unit :=
  let* archive := os_abspath archive in
  let* found := path_exists archive in
  if negb found then sys_exit ("Archive " +:+ archive +:+ " does not exist.")
  else
    let cli := Zenodo.init ZENODO_TOKEN sandbox in
    let* upload :=
      if Py.given doi then Zenodo.update_doi cli (default "" doi)
      else if negb (Py.given zenodo_json) then
        sys_exit "You MUST provided a .zenodo.json template to create a new DOI."
      else Zenodo.new_doi cli in
    let* paths := glob archive in
    for_each paths (Zenodo.upload_archive cli upload) ;;;
    let* result :=
      Zenodo.upload_metadata json_loads cli upload zenodo_json version html_url
        title description description_file in
    Zenodo.publish (snd result) (fst result).

End Orchestrator.

(** ** The command line (lines 24-27, 359-392) *)

(** [read_file(filename)]. *)
Definition read_file (filename : string) : M string := open_read filename.

(** [os.path.exists(path)] for a path as given on the command line: a
    relative one is looked up from the working directory. *)
Definition os_path_exists (path : string) : M bool := λ w,
  (Ok (bool_decide (is_Some (fs w !! Path.abspath (cwd w) path))), w).

(** What [parser.parse_known_args()] hands to [main]: the subcommand, if
    any, and the arguments of [upload].  [archive] is positional, the
    others are options and [None] when absent. *)
Record Namespace : Type := {
  command : option string;
  archive : string;
  zenodo_json : option string;
  version : option string;
  title : option string;
  description : option string;
  description_file : option TextIO;
  doi : option string;
  html_url : option string
}.

(** How [main] ends: like any computation of the script, or by
    [sys.exit(code)] with an integer. *)
Inductive ending : Type :=
  | Ended (o : outcome unit)
  | ExitCode (code : Z).

Section CommandLine.

Variable ZENODO_TOKEN : string.
Variable json_loads : string → option json.

(** What [parser.print_help()] prints. *)
Variable help_text : string.

(** Lines 371-392 of [main]: the checks on the parsed arguments and the
    dispatch. *)
Definition main_upload (args : Namespace) : M unit :=
  let* missing :=
    if Py.given (zenodo_json args) then
      let* found := os_path_exists (default "" (zenodo_json args)) in
      ret (negb found)
    else ret false in
  if missing then sys_exit (default "" (zenodo_json args) +:+ " does not exist.")
  else if negb (Py.nonempty (archive args)) then
    sys_exit "You must provide an archive as the second positional argument."
  else if negb (Py.given (version args)) then
    sys_exit "You must provide a software version to upload."
  else if bool_decide (command args = Some "upload") then
    upload_archive ZENODO_TOKEN json_loads (archive args) (default "" (version args))
      (html_url args) (zenodo_json args) (doi args) false (title args)
      (description args) (description_file args)
  else sys_exit ("Unrecognized command " +:+ default "" (command args)).

(** [main()], after the arguments are parsed: without a subcommand the help
    is printed and the process exits with code 0. *)
Definition main (args : Namespace) (w : world) : ending * world :=
  if negb (Py.given (command args)) then (ExitCode 0, snd (print help_text w))
  else (Ended (fst (main_upload args w)), snd (main_upload args w)).

End CommandLine.

(** ** Vocabulary of the properties *)

(** The deposit the scan is after: one with a ["doi"] whose
    ["conceptdoi"] is the wanted one. *)
Definition is_match (doi : string) (deposit : dict) : bool :=
  Dict.mem "doi" deposit &&
  match Dict.get "conceptdoi" deposit with
  | Some conceptdoi => Py.eq_str conceptdoi doi
  | None => false
  end.

(** The precondition of the scan: whoever carries ["doi"] carries
    ["conceptdoi"]. *)
Definition has_conceptdoi (deposit : dict) : Prop :=
  Dict.mem "doi" deposit = true → Dict.mem "conceptdoi" deposit = true.

(** The run of [m] from [w] made one exchange with the network and [resp]
    was the answer: one response has left the inbox. *)
Definition answered {A} (m : M A) (w : world) (resp : Http.response) : Prop :=
  inbox w = resp :: inbox (snd (m w)).

(** The status of [resp] is not one of [codes]. *)
Definition refused (resp : Http.response) (codes : list Z) : Prop :=
  Http.status_code resp ∉ codes.

(** How a call that puts the decoded body into its message ends on the
    answer [resp]: by [sys.exit] with [message body] when the body of [resp]
    is the JSON document [body], by the decoder's exception when the body
    is not JSON. *)
Definition report {A} (message : json → string) (resp : Http.response) : outcome A :=
  match Http.decoded resp with
  | Some body => Exit (message body)
  | None => Raise JSONDecodeError
  end.

(** A call [m] that, answered by [resp] with a status outside [codes], ends
    as [ending resp] says. *)
Definition ends_outside {A} (m : M A) (codes : list Z)
    (ending : Http.response → outcome A) : Prop :=
  ∀ w resp, answered m w resp → refused resp codes → fst (m w) = ending resp.

(** A computation that leaves the network alone: nothing sent, nothing
    received. *)
Definition quiet {A} (m : M A) : Prop :=
  ∀ w, inbox (snd (m w)) = inbox w ∧ sent (snd (m w)) = sent w.

(** A computation whose requests, whatever the world, all satisfy [P]. *)
Definition sends_only {A} (P : Http.request → Prop) (m : M A) : Prop :=
  ∀ w, ∃ new, sent (snd (m w)) = sent w ++ new ∧ Forall P new.

(** The request goes to [host]. *)
Definition goes_to (host : string) (r : Http.request) : Prop :=
  Http.host_of (Http.url r) = host.

(** Where [self.get(url)] and [self.post(url)] send: [url] itself if it
    starts with ["http"], the path [url] on the client's host otherwise. *)
Definition target (self : Zenodo.client) (url : string) : string :=
  if negb (Str.startswith url "http") then "https://" +:+ Zenodo.host self +:+ url
  else url.

(** The request of [self.get(url)] and [self.post(url)]. *)
Definition wrapped (meth : method) (self : Zenodo.client) (url : string) : Http.request :=
  Http.Request meth (target self url) (Zenodo.params self) (Zenodo.headers self) NoBody.

(** The request of [requests.delete(url, params=self.params,
    headers=self.headers)]. *)
Definition deletion (self : Zenodo.client) (url : string) : Http.request :=
  Http.Request DELETE url (Zenodo.params self) (Zenodo.headers self) NoBody.

(** A file descriptor of the data model: an object with a ["filename"] and,
    under ["links"], a ["self"] URL.  The result is the URL and the name. *)
Definition file_descriptor (file : json) : option (string * json) :=
  match Py.subscript file "links", Py.subscript file "filename" with
  | Ok links, Ok filename =>
      match Py.subscript links "self" with
      | Ok (JStr url) => if Http.valid_url url then Some (url, filename) else None
      | _ => None
      end
  | _, _ => None
  end.

(** An answer to a deletion after which the loop goes on: its status is
    200 or 204, or its body is JSON. *)
Definition tolerated (response : Http.response) : Prop :=
  Http.status_code response ∈ [200; 204] ∨ is_Some (Http.decoded response).

(** What is printed about the deletion of the file called [filename] when
    [response] answers it: a line with the decoded body if the status is
    neither 200 nor 204. *)
Definition complaint (filename : json) (response : Http.response) : list output :=
  if Zenodo.status_not_in response [200; 204]
  then match Http.decoded response with
       | Some body => [Line ("could not delete file " +:+ Py.str filename +:+ ": "
                             +:+ Py.str body)]
       | None => []
       end
  else [].

(** A call for which an answer outside [codes] is the end of the run: the
    call does not return. *)
Definition fatal {A} (m : M A) (codes : list Z) : Prop :=
  ∀ w resp, answered m w resp → refused resp codes → ∀ a, fst (m w) ≠ Ok a.

(** What lines 231-235 make of the deposition's metadata: the metadata
    itself when no template is given, the metadata updated with the
    template's fields when the template file holds a JSON object. *)
Inductive merged (json_loads : string → option json) (w : world) (metadata : dict)
  : option string → dict → Prop :=
  | merged_alone (zenodo_json : option string) :
      Py.given zenodo_json = false →
      merged json_loads w metadata zenodo_json metadata
  | merged_template (path : string) (template : dict) :
      Py.nonempty path = true →
      Zenodo.read_json json_loads path w = (Ok (JObj template), w) →
      merged json_loads w metadata (Some path) (Dict.update metadata template).

(** Lines 245-254 can append: with an [html_url], the metadata has no
    ["related_identifiers"] yet or has a list there. *)
Definition identifiers_fit (html_url : option string) (metadata : dict) : Prop :=
  Py.given html_url = true →
  match Dict.get "related_identifiers" metadata with
  | Some (JArr _) | None => True
  | Some _ => False
  end.

(** The body of the metadata replace call. *)
Definition metadata_body (metadata : dict) : payload :=
  JsonBody (JObj [("metadata", JObj metadata)]).

(** The lines [publish] writes for the links [items], one per link. *)
Definition link_lines (items : dict) : string :=
  foldr (λ kv rest, (fst kv +:+ "=" +:+ Py.str (snd kv) +:+ nl) +:+ rest) "" items.

(** The request carries the token, and nothing else, as its query
    parameters. *)
Definition authenticated (token : string) (r : Http.request) : Prop :=
  Http.params r = [("access_token", token)].

(** [path] is not one of the two files the environment names for the
    outputs. *)
Definition not_an_output (w : world) (path : string) : Prop :=
  ∀ var file, var ∈ ["GITHUB_ENV"; "GITHUB_OUTPUT"] →
              environ w !! var = Some file → Path.abspath (cwd w) file ≠ path.

(** A computation that leaves the environment, the working directory and
    every file alone. *)
Definition reads_only {A} (m : M A) : Prop :=
  ∀ w, fs (snd (m w)) = fs w ∧ environ (snd (m w)) = environ w
       ∧ cwd (snd (m w)) = cwd w.

(** A computation that leaves alone the environment, the working directory
    and every path that is not an output file. *)
Definition spares {A} (m : M A) : Prop :=
  ∀ w, environ (snd (m w)) = environ w ∧ cwd (snd (m w)) = cwd w
       ∧ ∀ path, not_an_output w path → fs (snd (m w)) !! path = fs w !! path.

(** A computation that never ends by [sys.exit]. *)
Definition never_exits {A} (m : M A) : Prop :=
  ∀ w msg, fst (m w) ≠ Exit msg.

(** A computation whose runs that end by [sys.exit] have written no file. *)
Definition exits_clean {A} (m : M A) : Prop :=
  ∀ w msg, fst (m w) = Exit msg → fs (snd (m w)) = fs w.

(** The list under ["related_identifiers"], empty when there is none. *)
Definition identifiers (metadata : dict) : list json :=
  match Dict.get "related_identifiers" metadata with
  | Some (JArr l) => l
  | _ => []
  end.

(** The keys [upload_metadata] writes to. *)
Definition written_keys : list string :=
  ["version"; "publication_date"; "upload_type"; "related_identifiers"; "title";
   "description"].



(** A computation whose results, when it returns, all satisfy [Q]. *)
Definition returns {A} (Q : A → Prop) (m : M A) : Prop :=
  ∀ w a, fst (m w) = Ok a → Q a.

(** ** A release, to run the script on *)

Module Sample.

Definition token : string := "secret-token".

(** The decoder, on the one template of the example. *)
Definition loads (text : string) : option json :=
  if String.eqb text "TEMPLATE"
  then Some (JObj [("title", JStr "Template title"); ("license", JStr "MIT")])
  else None.

Definition links : json :=
  JObj [("newversion", JStr "https://zenodo.org/api/deposit/depositions/7/actions/newversion");
        ("latest_draft", JStr "https://zenodo.org/api/deposit/depositions/9");
        ("bucket", JStr "https://zenodo.org/api/files/bucket-9");
        ("publish", JStr "https://zenodo.org/api/deposit/depositions/9/actions/publish")].

Definition old_file : json :=
  JObj [("filename", JStr "old.zip");
        ("links", JObj [("self", JStr "https://zenodo.org/api/files/bucket-9/old.zip")])].

Definition other_file : json :=
  JObj [("filename", JStr "notes.txt");
        ("links", JObj [("self", JStr "https://zenodo.org/api/files/bucket-9/notes.txt")])].

(** A deposition of the lineage [10.5281/zenodo.1]. *)
Definition deposition (id : Z) (submitted : bool) : dict :=
  [("id", JNum id); ("doi", JStr "10.5281/zenodo.8");
   ("conceptdoi", JStr "10.5281/zenodo.1"); ("submitted", JBool submitted);
   ("metadata", JObj [("title", JStr "Old title"); ("upload_type", JStr "dataset")]);
   ("links", links); ("files", JArr [old_file; other_file])].

(** A deposition of another lineage, one that has no DOI yet, and one that
    has a ["doi"] but no ["conceptdoi"]. *)
Definition stranger : dict :=
  [("id", JNum 3); ("doi", JStr "10.5281/zenodo.5");
   ("conceptdoi", JStr "10.5281/zenodo.4"); ("submitted", JBool true)].

Definition unregistered : dict :=
  [("id", JNum 4); ("conceptdoi", JStr "10.5281/zenodo.1"); ("submitted", JBool false)].

Definition malformed : dict :=
  [("id", JNum 6); ("doi", JStr "10.5281/zenodo.6"); ("submitted", JBool true)].

Definition published : json :=
  JObj [("id", JNum 9);
        ("links", JObj [("html", JStr "https://zenodo.org/records/9");
                        ("doi", JStr "https://doi.org/10.5281/zenodo.9")])].

Definition error : json := JObj [("message", JStr "Internal error")].

Definition files : gmap string node :=
  list_to_map [("/", Dir); ("/gh", Dir); ("/gh/env", File ("CI=true" +:+ nl)); ("/gh/out", File "");
               ("/work", Dir); ("/work/.zenodo.json", File "TEMPLATE");
               ("/work/dist", Dir); ("/work/dist/a.zip", File "PK-a");
               ("/work/dist/b.zip", File "PK-b"); ("/work/dist/notes.txt", File "notes")].

Definition github : gmap string string :=
  list_to_map [("GITHUB_ENV", "/gh/env"); ("GITHUB_OUTPUT", "/gh/out")].

(** A world at 2024-01-01 23:30 UTC, one hour east of Greenwich, in which
    the network is going to deliver [responses]. *)
Definition world_with (environment : gmap string string)
    (responses : list Http.response) : world :=
  World environment files "/work" 1704151800 3600 responses [] [].

Definition cli : Zenodo.client := Zenodo.init token false.

End Sample.

(** * Properties *)

(** ** The library models on examples *)

Example repr_example :
  Py.repr (JObj [("status", JNum 500); ("message", JStr "boom"); ("ok", JBool false)])
  = "{'status': 500, 'message': 'boom', 'ok': False}".
Proof. vm_compute. reflexivity. Qed.

Example repr_str_examples :
  let double := String "034" "" in
  Py.repr (JStr "it's") = double +:+ "it's" +:+ double
  ∧ Py.repr (JStr ("a 'b' " +:+ double +:+ "c" +:+ double))
    = "'a \'b\' " +:+ double +:+ "c" +:+ double +:+ "'"
  ∧ Py.repr (JStr ("tab" +:+ String "009" "" +:+ "back\slash" +:+ String "001" ""))
    = "'tab\tback\\slash\x01'"
  ∧ Py.repr (JArr [JNull; JBool true; JNum (-3); JObj []]) = "[None, True, -3, {}]".
Proof. vm_compute. repeat split. Qed.

Example dirname_example :
  Path.dirname "/work/dist/a.zip" = "/work/dist" ∧ Path.dirname "/a.zip" = "/"
  ∧ Path.basename "/work/dist/a.zip" = "a.zip".
Proof. vm_compute. done. Qed.

Example abspath_examples :
  Path.abspath "/work" "dist/a.zip" = "/work/dist/a.zip"
  ∧ Path.abspath "/work" "./dist//a.zip" = "/work/dist/a.zip"
  ∧ Path.abspath "/work" "../x/./y/" = "/x/y"
  ∧ Path.abspath "/work" "" = "/work"
  ∧ Path.abspath "/work" "/../a" = "/a"
  ∧ Path.abspath "/work" "//a//b" = "//a/b"
  ∧ Path.abspath "/work" "///a" = "/a"
  ∧ Path.abspath "/work/" "a" = "/work/a"
  ∧ Path.normpath "a/../../b" = "../b"
  ∧ Path.normpath "a/.." = ".".
Proof. vm_compute. repeat split. Qed.

Example metadata_update_examples :
  let metadata := [("title", JStr "Old")] in
  Zenodo.metadata_update metadata (JObj [("title", JStr "New"); ("license", JStr "MIT")])
  = Ok [("title", JStr "New"); ("license", JStr "MIT")]
  ∧ Zenodo.metadata_update metadata (JArr [JArr [JStr "license"; JStr "MIT"]; JStr "ab"])
    = Ok [("title", JStr "Old"); ("license", JStr "MIT"); ("a", JStr "b")]
  ∧ Zenodo.metadata_update metadata (JArr [JArr [JStr "license"]]) = Raise ValueError
  ∧ Zenodo.metadata_update metadata (JArr [JNum 1]) = Raise TypeError
  ∧ Zenodo.metadata_update metadata (JArr [JArr [JArr []; JNum 1]]) = Raise TypeError
  ∧ Zenodo.metadata_update metadata (JStr "ab") = Raise ValueError
  ∧ Zenodo.metadata_update metadata JNull = Raise TypeError.
Proof. vm_compute. repeat split. Qed.

Example strftime_examples :
  Clock.strftime_ymd 0 = "1970-01-01"
  ∧ Clock.strftime_ymd 951782400 = "2000-02-29"
  ∧ Clock.strftime_ymd 1704067199 = "2023-12-31"
  ∧ Clock.strftime_ymd 1704067200 = "2024-01-01"
  ∧ Clock.strftime_ymd 1730678400 = "2024-11-04".
Proof. vm_compute. done. Qed.

Example glob_example :
  Glob.glob (list_to_map [("/", Dir); ("/dist", Dir); ("/dist/a.zip", File "A");
                          ("/dist/b.zip", File "B"); ("/dist/.c.zip", File "C");
                          ("/dist/sub", Dir); ("/dist/sub/d.zip", File "D");
                          ("/dist/notes.txt", File "N")]) "/dist/*.zip"
  = Some ["/dist/a.zip"; "/dist/b.zip"].
Proof. vm_compute. reflexivity. Qed.

(** ** Strings and dictionaries *)

Lemma string_app_cons (a : ascii) (s t : string) :
  String a s +:+ t = String a (s +:+ t).
Proof. reflexivity. Qed.

Lemma startswith_app (p s : string) : Str.startswith (p +:+ s) p = true.
Proof.
  induction p as [|a p IH]; [reflexivity|].
  rewrite string_app_cons. cbn. rewrite Ascii.eqb_refl. apply IH.
Qed.



Lemma dict_get_set_eq {V} (k : string) (v : V) (d : list (string * V)) :
  Dict.get k (Dict.set k v d) = Some v.
Proof.
  induction d as [|[k' v'] d IH]; cbn.
  - by rewrite String.eqb_refl.
  - destruct (String.eqb k' k) eqn:E; cbn.
    + by rewrite String.eqb_refl.
    + by rewrite E.
Qed.

Lemma dict_get_set_ne {V} (k k' : string) (v : V) (d : list (string * V)) :
  k ≠ k' → Dict.get k' (Dict.set k v d) = Dict.get k' d.
Proof.
  intros Hne. apply String.eqb_neq in Hne.
  induction d as [|[k0 v0] d IH]; cbn.
  - by rewrite Hne.
  - destruct (String.eqb k0 k) eqn:E; cbn.
    + apply String.eqb_eq in E as ->. by rewrite Hne.
    + destruct (String.eqb k0 k'); [done | apply IH].
Qed.

(** What [d.update(other)] leaves under a key: the value of [other] if it
    has the key, the old value otherwise. *)
Lemma dict_get_update {V} (k : string) (d other : list (string * V)) :
  Dict.get k (Dict.update d other)
  = match Dict.get k (rev other) with
    | Some v => Some v
    | None => Dict.get k d
    end.
Proof.
  unfold Dict.update. revert d.
  induction other as [|[k0 v0] other IH] using rev_ind; intros d; [reflexivity|].
  rewrite fold_left_app, rev_app_distr. cbn.
  destruct (String.eqb k0 k) eqn:E.
  - apply String.eqb_eq in E as ->. apply dict_get_set_eq.
  - apply String.eqb_neq in E. rewrite dict_get_set_ne by done. apply IH.
Qed.

(** ** Running the monad *)

Lemma bind_ok {A B} (m : M A) (k : A → M B) (w w' : world) (a : A) :
  m w = (Ok a, w') → bind m k w = k a w'.
Proof. intros H. unfold bind. by rewrite H. Qed.

(** A list is not its own tail: a run that consumed a response did change
    the inbox. *)
Lemma cons_neq_self {A} (x : A) (l : list A) : l ≠ x :: l.
Proof. intros H. apply (f_equal length) in H. cbn in H. lia. Qed.

(** ** [find_deposit] (lines 102-119) *)

Section FindDeposit.

Variable doi : string.

(** One turn of the loop on a deposit without ["doi"]. *)
Lemma find_deposit_loop_skip (deposit : dict) (rest : list json) (w : world) :
  Dict.mem "doi" deposit = false →
  Zenodo.find_deposit_loop doi (JObj deposit :: rest) w
  = Zenodo.find_deposit_loop doi rest w.
Proof.
  intros H. cbn [Zenodo.find_deposit_loop].
  unfold bind at 1. cbn. by rewrite H.
Qed.

(** One turn of the loop on a deposit with ["doi"] and ["conceptdoi"]. *)
Lemma find_deposit_loop_look (deposit : dict) (rest : list json) (w : world)
    (deposit_doi conceptdoi : json) :
  Dict.get "doi" deposit = Some deposit_doi →
  Dict.get "conceptdoi" deposit = Some conceptdoi →
  let w1 := set_stdout (stdout w ++ [Line ("looking at deposit " +:+ Py.str deposit_doi)]) w in
  Zenodo.find_deposit_loop doi (JObj deposit :: rest) w
  = if Py.eq_str conceptdoi doi then
      (Ok (Some (JObj deposit)),
       set_stdout (stdout w1 ++ [Line ("Found deposit " +:+ doi +:+ "! 🎉️")]) w1)
    else Zenodo.find_deposit_loop doi rest w1.
Proof.
  intros Hd Hc. cbn [Zenodo.find_deposit_loop].
  unfold bind, lift, print, ret. cbn. unfold Dict.mem. rewrite Hd. cbn.
  rewrite Hc. destruct (Py.eq_str conceptdoi doi); reflexivity.
Qed.

(** One turn of the loop on a deposit with ["doi"] but no ["conceptdoi"]:
    the unguarded read fails. *)
Lemma find_deposit_loop_unguarded (deposit : dict) (rest : list json) (w : world) :
  Dict.mem "doi" deposit = true →
  Dict.mem "conceptdoi" deposit = false →
  fst (Zenodo.find_deposit_loop doi (JObj deposit :: rest) w)
  = Raise (KeyError "conceptdoi").
Proof.
  unfold Dict.mem. intros Hd Hc.
  destruct (Dict.get "doi" deposit) as [deposit_doi|] eqn:Ed; [|done].
  destruct (Dict.get "conceptdoi" deposit) eqn:Ec; [done|].
  cbn [Zenodo.find_deposit_loop].
  unfold bind, lift, print, ret. cbn. unfold Dict.mem. rewrite Ed. cbn.
  by rewrite Ec.
Qed.

(** The scan touches nothing but the standard output. *)
Lemma find_deposit_loop_frame (deposits : list json) (w : world) :
  ∃ out, snd (Zenodo.find_deposit_loop doi deposits w)
         = set_stdout (stdout w ++ out) w.
Proof.
  revert w. induction deposits as [|deposit rest IH]; intros w.
  - exists []. cbn. rewrite app_nil_r. by destruct w.
  - cbn [Zenodo.find_deposit_loop]. unfold bind, lift, print, ret.
    destruct (Py.contains "doi" deposit) as [[|]| |]; cbn;
      try (exists []; rewrite app_nil_r; by destruct w).
    2: apply IH.
    destruct (Py.subscript deposit "doi") as [deposit_doi| |]; cbn;
      try (exists []; rewrite app_nil_r; by destruct w).
    destruct (Py.subscript deposit "conceptdoi") as [conceptdoi| |]; cbn;
      try (eexists [_]; reflexivity).
    destruct (Py.eq_str conceptdoi doi).
    + cbn. eexists [_; _]. cbn. by rewrite <- app_assoc.
    + destruct (IH (set_stdout (stdout w ++ [Line ("looking at deposit " +:+ Py.str deposit_doi)]) w))
        as [out Hout].
      rewrite Hout. exists (Line ("looking at deposit " +:+ Py.str deposit_doi) :: out).
      cbn. by rewrite <- app_assoc.
Qed.

(** Deposits without ["doi"] do not count: the scan gives what it gives
    on the list without them. *)
Lemma find_deposit_loop_filter (deposits : list dict) (w : world) :
  fst (Zenodo.find_deposit_loop doi (JObj <$> deposits) w)
  = fst (Zenodo.find_deposit_loop doi
           (JObj <$> filter (λ d, Dict.mem "doi" d = true) deposits) w).
Proof.
  revert w. induction deposits as [|deposit rest IH]; intros w; [done|].
  rewrite filter_cons. cbn [fmap list_fmap].
  destruct (Dict.mem "doi" deposit) eqn:Hd.
  - rewrite decide_True by done. cbn [fmap list_fmap].
    destruct (Dict.get "doi" deposit) as [deposit_doi|] eqn:Ed;
      [|unfold Dict.mem in Hd; by rewrite Ed in Hd].
    destruct (Dict.get "conceptdoi" deposit) as [conceptdoi|] eqn:Ec.
    + rewrite !(find_deposit_loop_look _ _ _ _ _ Ed Ec).
      destruct (Py.eq_str conceptdoi doi); [done | apply IH].
    + rewrite !find_deposit_loop_unguarded; try done; unfold Dict.mem; by rewrite Ec.
  - rewrite decide_False by done.
    rewrite find_deposit_loop_skip by done. apply IH.
Qed.

(** Under the precondition the scan returns the first match, or none. *)
Lemma find_deposit_loop_total (deposits : list dict) (w : world) :
  Forall has_conceptdoi deposits →
  fst (Zenodo.find_deposit_loop doi (JObj <$> deposits) w)
  = Ok (JObj <$> List.find (is_match doi) deposits).
Proof.
  intros Hall. revert w. induction Hall as [|deposit rest Hd _ IH]; intros w; [done|].
  cbn [fmap list_fmap List.find]. unfold is_match at 1.
  destruct (Dict.mem "doi" deposit) eqn:Hdoi.
  - specialize (Hd Hdoi). unfold Dict.mem in Hdoi, Hd.
    destruct (Dict.get "doi" deposit) as [deposit_doi|] eqn:Ed; [|done].
    destruct (Dict.get "conceptdoi" deposit) as [conceptdoi|] eqn:Ec; [|done].
    rewrite (find_deposit_loop_look _ _ _ _ _ Ed Ec). cbn.
    destruct (Py.eq_str conceptdoi doi); [done | apply IH].
  - rewrite find_deposit_loop_skip by done. cbn. apply IH.
Qed.

(** Without it the read of ["conceptdoi"] fails at the first deposit that
    has ["doi"] only, if the scan gets that far. *)
Lemma find_deposit_loop_partial (pre post : list dict) (deposit : dict) (w : world) :
  Forall has_conceptdoi pre →
  List.find (is_match doi) pre = None →
  Dict.mem "doi" deposit = true →
  Dict.mem "conceptdoi" deposit = false →
  fst (Zenodo.find_deposit_loop doi (JObj <$> (pre ++ deposit :: post)) w)
  = Raise (KeyError "conceptdoi").
Proof.
  intros Hall. revert w. induction Hall as [|d rest Hd _ IH]; intros w Hnone Hdoi Hc.
  - cbn [app fmap list_fmap]. by apply find_deposit_loop_unguarded.
  - cbn [app fmap list_fmap]. cbn [List.find] in Hnone. unfold is_match at 1 in Hnone.
    destruct (Dict.mem "doi" d) eqn:Hdd.
    + specialize (Hd Hdd). unfold Dict.mem in Hdd, Hd.
      destruct (Dict.get "doi" d) as [deposit_doi|] eqn:Ed; [|done].
      destruct (Dict.get "conceptdoi" d) as [conceptdoi|] eqn:Ec; [|done].
      rewrite (find_deposit_loop_look _ _ _ _ _ Ed Ec). cbn in Hnone.
      destruct (Py.eq_str conceptdoi doi); [done | by apply IH].
    + rewrite find_deposit_loop_skip by done. cbn in Hnone. by apply IH.
Qed.

End FindDeposit.

(** Whatever the scan returns passed the test for ["doi"]. *)
Lemma find_deposit_loop_returned (doi : string) (deposits : list dict) (w : world) (d : json) :
  fst (Zenodo.find_deposit_loop doi (JObj <$> deposits) w) = Ok (Some d) →
  ∃ deposit, d = JObj deposit ∧ deposit ∈ deposits ∧ Dict.mem "doi" deposit = true.
Proof.
  revert w. induction deposits as [|deposit rest IH]; intros w; [done|].
  cbn [fmap list_fmap].
  destruct (Dict.mem "doi" deposit) eqn:Hdoi.
  - destruct (Dict.mem "conceptdoi" deposit) eqn:Hc.
    + unfold Dict.mem in Hdoi, Hc.
      destruct (Dict.get "doi" deposit) as [deposit_doi|] eqn:Ed; [|done].
      destruct (Dict.get "conceptdoi" deposit) as [conceptdoi|] eqn:Ec; [|done].
      rewrite (find_deposit_loop_look _ _ _ _ _ _ Ed Ec).
      destruct (Py.eq_str conceptdoi doi).
      * cbn. intros [= <-]. exists deposit. split_and!; [done | left |].
        unfold Dict.mem. by rewrite Ed.
      * intros H. destruct (IH _ H) as (d' & -> & Hin & Hd').
        exists d'. split_and!; [done | by right | done].
    + by rewrite find_deposit_loop_unguarded.
  - rewrite find_deposit_loop_skip by done.
    intros H. destruct (IH _ H) as (d' & -> & Hin & Hd').
    exists d'. split_and!; [done | by right | done].
Qed.

(** C10.  The linear scan of [find_deposit] over a listing of depositions:
    - the depositions without a ["doi"] key are skipped (the scan gives what
      it gives on the listing without them), and what it returns is a
      deposition of the listing that has the key;
    - when every deposition that has ["doi"] has ["conceptdoi"] as well, the
      scan returns the first match, or none;
    - without that it is not total: the unguarded read of ["conceptdoi"]
      raises [KeyError] at the first deposition that has ["doi"] only, when
      no match comes before it. *)
Theorem find_deposit_scan (doi : string) (deposits : list dict) (w : world) :
  let scan := λ listing, fst (Zenodo.find_deposit_loop doi (JObj <$> listing) w) in
  scan deposits = scan (filter (λ d, Dict.mem "doi" d = true) deposits)
  ∧ (∀ d, scan deposits = Ok (Some d) →
       ∃ deposit, d = JObj deposit ∧ deposit ∈ deposits ∧ Dict.mem "doi" deposit = true)
  ∧ (Forall has_conceptdoi deposits →
       scan deposits = Ok (JObj <$> List.find (is_match doi) deposits))
  ∧ (∀ pre deposit post,
       deposits = pre ++ deposit :: post →
       Forall has_conceptdoi pre →
       List.find (is_match doi) pre = None →
       Dict.mem "doi" deposit = true →
       Dict.mem "conceptdoi" deposit = false →
       scan deposits = Raise (KeyError "conceptdoi")).
Proof.
  cbn zeta. split_and!.
  - apply find_deposit_loop_filter.
  - apply find_deposit_loop_returned.
  - apply find_deposit_loop_total.
  - intros pre deposit post -> Hpre Hnone Hdoi Hc.
    by apply find_deposit_loop_partial.
Qed.

(** ** Computations that leave the network alone *)

Lemma quiet_ret {A} (a : A) : quiet (ret a).
Proof. done. Qed.

Lemma quiet_lift {A} (o : outcome A) : quiet (lift o).
Proof. done. Qed.

Lemma quiet_bind {A B} (m : M A) (k : A → M B) :
  quiet m → (∀ a, quiet (k a)) → quiet (bind m k).
Proof.
  intros Hm Hk w. unfold bind. specialize (Hm w).
  destruct (m w) as [[a| |] w']; cbn in *; [|done..].
  destruct (Hk a w') as [-> ->]. done.
Qed.

Lemma quiet_for_each {A} (l : list A) (body : A → M unit) :
  (∀ a, quiet (body a)) → quiet (for_each l body).
Proof.
  intros Hbody. induction l as [|a l IH]; cbn [for_each].
  - apply quiet_ret.
  - apply quiet_bind; [apply Hbody | intros _; apply IH].
Qed.

Lemma quiet_print (text : string) : quiet (print text).
Proof. done. Qed.

Lemma quiet_print_json (j : json) : quiet (print_json j).
Proof. done. Qed.

Lemma quiet_environ_get (name : string) : quiet (environ_get name).
Proof. done. Qed.

Lemma quiet_open_append (path : option string) (text : string) :
  quiet (open_append path text).
Proof.
  intros w. unfold open_append. destruct path as [path|]; [|done].
  repeat case_match; done.
Qed.

Lemma quiet_open_read (path : string) : quiet (open_read path).
Proof. intros w. unfold open_read. repeat case_match; done. Qed.

Lemma quiet_set_env_and_output (name : string) (value : json) :
  quiet (set_env_and_output name value).
Proof.
  apply quiet_for_each. intros env_var.
  apply quiet_bind; [apply quiet_environ_get | intros path].
  apply quiet_bind; [apply quiet_print | intros _; apply quiet_open_append].
Qed.

(** ** Fatal answers (lines 95, 131, 155, 164, 194, 206, 272) *)

Lemma valid_url_https (rest : string) : Http.valid_url ("https://" +:+ rest) = true.
Proof.
  unfold Http.valid_url. rewrite (startswith_app "https://" rest).
  apply orb_true_r.
Qed.

Lemma refused_status_not_in (resp : Http.response) (codes : list Z) :
  refused resp codes → Zenodo.status_not_in resp codes = true.
Proof.
  intros H. unfold Zenodo.status_not_in.
  by rewrite bool_decide_eq_false_2.
Qed.

(** A computation that did not reach the network was not answered. *)
Lemma not_answered {A} (m : M A) (w : world) (resp : Http.response) :
  inbox (snd (m w)) = inbox w → ¬ answered m w resp.
Proof. unfold answered. intros -> H. by eapply cons_neq_self. Qed.

(** A computation that never reaches the network makes no call to fail. *)
Lemma ends_quiet {A} (m : M A) (codes : list Z) (ending : Http.response → outcome A) :
  quiet m → ends_outside m codes ending.
Proof. intros Hm w resp Hans. destruct (not_answered m w resp); [apply Hm | done]. Qed.

(** What comes quietly before a call does not change what the call does. *)
Lemma ends_bind_quiet {A B} (m : M A) (k : A → M B) (codes : list Z)
    (ending : Http.response → outcome B) :
  quiet m → (∀ a, ends_outside (k a) codes ending) →
  ends_outside (bind m k) codes ending.
Proof.
  intros Hm Hk w resp. unfold answered, bind.
  destruct (Hm w) as [Hin _].
  destruct (m w) as [[a| |] w'] eqn:E; cbn in *.
  - rewrite <- Hin. apply Hk.
  - rewrite Hin. intros H. by apply cons_neq_self in H.
  - rewrite Hin. intros H. by apply cons_neq_self in H.
Qed.

(** The pattern of every required call: send, look at the status, stop on
    a status that is not accepted, go on quietly otherwise. *)
Lemma ends_exchange {A} (req : Http.request) (codes : list Z)
    (ending : Http.response → outcome A) (bad : Http.response → bool)
    (stop k : Http.response → M A) :
  (∀ r, refused r codes → bad r = true) →
  (∀ r, quiet (k r)) →
  (∀ r w, stop r w = (ending r, w)) →
  ends_outside (let* response := requests_send req in
                if bad response then stop response else k response)
    codes ending.
Proof.
  intros Hbad Hk Hstop w resp. unfold answered, bind, requests_send.
  destruct (negb (Http.valid_url (Http.url req))); cbn.
  { intros H. by apply cons_neq_self in H. }
  destruct (inbox w) as [|r rest] eqn:E; cbn; [done|].
  destruct (bad r) eqn:Es; cbn.
  - rewrite Hstop. cbn. by intros [= <-] _.
  - destruct (Hk r (set_net rest (sent w ++ [req]) w)) as [-> _]. cbn.
    intros [= <-] Href. by rewrite Hbad in Es.
Qed.

(** What follows the exchange in a call, when it leaves the network alone. *)
Ltac quiet_sequel :=
  repeat first [ apply quiet_ret | apply quiet_lift | apply quiet_print
               | apply quiet_print_json | apply quiet_bind; [|intros ?] ].

(** The refusal of a call that reports the decoded body. *)
Lemma report_run {A} (message : json → string) (r : Http.response) (w : world) :
  (let* body := lift (Http.json r) in sys_exit (A := A) (message body)) w
  = (report message r, w).
Proof.
  unfold bind, lift, sys_exit, Http.json, report. by destruct (Http.decoded r).
Qed.

Lemma get_depositions_refused (self : Zenodo.client) :
  ends_outside (Zenodo.get_depositions self) [200; 201]
    (λ resp, report (λ body, "Cannot query depositions: "
                             +:+ pretty (Http.status_code resp) +:+ ", " +:+ Py.str body)
               resp).
Proof.
  unfold Zenodo.get_depositions, Zenodo.get. cbn.
  apply ends_exchange.
  - intros r. apply refused_status_not_in.
  - intros r. apply quiet_lift.
  - intros r w. apply report_run.
Qed.

Lemma new_doi_refused (self : Zenodo.client) :
  ends_outside (Zenodo.new_doi self) [200; 201]
    (λ resp, report (λ body, "Trouble requesting new upload: "
                             +:+ pretty (Http.status_code resp) +:+ ", " +:+ Py.str body)
               resp).
Proof.
  unfold Zenodo.new_doi.
  apply ends_exchange.
  - intros r. apply refused_status_not_in.
  - intros r. apply quiet_lift.
  - intros r w. apply report_run.
Qed.

Lemma select_draft_refused (self : Zenodo.client) (doi : string) (target_deposit : json) :
  ends_outside (Zenodo.select_draft self doi target_deposit) [200; 201]
    (report (λ body, "Cannot create a new version for doi '" +:+ doi +:+ "'. "
                     +:+ Py.str body)).
Proof.
  unfold Zenodo.select_draft.
  apply ends_bind_quiet; [apply quiet_lift | intros submitted].
  destruct (negb (Py.truthy submitted)); [apply ends_quiet, quiet_ret|].
  apply ends_bind_quiet; [apply quiet_lift | intros links].
  apply ends_bind_quiet; [apply quiet_lift | intros newversion].
  unfold Zenodo.post. destruct newversion; try apply ends_quiet, quiet_lift.
  apply ends_exchange.
  - intros r. apply refused_status_not_in.
  - intros r. apply quiet_lift.
  - intros r w. apply report_run.
Qed.

Lemma fetch_draft_refused (self : Zenodo.client) (doi : string) (draft : json) :
  ends_outside (Zenodo.fetch_draft self doi draft) [200; 201]
    (report (λ body, "Cannot create a draft for doi '" +:+ doi +:+ "'. " +:+ Py.str body)).
Proof.
  unfold Zenodo.fetch_draft.
  apply ends_bind_quiet; [apply quiet_lift | intros links].
  apply ends_bind_quiet; [apply quiet_lift | intros latest_draft].
  unfold Zenodo.get. destruct latest_draft; try apply ends_quiet, quiet_lift.
  apply ends_exchange.
  - intros r. apply refused_status_not_in.
  - intros r. apply quiet_lift.
  - intros r w. apply report_run.
Qed.

Lemma upload_archive_refused (self : Zenodo.client) (upload : json) (archive : string) :
  ends_outside (Zenodo.upload_archive self upload archive) [200; 201]
    (λ resp, Exit ("Trouble uploading artifact " +:+ archive
                   +:+ " to bucket with response code "
                   +:+ pretty (Http.status_code resp))).
Proof.
  unfold Zenodo.upload_archive.
  apply ends_bind_quiet; [apply quiet_lift | intros links].
  apply ends_bind_quiet; [apply quiet_lift | intros bucket_url].
  apply ends_bind_quiet; [apply quiet_open_read | intros fp].
  apply ends_exchange.
  - intros r. apply refused_status_not_in.
  - intros r. apply quiet_ret.
  - intros r w. reflexivity.
Qed.

Lemma publish_refused (self : Zenodo.client) (data : json) :
  ends_outside (Zenodo.publish self data) [200; 201; 202]
    (λ resp, report (λ body, "Issue publishing record: "
                             +:+ pretty (Http.status_code resp) +:+ ", " +:+ Py.str body)
               resp).
Proof.
  unfold Zenodo.publish.
  apply ends_bind_quiet; [apply quiet_lift | intros links].
  apply ends_bind_quiet; [apply quiet_lift | intros publish_url].
  apply ends_exchange.
  - intros r. apply refused_status_not_in.
  - intros r.
    repeat (apply quiet_bind;
            [first [apply quiet_print | apply quiet_print_json | apply quiet_lift]
            | intros ?]).
    apply quiet_for_each. intros kv. apply quiet_set_env_and_output.
  - intros r w. apply report_run.
Qed.

Lemma quiet_read_json (json_loads : string → option json) (filename : string) :
  quiet (Zenodo.read_json json_loads filename).
Proof.
  apply quiet_bind; [apply quiet_open_read | intros content].
  destruct (json_loads content); [apply quiet_ret | apply quiet_lift].
Qed.

Lemma quiet_datetime_today : quiet datetime_today.
Proof. done. Qed.

Lemma upload_metadata_refused (json_loads : string → option json) (self : Zenodo.client)
    (upload : json) (zenodo_json : option string) (version : string)
    (html_url title description : option string) (description_file : option TextIO) :
  ends_outside (Zenodo.upload_metadata json_loads self upload zenodo_json version
                  html_url title description description_file)
    [200]
    (λ resp, report (λ body, "Trouble uploading metadata "
                             +:+ pretty (Http.status_code resp) +:+ ", " +:+ Py.str body)
               resp).
Proof.
  unfold Zenodo.upload_metadata.
  apply ends_bind_quiet; [apply quiet_lift | intros metadata].
  destruct metadata as [| | | | |metadata]; try apply ends_quiet, quiet_lift.
  apply ends_bind_quiet.
  { destruct (Py.given zenodo_json); [|apply quiet_ret].
    apply quiet_bind; [apply quiet_read_json | intros template; apply quiet_lift]. }
  intros merged.
  apply ends_bind_quiet; [apply quiet_datetime_today | intros today].
  cbn zeta.
  apply ends_bind_quiet.
  { destruct (Py.given html_url); [|apply quiet_ret].
    repeat case_match; first [apply quiet_ret | apply quiet_lift]. }
  intros final.
  apply ends_bind_quiet; [apply quiet_lift | intros id].
  apply ends_exchange.
  - intros r Href. unfold refused in Href. rewrite list_elem_of_singleton in Href.
    apply negb_true_iff, Z.eqb_neq. done.
  - intros r. apply quiet_bind; [apply quiet_lift | intros data; apply quiet_ret].
  - intros r w. apply report_run.
Qed.

(** C2, as stated, fails on the code.  Answered with status 500 and a JSON
    body, the file upload exits with a message in which the body cannot be
    read, and the new-version call and the fetch of the draft exit with
    messages in which the status cannot be read.  Answered with status 502
    and a body that is not JSON, the listing does not exit with a message
    at all: decoding the body for the message raises. *)
Lemma required_calls_report_counterexample :
  let draft := JObj (Sample.deposition 9 false) in
  let doi := "10.5281/zenodo.1" in
  let w := Sample.world_with Sample.github [Http.Response 500 (Some Sample.error)] in
  Py.str Sample.error = "{'message': 'Internal error'}"
  ∧ (∃ msg, fst (Zenodo.upload_archive Sample.cli draft "/work/dist/a.zip" w) = Exit msg
            ∧ Str.contains "500" msg = true
            ∧ Str.contains (Py.str Sample.error) msg = false)
  ∧ (∃ msg, fst (Zenodo.select_draft Sample.cli doi (JObj (Sample.deposition 7 true)) w)
            = Exit msg
            ∧ Str.contains (Py.str Sample.error) msg = true
            ∧ Str.contains "500" msg = false)
  ∧ (∃ msg, fst (Zenodo.fetch_draft Sample.cli doi draft w) = Exit msg
            ∧ Str.contains (Py.str Sample.error) msg = true
            ∧ Str.contains "500" msg = false)
  ∧ fst (Zenodo.get_depositions Sample.cli
           (Sample.world_with Sample.github [Http.Response 502 None]))
    = Raise JSONDecodeError.
Proof.
  cbn zeta. split_and!.
  - vm_compute. reflexivity.
  - eexists. split_and!; vm_compute; reflexivity.
  - eexists. split_and!; vm_compute; reflexivity.
  - eexists. split_and!; vm_compute; reflexivity.
  - vm_compute. reflexivity.
Qed.

(** C2, amended.  A required call that is answered with a status outside
    its accepted set ends the run there.  The file upload exits by
    [sys.exit] with a message made of the archive path and the status, and
    does not decode the body.  The six other calls decode the body for
    their message first: when the body is not JSON the run ends with the
    decoder's exception and no message; when it is, the run ends by
    [sys.exit] with the call's message, which is made of the status and the
    body for the listing, the creation, the metadata call (accepted: 200
    only) and the publish call (accepted: 200, 201, 202), and of the DOI
    and the body, without the status, for the new-version call and the
    fetch of the draft. *)
Theorem required_calls_are_fatal (json_loads : string → option json)
    (self : Zenodo.client) (doi : string) (deposit upload : json) (archive : string)
    (zenodo_json : option string) (version : string)
    (html_url title description : option string) (description_file : option TextIO) :
  ends_outside (Zenodo.get_depositions self) [200; 201]
    (λ resp, report (λ body, "Cannot query depositions: "
                             +:+ pretty (Http.status_code resp) +:+ ", " +:+ Py.str body)
               resp)
  ∧ ends_outside (Zenodo.new_doi self) [200; 201]
      (λ resp, report (λ body, "Trouble requesting new upload: "
                               +:+ pretty (Http.status_code resp) +:+ ", " +:+ Py.str body)
                 resp)
  ∧ ends_outside (Zenodo.select_draft self doi deposit) [200; 201]
      (report (λ body, "Cannot create a new version for doi '" +:+ doi +:+ "'. "
                       +:+ Py.str body))
  ∧ ends_outside (Zenodo.fetch_draft self doi deposit) [200; 201]
      (report (λ body, "Cannot create a draft for doi '" +:+ doi +:+ "'. "
                       +:+ Py.str body))
  ∧ ends_outside (Zenodo.upload_archive self upload archive) [200; 201]
      (λ resp, Exit ("Trouble uploading artifact " +:+ archive
                     +:+ " to bucket with response code "
                     +:+ pretty (Http.status_code resp)))
  ∧ ends_outside (Zenodo.upload_metadata json_loads self upload zenodo_json version
                    html_url title description description_file)
      [200]
      (λ resp, report (λ body, "Trouble uploading metadata "
                               +:+ pretty (Http.status_code resp) +:+ ", " +:+ Py.str body)
                 resp)
  ∧ ends_outside (Zenodo.publish self upload) [200; 201; 202]
      (λ resp, report (λ body, "Issue publishing record: "
                               +:+ pretty (Http.status_code resp) +:+ ", " +:+ Py.str body)
                 resp).
Proof.
  split_and!.
  - apply get_depositions_refused.
  - apply new_doi_refused.
  - apply select_draft_refused.
  - apply fetch_draft_refused.
  - apply upload_archive_refused.
  - apply upload_metadata_refused.
  - apply publish_refused.
Qed.

(** ** What a computation sends *)

Lemma sends_only_quiet {A} (P : Http.request → Prop) (m : M A) :
  quiet m → sends_only P m.
Proof.
  intros Hm w. exists []. destruct (Hm w) as [_ ->]. by rewrite app_nil_r.
Qed.

Lemma sends_only_bind {A B} (P : Http.request → Prop) (m : M A) (k : A → M B) :
  sends_only P m → (∀ a, sends_only P (k a)) → sends_only P (bind m k).
Proof.
  intros Hm Hk w. unfold bind. destruct (Hm w) as (new & Hsent & Hnew).
  destruct (m w) as [[a| |] w']; cbn in *; [|by exists new..].
  destruct (Hk a w') as (new' & Hsent' & Hnew').
  exists (new ++ new'). rewrite Hsent', Hsent, app_assoc. split; [done|].
  by apply Forall_app.
Qed.

Lemma sends_only_for_each {A} (P : Http.request → Prop) (l : list A) (body : A → M unit) :
  (∀ a, sends_only P (body a)) → sends_only P (for_each l body).
Proof.
  intros Hbody. induction l as [|a l IH]; cbn [for_each].
  - apply sends_only_quiet, quiet_ret.
  - apply sends_only_bind; [apply Hbody | intros _; apply IH].
Qed.

Lemma sends_only_requests_send (P : Http.request → Prop) (req : Http.request) :
  P req → sends_only P (requests_send req).
Proof.
  intros HP w. unfold requests_send.
  destruct (negb (Http.valid_url (Http.url req))); cbn.
  - exists []. by rewrite app_nil_r.
  - destruct (inbox w); cbn; exists [req]; split; by repeat constructor.
Qed.

Lemma sends_only_weaken {A} (P Q : Http.request → Prop) (m : M A) :
  (∀ r, P r → Q r) → sends_only P m → sends_only Q m.
Proof.
  intros HPQ Hm w. destruct (Hm w) as (new & Hsent & Hnew).
  exists new. split; [done|]. by eapply Forall_impl.
Qed.

(** After a call whose sequel is quiet, the call is the one new request. *)
Lemma sent_after_exchange {A} (req : Http.request) (k : Http.response → M A) (w : world) :
  Http.valid_url (Http.url req) = true →
  (∀ r, quiet (k r)) →
  sent (snd (bind (requests_send req) k w)) = sent w ++ [req].
Proof.
  intros Hvalid Hk. unfold bind, requests_send. rewrite Hvalid. cbn.
  destruct (inbox w) as [|r rest]; [done|].
  by destruct (Hk r (set_net rest (sent w ++ [req]) w)) as [_ ->].
Qed.

(** ** The host of the calls (lines 66-88, 125-130, 265-271) *)

Lemma host_of_production (rest : string) :
  Http.host_of ("https://zenodo.org/" +:+ rest) = "zenodo.org".
Proof. vm_compute. reflexivity. Qed.

Lemma upload_metadata_goes_to_production (json_loads : string → option json)
    (self : Zenodo.client) (upload : json) (zenodo_json : option string)
    (version : string) (html_url title description : option string)
    (description_file : option TextIO) :
  sends_only (goes_to "zenodo.org")
    (Zenodo.upload_metadata json_loads self upload zenodo_json version
       html_url title description description_file).
Proof.
  unfold Zenodo.upload_metadata.
  apply sends_only_bind; [apply sends_only_quiet, quiet_lift | intros metadata].
  destruct metadata as [| | | | |metadata]; try apply sends_only_quiet, quiet_lift.
  apply sends_only_bind.
  { apply sends_only_quiet. destruct (Py.given zenodo_json); [|apply quiet_ret].
    apply quiet_bind; [apply quiet_read_json | intros template; apply quiet_lift]. }
  intros merged.
  apply sends_only_bind; [apply sends_only_quiet, quiet_datetime_today | intros today].
  cbn zeta.
  apply sends_only_bind.
  { apply sends_only_quiet. destruct (Py.given html_url); [|apply quiet_ret].
    repeat case_match; first [apply quiet_ret | apply quiet_lift]. }
  intros final.
  apply sends_only_bind; [apply sends_only_quiet, quiet_lift | intros id].
  apply sends_only_bind.
  - apply sends_only_requests_send. unfold goes_to. cbn [Http.url].
    apply (host_of_production ("api/deposit/depositions/" +:+ Py.str id)).
  - intros r. apply sends_only_quiet.
    destruct (negb (Http.status_code r =? 200)); quiet_sequel.
Qed.

(** C1: the code at the failing input.  A client built with the sandbox
    option has the sandbox host and lists the depositions there, but
    [new_doi] and [upload_metadata] send to [zenodo.org], whatever the
    world and the arguments. *)
Theorem sandbox_calls_go_to_production (token : string) (w : world) :
  let self := Zenodo.init token true in
  Zenodo.host self = "sandbox.zenodo.org"
  ∧ (∃ r, sent (snd (Zenodo.get_depositions self w)) = sent w ++ [r]
          ∧ goes_to "sandbox.zenodo.org" r)
  ∧ (∃ r, sent (snd (Zenodo.new_doi self w)) = sent w ++ [r]
          ∧ Http.meth r = POST ∧ goes_to "zenodo.org" r)
  ∧ (∀ json_loads upload zenodo_json version html_url title description description_file,
       sends_only (goes_to "zenodo.org")
         (Zenodo.upload_metadata json_loads self upload zenodo_json version
            html_url title description description_file))
  ∧ (∃ r, sent (snd (Zenodo.upload_metadata Sample.loads self
                       (JObj (Sample.deposition 9 false)) (Some ".zenodo.json") "1.2.3"
                       None None None None (Sample.world_with Sample.github [])))
          = [r]
          ∧ Http.meth r = PUT ∧ goes_to "zenodo.org" r).
Proof.
  cbn zeta. split_and!.
  - reflexivity.
  - eexists. split.
    + unfold Zenodo.get_depositions, Zenodo.get, bind, requests_send. cbn.
      rewrite valid_url_https. cbn.
      destruct (inbox w) as [|r rest]; [reflexivity|].
      unfold Http.json. by destruct (Zenodo.status_not_in r [200; 201]), (Http.decoded r).
    + vm_compute. reflexivity.
  - eexists. split_and!.
    + unfold Zenodo.new_doi, bind, requests_send. cbn.
      destruct (inbox w) as [|r rest]; [reflexivity|].
      unfold Http.json. by destruct (Zenodo.status_not_in r [200; 201]), (Http.decoded r).
    + reflexivity.
    + vm_compute. reflexivity.
  - intros. apply upload_metadata_goes_to_production.
  - eexists. split_and!; [vm_compute; reflexivity | reflexivity | vm_compute; reflexivity].
Qed.

(** ** Clearing the files of a draft (lines 168-177) *)

Lemma file_descriptor_inv (file : json) (url : string) (filename : json) :
  file_descriptor file = Some (url, filename) →
  ∃ links, Py.subscript file "links" = Ok links
           ∧ Py.subscript links "self" = Ok (JStr url)
           ∧ Py.subscript file "filename" = Ok filename
           ∧ Http.valid_url url = true.
Proof.
  unfold file_descriptor. intros H.
  destruct (Py.subscript file "links") as [links| |]; [|done..].
  destruct (Py.subscript file "filename") as [name| |]; [|done..].
  destruct (Py.subscript links "self") as [[| | |u| |]| |] eqn:Es; try done.
  destruct (Http.valid_url u) eqn:Hu; [|done].
  injection H as <- <-. by exists links.
Qed.

(** One deletion with an answer that is accepted or decodes: the request
    goes out and the loop goes on, with a line printed for a status that is
    neither 200 nor 204. *)
Lemma delete_file_run (self : Zenodo.client) (file : json) (url : string) (filename : json)
    (response : Http.response) (rest : list Http.response) (w : world) :
  file_descriptor file = Some (url, filename) →
  inbox w = response :: rest →
  tolerated response →
  Zenodo.delete_file self file w
  = (Ok tt, set_stdout (stdout w ++ complaint filename response)
              (set_net rest (sent w ++ [deletion self url]) w)).
Proof.
  intros Hfile Hin Htolerated.
  apply file_descriptor_inv in Hfile as (links & Hl & Hs & Hn & Hu).
  unfold Zenodo.delete_file, bind, lift, requests_send, when, complaint, Http.json.
  rewrite Hl, Hs. cbn. rewrite Hu, Hin. cbn.
  destruct Htolerated as [Hok|[body Hbody]].
  - unfold Zenodo.status_not_in. rewrite bool_decide_eq_true_2 by done. cbn.
    rewrite app_nil_r. reflexivity.
  - rewrite Hbody. destruct (Zenodo.status_not_in response [200; 204]); cbn.
    + rewrite Hn. reflexivity.
    + rewrite app_nil_r. reflexivity.
Qed.

(** One deletion refused with a body that is not JSON: the request goes
    out, and building the line to print raises. *)
Lemma delete_file_undecodable (self : Zenodo.client) (file : json) (url : string)
    (filename : json) (response : Http.response) (rest : list Http.response) (w : world) :
  file_descriptor file = Some (url, filename) →
  inbox w = response :: rest →
  Http.status_code response ∉ [200; 204] →
  Http.decoded response = None →
  Zenodo.delete_file self file w
  = (Raise JSONDecodeError, set_net rest (sent w ++ [deletion self url]) w).
Proof.
  intros Hfile Hin Hrefused Hbody.
  apply file_descriptor_inv in Hfile as (links & Hl & Hs & Hn & Hu).
  unfold Zenodo.delete_file, bind, lift, requests_send, when, Http.json.
  rewrite Hl, Hs. cbn. rewrite Hu, Hin. cbn.
  unfold Zenodo.status_not_in. rewrite bool_decide_eq_false_2 by done. cbn.
  rewrite Hn, Hbody. reflexivity.
Qed.

Lemma clear_loop_run (self : Zenodo.client) (files : list json)
    (descriptors : list (string * json)) :
  Forall2 (λ file d, file_descriptor file = Some d) files descriptors →
  ∀ (responses rest : list Http.response) (w : world),
    inbox w = responses ++ rest →
    length responses = length files →
    Forall tolerated responses →
    ∃ w', for_each files (Zenodo.delete_file self) w = (Ok tt, w')
          ∧ sent w' = sent w ++ (deletion self ∘ fst <$> descriptors)
          ∧ inbox w' = rest
          ∧ stdout w' = stdout w ++ concat (zip_with complaint (snd <$> descriptors) responses)
          ∧ fs w' = fs w.
Proof.
  induction 1 as [|file [url filename] files descriptors Hfile _ IH];
    intros responses rest w Hin Hlen Htolerated.
  - destruct responses; [|done]. exists w. cbn. by rewrite !app_nil_r.
  - destruct responses as [|response responses]; [done|].
    apply Forall_cons in Htolerated as [Hfirst Htolerated].
    cbn [for_each]. unfold bind at 1.
    rewrite (delete_file_run _ _ _ _ _ _ _ Hfile Hin Hfirst).
    destruct (IH responses rest
                (set_stdout (stdout w ++ complaint filename response)
                   (set_net (responses ++ rest) (sent w ++ [deletion self url]) w)))
      as (w' & Hrun & Hsent & Hinbox & Hout & Hfs); [done | by injection Hlen | done |].
    exists w'. split_and!; [done | | done | | done].
    + rewrite Hsent. cbn. by rewrite <- app_assoc.
    + rewrite Hout. cbn. by rewrite <- app_assoc.
Qed.

(** The loop stops at the first refused deletion whose answer is not JSON:
    the files after it are not asked for. *)
Lemma clear_loop_stops (self : Zenodo.client) (before : list json)
    (descriptors : list (string * json)) :
  Forall2 (λ file d, file_descriptor file = Some d) before descriptors →
  ∀ (file : json) (url : string) (filename : json) (after : list json)
    (responses : list Http.response) (response : Http.response)
    (rest : list Http.response) (w : world),
    file_descriptor file = Some (url, filename) →
    inbox w = responses ++ response :: rest →
    length responses = length before →
    Forall tolerated responses →
    Http.status_code response ∉ [200; 204] →
    Http.decoded response = None →
    ∃ w', for_each (before ++ file :: after) (Zenodo.delete_file self) w
          = (Raise JSONDecodeError, w')
          ∧ sent w' = sent w ++ (deletion self ∘ fst <$> descriptors) ++ [deletion self url]
          ∧ inbox w' = rest
          ∧ fs w' = fs w.
Proof.
  induction 1 as [|previous [url' filename'] before descriptors Hprevious _ IH];
    intros file url filename after responses response rest w Hfile Hin Hlen Htolerated
      Hrefused Hbody.
  - destruct responses; [|done]. cbn [app for_each]. unfold bind at 1.
    rewrite (delete_file_undecodable _ _ _ _ _ _ _ Hfile Hin Hrefused Hbody).
    eexists. split; [reflexivity|]. done.
  - destruct responses as [|first responses]; [done|].
    apply Forall_cons in Htolerated as [Hfirst Htolerated].
    cbn [app for_each]. unfold bind at 1.
    rewrite (delete_file_run _ _ _ _ _ _ _ Hprevious Hin Hfirst).
    destruct (IH file url filename after responses response rest
                (set_stdout (stdout w ++ complaint filename' first)
                   (set_net (responses ++ response :: rest)
                      (sent w ++ [deletion self url']) w)))
      as (w' & Hrun & Hsent & Hinbox & Hfs); [done | done | by injection Hlen | done..|].
    exists w'. split_and!; [done | | done | done].
    rewrite Hsent. cbn. by rewrite <- app_assoc.
Qed.

Lemma ends_outside_fatal {A} (m : M A) (codes : list Z)
    (ending : Http.response → outcome A) :
  ends_outside m codes ending → (∀ resp a, ending resp ≠ Ok a) → fatal m codes.
Proof. intros H Hending w resp Hans Href a. rewrite (H w resp Hans Href). apply Hending. Qed.

Lemma report_not_ok {A} (message : json → string) (resp : Http.response) (a : A) :
  report message resp ≠ Ok a.
Proof. unfold report. by destruct (Http.decoded resp). Qed.

(** C9: the code against the claim.  Clearing the files of a draft whose
    ["files"] are file descriptors sends one [DELETE] to each file's
    [links.self], in order, and goes on after a refused deletion with a
    printed line, as long as every answer with a status other than 200 and
    204 has a JSON body: the line is built from the decoded body.  At the
    first such answer whose body is not JSON the decoder's exception ends
    the loop and the run: the files after it are not asked for, and nothing
    is returned.  Every other call is the end of the run when its status is
    refused. *)
Theorem clearing_files_decodes_refused_answers (json_loads : string → option json)
    (self : Zenodo.client) (new_version : json) (w : world) :
  (∀ files descriptors responses rest,
     Py.get_default new_version "files" (JArr []) = Ok (JArr files) →
     Forall2 (λ file d, file_descriptor file = Some d) files descriptors →
     inbox w = responses ++ rest →
     length responses = length files →
     Forall tolerated responses →
     ∃ w', Zenodo.clear_files self new_version w = (Ok tt, w')
           ∧ sent w' = sent w ++ (deletion self ∘ fst <$> descriptors)
           ∧ inbox w' = rest
           ∧ stdout w'
             = stdout w ++ concat (zip_with complaint (snd <$> descriptors) responses)
           ∧ fs w' = fs w)
  ∧ (∀ before file after descriptors url filename responses response rest,
       Py.get_default new_version "files" (JArr []) = Ok (JArr (before ++ file :: after)) →
       Forall2 (λ file d, file_descriptor file = Some d) before descriptors →
       file_descriptor file = Some (url, filename) →
       inbox w = responses ++ response :: rest →
       length responses = length before →
       Forall tolerated responses →
       Http.status_code response ∉ [200; 204] →
       Http.decoded response = None →
       ∃ w', Zenodo.clear_files self new_version w = (Raise JSONDecodeError, w')
             ∧ sent w'
               = sent w ++ (deletion self ∘ fst <$> descriptors) ++ [deletion self url]
             ∧ inbox w' = rest
             ∧ fs w' = fs w)
  ∧ (∀ doi deposit upload archive zenodo_json version html_url title description
       description_file,
       fatal (Zenodo.get_depositions self) [200; 201]
       ∧ fatal (Zenodo.new_doi self) [200; 201]
       ∧ fatal (Zenodo.select_draft self doi deposit) [200; 201]
       ∧ fatal (Zenodo.fetch_draft self doi deposit) [200; 201]
       ∧ fatal (Zenodo.upload_archive self upload archive) [200; 201]
       ∧ fatal (Zenodo.upload_metadata json_loads self upload zenodo_json version
                  html_url title description description_file) [200]
       ∧ fatal (Zenodo.publish self upload) [200; 201; 202]).
Proof.
  split_and!.
  - intros files descriptors responses rest Hfiles Hdesc Hin Hlen Htolerated.
    unfold Zenodo.clear_files, bind at 1, lift. rewrite Hfiles.
    unfold bind at 1, lift. cbn [Py.iter].
    by apply clear_loop_run.
  - intros before file after descriptors url filename responses response rest
      Hfiles Hdesc Hfile Hin Hlen Htolerated Hrefused Hbody.
    unfold Zenodo.clear_files, bind at 1, lift. rewrite Hfiles.
    unfold bind at 1, lift. cbn [Py.iter].
    by eapply clear_loop_stops.
  - intros. split_and!.
    + eapply ends_outside_fatal; [apply get_depositions_refused|].
      intros resp a. apply report_not_ok.
    + eapply ends_outside_fatal; [apply new_doi_refused|].
      intros resp a. apply report_not_ok.
    + eapply ends_outside_fatal; [apply select_draft_refused|].
      intros resp a. apply report_not_ok.
    + eapply ends_outside_fatal; [apply fetch_draft_refused|].
      intros resp a. apply report_not_ok.
    + eapply ends_outside_fatal; [apply upload_archive_refused|]. done.
    + eapply ends_outside_fatal; [apply upload_metadata_refused|].
      intros resp a. apply report_not_ok.
    + eapply ends_outside_fatal; [apply publish_refused|].
      intros resp a. apply report_not_ok.
Qed.

(** ** Resolving the draft (lines 138-178) *)

Lemma find_deposit_loop_truthy (doi : string) (deposits : list json) (w : world) (d : json) :
  fst (Zenodo.find_deposit_loop doi deposits w) = Ok (Some d) → Py.truthy d = true.
Proof.
  revert w. induction deposits as [|deposit rest IH]; intros w; [done|].
  cbn [Zenodo.find_deposit_loop]. unfold bind, lift, print, ret.
  destruct (Py.contains "doi" deposit) as [[|]| |]; cbn; try done; [|apply IH].
  destruct (Py.subscript deposit "doi") as [deposit_doi| |] eqn:Ed; cbn; try done.
  destruct (Py.subscript deposit "conceptdoi") as [conceptdoi| |]; cbn; try done.
  destruct (Py.eq_str conceptdoi doi); cbn; [|apply IH].
  intros [= <-]. destruct deposit as [| | | | |fields]; try done.
  by destruct fields.
Qed.

(** The deposit [find_deposit] returns passes the test [if not
    target_deposit]. *)
Lemma find_deposit_truthy (self : Zenodo.client) (doi : string) (w w1 : world)
    (deposit : json) :
  Zenodo.find_deposit self doi w = (Ok (Some deposit), w1) → Py.truthy deposit = true.
Proof.
  unfold Zenodo.find_deposit, bind at 1.
  destruct (Zenodo.get_depositions self w) as [[listing| |] w0]; try done.
  unfold bind at 1, lift. destruct (Py.iter listing) as [deposits| |]; try done.
  intros H. apply (find_deposit_loop_truthy doi deposits w0).
  by rewrite H.
Qed.

Lemma fetch_draft_sends_get (self : Zenodo.client) (doi : string) (draft : json) :
  sends_only (λ r, Http.meth r = GET) (Zenodo.fetch_draft self doi draft).
Proof.
  unfold Zenodo.fetch_draft.
  apply sends_only_bind; [apply sends_only_quiet, quiet_lift | intros links].
  apply sends_only_bind; [apply sends_only_quiet, quiet_lift | intros latest_draft].
  apply sends_only_bind.
  - unfold Zenodo.get. destruct latest_draft; try apply sends_only_quiet, quiet_lift.
    by apply sends_only_requests_send.
  - intros r. apply sends_only_quiet.
    destruct (Zenodo.status_not_in r [200; 201]); quiet_sequel.
Qed.

Lemma clear_files_sends_delete (self : Zenodo.client) (new_version : json) :
  sends_only (λ r, Http.meth r = DELETE) (Zenodo.clear_files self new_version).
Proof.
  unfold Zenodo.clear_files.
  apply sends_only_bind; [apply sends_only_quiet, quiet_lift | intros files].
  apply sends_only_bind; [apply sends_only_quiet, quiet_lift | intros items].
  apply sends_only_for_each. intros file. unfold Zenodo.delete_file.
  apply sends_only_bind; [apply sends_only_quiet, quiet_lift | intros links].
  apply sends_only_bind; [apply sends_only_quiet, quiet_lift | intros self_url].
  apply sends_only_bind; [by apply sends_only_requests_send | intros r].
  apply sends_only_quiet. unfold when.
  destruct (Zenodo.status_not_in r [200; 204]); quiet_sequel.
Qed.

(** What [update_doi] does with the draft: it fetches the draft's
    [latest_draft], and after that it only deletes. *)
Lemma draft_fetched_and_cleared (self : Zenodo.client) (doi : string)
    (draft links : json) (latest : string) (w : world) :
  Py.subscript draft "links" = Ok links →
  Py.subscript links "latest_draft" = Ok (JStr latest) →
  Http.valid_url (target self latest) = true →
  ∃ deletions,
    sent (snd ((let* new_version := Zenodo.fetch_draft self doi draft in
                Zenodo.clear_files self new_version ;;; ret new_version) w))
    = sent w ++ wrapped GET self latest :: deletions
    ∧ Forall (λ r, Http.meth r = DELETE) deletions.
Proof.
  intros Hlinks Hlatest Hvalid.
  unfold bind at 1, Zenodo.fetch_draft, bind at 1, lift. rewrite Hlinks.
  unfold bind at 1, lift. rewrite Hlatest.
  unfold bind at 1, Zenodo.get, requests_send. fold (target self latest).
  cbn [Http.url]. rewrite Hvalid. cbn [negb].
  destruct (inbox w) as [|response rest]; [by exists []|].
  destruct (Zenodo.status_not_in response [200; 201]).
  { unfold bind at 1. destruct (Http.json response); by exists []. }
  destruct (Http.json response) as [new_version| |]; try by exists [].
  unfold bind at 1.
  destruct (clear_files_sends_delete self new_version
              (set_net rest (sent w ++ [wrapped GET self latest]) w))
    as (deletions & Hsent & Hdel).
  exists deletions. split; [|done].
  destruct (Zenodo.clear_files _ _ _) as [[[]| |] w']; cbn in *;
    rewrite Hsent; by rewrite <- app_assoc.
Qed.

(** After [find_deposit] has returned a deposit, [update_doi] goes on with
    the three blocks. *)
Lemma update_doi_found (self : Zenodo.client) (doi : string) (w w1 : world)
    (deposit : json) :
  Zenodo.find_deposit self doi w = (Ok (Some deposit), w1) →
  Zenodo.update_doi self doi w
  = (let* draft := Zenodo.select_draft self doi deposit in
     let* new_version := Zenodo.fetch_draft self doi draft in
     Zenodo.clear_files self new_version ;;; ret new_version) w1.
Proof.
  intros Hfind. pose proof (find_deposit_truthy _ _ _ _ _ Hfind) as Htruthy.
  unfold Zenodo.update_doi. rewrite (bind_ok _ _ _ _ _ Hfind).
  rewrite Htruthy. reflexivity.
Qed.

Lemma select_draft_unsubmitted (self : Zenodo.client) (doi : string)
    (deposit submitted : json) (w : world) :
  Py.subscript deposit "submitted" = Ok submitted →
  Py.truthy submitted = false →
  Zenodo.select_draft self doi deposit w = (Ok deposit, w).
Proof.
  intros Hsub Hfalse. unfold Zenodo.select_draft, bind at 1, lift.
  by rewrite Hsub, Hfalse.
Qed.

Lemma select_draft_submitted (self : Zenodo.client) (doi : string)
    (deposit submitted links : json) (newversion : string)
    (response : Http.response) (rest : list Http.response) (answer : json) (w : world) :
  Py.subscript deposit "submitted" = Ok submitted →
  Py.truthy submitted = true →
  Py.subscript deposit "links" = Ok links →
  Py.subscript links "newversion" = Ok (JStr newversion) →
  Http.valid_url (target self newversion) = true →
  inbox w = response :: rest →
  Http.status_code response ∈ [200; 201] →
  Http.json response = Ok answer →
  Zenodo.select_draft self doi deposit w
  = (Ok answer, set_net rest (sent w ++ [wrapped POST self newversion]) w).
Proof.
  intros Hsub Htrue Hlinks Hnew Hvalid Hin Hok Hanswer.
  unfold Zenodo.select_draft, bind at 1, lift. rewrite Hsub, Htrue. cbn [negb].
  unfold bind at 1, lift. rewrite Hlinks.
  unfold bind at 1, lift. rewrite Hnew.
  unfold bind at 1, Zenodo.post, requests_send. fold (target self newversion).
  cbn [Http.url]. rewrite Hvalid, Hin. cbn [negb].
  unfold Zenodo.status_not_in. rewrite bool_decide_eq_true_2 by done.
  by rewrite Hanswer.
Qed.

(** C5.  [update_doi], once [find_deposit] has returned a deposit, branches
    on the deposit's ["submitted"].
    - Not submitted: the deposit itself is the draft.  No [POST] is sent, so
      the new-version link is not called; the next request is the [GET] of
      the deposit's own [latest_draft] link, and only deletions follow.
    - Submitted: the next request is the [POST] to the deposit's
      [newversion] link; when its answer is accepted and decodes, the
      request after it is the [GET] of the [latest_draft] link of that
      answer, and only deletions follow. *)
Theorem update_doi_branches_on_submitted (self : Zenodo.client) (doi : string)
    (w w1 : world) (deposit submitted : json) :
  Zenodo.find_deposit self doi w = (Ok (Some deposit), w1) →
  Py.subscript deposit "submitted" = Ok submitted →
  let w' := snd (Zenodo.update_doi self doi w) in
  (Py.truthy submitted = false →
     (∃ new, sent w' = sent w1 ++ new ∧ Forall (λ r, Http.meth r ≠ POST) new)
     ∧ (∀ links latest,
          Py.subscript deposit "links" = Ok links →
          Py.subscript links "latest_draft" = Ok (JStr latest) →
          Http.valid_url (target self latest) = true →
          ∃ deletions,
            sent w' = sent w1 ++ wrapped GET self latest :: deletions
            ∧ Forall (λ r, Http.meth r = DELETE) deletions))
  ∧ (Py.truthy submitted = true →
     ∀ links newversion response rest answer draft_links latest,
       Py.subscript deposit "links" = Ok links →
       Py.subscript links "newversion" = Ok (JStr newversion) →
       Http.valid_url (target self newversion) = true →
       inbox w1 = response :: rest →
       Http.status_code response ∈ [200; 201] →
       Http.json response = Ok answer →
       Py.subscript answer "links" = Ok draft_links →
       Py.subscript draft_links "latest_draft" = Ok (JStr latest) →
       Http.valid_url (target self latest) = true →
       ∃ deletions,
         sent w' = sent w1 ++ wrapped POST self newversion
                            :: wrapped GET self latest :: deletions
         ∧ Forall (λ r, Http.meth r = DELETE) deletions).
Proof.
  intros Hfind Hsub w'. subst w'.
  rewrite (update_doi_found _ _ _ _ _ Hfind).
  split.
  - intros Hfalse.
    rewrite (bind_ok _ _ _ _ _ (select_draft_unsubmitted self doi _ _ w1 Hsub Hfalse)).
    split.
    + assert (sends_only (λ r, Http.meth r ≠ POST)
                (let* new_version := Zenodo.fetch_draft self doi deposit in
                 Zenodo.clear_files self new_version ;;; ret new_version)) as Hsends.
      { apply sends_only_bind.
        - eapply sends_only_weaken; [|apply fetch_draft_sends_get].
          intros r ->. done.
        - intros new_version. apply sends_only_bind.
          + eapply sends_only_weaken; [|apply clear_files_sends_delete].
            intros r ->. done.
          + intros _. apply sends_only_quiet, quiet_ret. }
      apply Hsends.
    + intros links latest Hlinks Hlatest Hvalid.
      by eapply draft_fetched_and_cleared.
  - intros Htrue links newversion response rest answer draft_links latest
      Hlinks Hnew Hvalid Hin Hok Hanswer Hdraft Hlatest Hvalid'.
    rewrite (bind_ok _ _ _ _ _
               (select_draft_submitted self doi _ _ _ _ _ _ _ w1
                  Hsub Htrue Hlinks Hnew Hvalid Hin Hok Hanswer)).
    destruct (draft_fetched_and_cleared self doi answer draft_links latest
                (set_net rest (sent w1 ++ [wrapped POST self newversion]) w1)
                Hdraft Hlatest Hvalid') as (deletions & Hsent & Hdel).
    exists deletions. split; [|done].
    rewrite Hsent. cbn. by rewrite <- app_assoc.
Qed.

(** ** An unknown DOI (lines 142-147, 293-300) *)

Lemma get_depositions_accepted (self : Zenodo.client) (listing : Http.response)
    (rest : list Http.response) (w : world) :
  inbox w = listing :: rest →
  Http.status_code listing ∈ [200; 201] →
  Zenodo.get_depositions self w
  = (Http.json listing,
     set_net rest (sent w ++ [wrapped GET self "/api/deposit/depositions"]) w).
Proof.
  intros Hin Hok. unfold Zenodo.get_depositions, Zenodo.get, bind, requests_send.
  cbn. rewrite valid_url_https, Hin. cbn.
  unfold Zenodo.status_not_in. by rewrite bool_decide_eq_true_2.
Qed.

(** [find_deposit] on an accepted listing that decodes to a list of
    deposition objects: one request, then the scan of the list. *)
Lemma find_deposit_scans_the_listing (self : Zenodo.client) (doi : string)
    (listing : Http.response) (rest : list Http.response) (deposits : list dict)
    (w : world) :
  inbox w = listing :: rest →
  Http.status_code listing ∈ [200; 201] →
  Http.json listing = Ok (JArr (JObj <$> deposits)) →
  let w0 := set_net rest (sent w ++ [wrapped GET self "/api/deposit/depositions"]) w in
  ∃ w1, Zenodo.find_deposit self doi w
        = (fst (Zenodo.find_deposit_loop doi (JObj <$> deposits) w0), w1)
        ∧ sent w1 = sent w ++ [wrapped GET self "/api/deposit/depositions"]
        ∧ inbox w1 = rest
        ∧ fs w1 = fs w.
Proof.
  intros Hin Hok Hjson w0. unfold Zenodo.find_deposit.
  pose proof (get_depositions_accepted self _ _ _ Hin Hok) as Hlisting.
  rewrite Hjson in Hlisting. rewrite (bind_ok _ _ _ _ _ Hlisting).
  unfold bind at 1, lift. cbn [Py.iter]. fold w0.
  destruct (find_deposit_loop_frame doi (JObj <$> deposits) w0) as [out Hsnd].
  destruct (Zenodo.find_deposit_loop doi (JObj <$> deposits) w0) as [o w1].
  cbn in Hsnd. subst w1. eexists. split; [reflexivity|]. done.
Qed.

(** [find_deposit] on an accepted listing of depositions that meet the
    precondition of the scan: one request, and the first match or none. *)
Lemma find_deposit_first_match (self : Zenodo.client) (doi : string)
    (listing : Http.response) (rest : list Http.response) (deposits : list dict)
    (w : world) :
  inbox w = listing :: rest →
  Http.status_code listing ∈ [200; 201] →
  Http.json listing = Ok (JArr (JObj <$> deposits)) →
  Forall has_conceptdoi deposits →
  ∃ w1, Zenodo.find_deposit self doi w
        = (Ok (JObj <$> List.find (is_match doi) deposits), w1)
        ∧ sent w1 = sent w ++ [wrapped GET self "/api/deposit/depositions"]
        ∧ inbox w1 = rest
        ∧ fs w1 = fs w.
Proof.
  intros Hin Hok Hjson Hpre.
  destruct (find_deposit_scans_the_listing self doi _ _ _ _ Hin Hok Hjson)
    as (w1 & Hfind & Hrest).
  rewrite find_deposit_loop_total in Hfind by done. by exists w1.
Qed.

(** The scan returns matches only. *)
Lemma find_deposit_loop_no_match (doi : string) (deposits : list dict) (w : world)
    (d : json) :
  List.find (is_match doi) deposits = None →
  fst (Zenodo.find_deposit_loop doi (JObj <$> deposits) w) ≠ Ok (Some d).
Proof.
  revert w. induction deposits as [|deposit rest IH]; intros w Hnone; [done|].
  cbn [fmap list_fmap]. cbn [List.find] in Hnone. unfold is_match at 1 in Hnone.
  destruct (Dict.mem "doi" deposit) eqn:Hdoi.
  - unfold Dict.mem in Hdoi.
    destruct (Dict.get "doi" deposit) as [deposit_doi|] eqn:Ed; [|done].
    destruct (Dict.get "conceptdoi" deposit) as [conceptdoi|] eqn:Ec.
    + rewrite (find_deposit_loop_look _ _ _ _ _ _ Ed Ec). cbn in Hnone.
      destruct (Py.eq_str conceptdoi doi); [done | by apply IH].
    + rewrite find_deposit_loop_unguarded; [done | |]; unfold Dict.mem;
        by rewrite ?Ed, ?Ec.
  - rewrite find_deposit_loop_skip by done. cbn in Hnone. by apply IH.
Qed.

(** C7, as stated, fails on the code.  The DOI [10.5281/zenodo.404] matches
    no deposition of the listing, but the listing holds a deposition with a
    ["doi"] and no ["conceptdoi"]: the scan dies of [KeyError] at that
    deposition and the upload ends with the exception, not with the failure
    that the deposit cannot be found. *)
Lemma unknown_doi_counterexample :
  let doi := "10.5281/zenodo.404" in
  let deposits := [Sample.stranger; Sample.malformed] in
  let w := Sample.world_with Sample.github
             [Http.Response 200 (Some (JArr (JObj <$> deposits)))] in
  let run := upload_archive Sample.token Sample.loads "dist/a.zip" "1.2.3" None
               (Some ".zenodo.json") (Some doi) false None None None w in
  List.find (is_match doi) deposits = None
  ∧ fst run = Raise (KeyError "conceptdoi")
  ∧ fst run ≠ Exit ("Cannot find deposit with doi: '" +:+ doi
                    +:+ "'. Are you currently editing it?").
Proof. cbn zeta. split_and!; [reflexivity | vm_compute; reflexivity | vm_compute; discriminate]. Qed.

(** C7, amended.  The upload of an existing archive under a DOI that
    matches no deposition of the listing, the listing being accepted and a
    list of deposition objects: the upload does not return; the listing is
    the only request made, so no new version is asked for, no file is
    uploaded and nothing is published; no file is written; and when every
    deposition that has a ["doi"] has a ["conceptdoi"], the upload ends by
    [sys.exit] with the message that the deposit cannot be found. *)
Theorem unknown_doi_stops_the_upload (token : string) (json_loads : string → option json)
    (archive version : string) (html_url zenodo_json : option string) (doi : string)
    (sandbox : bool) (title description : option string)
    (description_file : option TextIO) (w : world) (listing : Http.response)
    (rest : list Http.response) (deposits : list dict) :
  is_Some (fs w !! Path.abspath (cwd w) archive) →
  Py.nonempty doi = true →
  inbox w = listing :: rest →
  Http.status_code listing ∈ [200; 201] →
  Http.json listing = Ok (JArr (JObj <$> deposits)) →
  List.find (is_match doi) deposits = None →
  let run := upload_archive token json_loads archive version html_url zenodo_json
               (Some doi) sandbox title description description_file w in
  (Forall has_conceptdoi deposits →
     fst run = Exit ("Cannot find deposit with doi: '" +:+ doi
                     +:+ "'. Are you currently editing it?"))
  ∧ (∀ a, fst run ≠ Ok a)
  ∧ sent (snd run) = sent w ++ [wrapped GET (Zenodo.init token sandbox)
                                  "/api/deposit/depositions"]
  ∧ fs (snd run) = fs w.
Proof.
  intros Hexists Hdoi Hin Hok Hjson Hnone run.
  destruct (find_deposit_scans_the_listing (Zenodo.init token sandbox) doi _ _ _ _
              Hin Hok Hjson) as (w1 & Hfind & Hsent & _ & Hfs).
  cbn zeta in Hfind.
  set (w0 := set_net rest _ w) in Hfind.
  pose proof (find_deposit_loop_no_match doi deposits w0) as Hmatch.
  pose proof (find_deposit_loop_total doi deposits w0) as Htotal.
  rewrite Hnone in Htotal.
  assert (run = (match fst (Zenodo.find_deposit_loop doi (JObj <$> deposits) w0) with
                 | Ok _ => Exit ("Cannot find deposit with doi: '" +:+ doi
                                 +:+ "'. Are you currently editing it?")
                 | Exit msg => Exit msg
                 | Raise e => Raise e
                 end, w1)) as Hrun.
  { subst run.
    unfold upload_archive, bind at 1, os_abspath, bind at 1, path_exists.
    rewrite bool_decide_eq_true_2 by done. cbn [negb Py.given].
    change (default "" (Some doi)) with doi. rewrite Hdoi.
    unfold bind at 1, Zenodo.update_doi, bind at 1. rewrite Hfind.
    destruct (fst (Zenodo.find_deposit_loop doi (JObj <$> deposits) w0))
      as [[d|]| |] eqn:Hscan; [by destruct (Hmatch d Hnone) | done..]. }
  rewrite Hrun. cbn [fst snd]. split_and!; [| |done..].
  - intros Hpre. by rewrite (Htotal Hpre).
  - intros a. by destruct (fst (Zenodo.find_deposit_loop doi (JObj <$> deposits) w0)).
Qed.

(** An upload under a DOI of no lineage of the listing. *)
Lemma unknown_doi_stops_the_upload_witness :
  let run := upload_archive Sample.token Sample.loads "dist/a.zip" "1.2.3" None
               (Some ".zenodo.json") (Some "10.5281/zenodo.404") false None None None
               (Sample.world_with Sample.github
                  [Http.Response 200
                     (Some (JArr (JObj <$> [Sample.unregistered; Sample.stranger;
                                            Sample.deposition 7 true])))]) in
  fst run
  = Exit "Cannot find deposit with doi: '10.5281/zenodo.404'. Are you currently editing it?"
  ∧ sent (snd run) = [wrapped GET Sample.cli "/api/deposit/depositions"]
  ∧ fs (snd run) = Sample.files.
Proof.
  cbn zeta.
  destruct (unknown_doi_stops_the_upload Sample.token Sample.loads "dist/a.zip" "1.2.3"
              None (Some ".zenodo.json") "10.5281/zenodo.404" false None None None
              (Sample.world_with Sample.github
                 [Http.Response 200
                    (Some (JArr (JObj <$> [Sample.unregistered; Sample.stranger;
                                           Sample.deposition 7 true])))])
              (Http.Response 200
                 (Some (JArr (JObj <$> [Sample.unregistered; Sample.stranger;
                                        Sample.deposition 7 true]))))
              [] [Sample.unregistered; Sample.stranger; Sample.deposition 7 true])
    as (Hexit & _ & Hsent & Hfs).
  - vm_compute. by eexists.
  - reflexivity.
  - reflexivity.
  - cbn [Http.status_code]. apply (bool_decide_unpack _); vm_compute; exact I.
  - reflexivity.
  - reflexivity.
  - split_and!; [|exact Hsent | exact Hfs].
    apply Hexit. repeat constructor; intros _; reflexivity.
Defined.

(** ** The metadata (lines 231-276) *)

Ltac dict_simpl :=
  repeat first [ rewrite dict_get_set_eq | rewrite dict_get_set_ne by discriminate ].

(** The one request of [upload_metadata] and the metadata it carries. *)
Lemma upload_metadata_request (json_loads : string → option json) (self : Zenodo.client)
    (upload : json) (metadata : dict) (id : json) (zenodo_json : option string)
    (version : string) (html_url title description : option string)
    (description_file : option TextIO) (w : world) (template_merged : dict) :
  Py.subscript upload "metadata" = Ok (JObj metadata) →
  Py.subscript upload "id" = Ok id →
  merged json_loads w metadata zenodo_json template_merged →
  identifiers_fit html_url template_merged →
  ∃ r final,
    sent (snd (Zenodo.upload_metadata json_loads self upload zenodo_json version
                 html_url title description description_file w))
    = sent w ++ [r]
    ∧ Http.meth r = PUT
    ∧ Http.body r = metadata_body final
    ∧ Dict.get "version" final = Some (JStr version)
    ∧ Dict.get "publication_date" final = Some (JStr (Clock.local_date w))
    ∧ Dict.get "upload_type" final
      = Some (default (JStr "software") (Dict.get "upload_type" template_merged))
    ∧ Dict.get "title" final
      = match title with
        | Some title => Some (JStr title)
        | None => Dict.get "title" template_merged
        end
    ∧ Dict.get "description" final
      = match description, description_file with
        | Some description, _ => Some (JStr description)
        | None, Some file => Some (JStr (unread file))
        | None, None => Dict.get "description" template_merged
        end.
Proof.
  intros Hmd Hid Hmerged Hfit.
  unfold Zenodo.upload_metadata, bind at 1, lift. rewrite Hmd.
  assert ((if Py.given zenodo_json
           then let* template := Zenodo.read_json json_loads (default "" zenodo_json) in
                lift (Zenodo.metadata_update metadata template)
           else ret metadata) w = (Ok template_merged, w)) as Hstep.
  { destruct Hmerged as [zj Hzj|path template Hpath Hread].
    - by rewrite Hzj.
    - cbn [Py.given default]. rewrite Hpath.
      by rewrite (bind_ok _ _ _ _ _ Hread). }
  rewrite (bind_ok _ _ _ _ _ Hstep). clear Hstep.
  unfold bind at 1, datetime_today. cbn zeta.
  fold (Clock.local_date w).
  match goal with
  | |- context [Dict.mem "related_identifiers" ?m] => set (fixed := m)
  end.
  assert (Dict.get "version" fixed = Some (JStr version)
          ∧ Dict.get "publication_date" fixed = Some (JStr (Clock.local_date w))
          ∧ Dict.get "upload_type" fixed
            = Some (default (JStr "software") (Dict.get "upload_type" template_merged))
          ∧ ∀ k, k ≠ "version" → k ≠ "publication_date" → k ≠ "upload_type" →
                 Dict.get k fixed = Dict.get k template_merged) as (Hv & Hd & Ht & Hk).
  { subst fixed. unfold Dict.mem. dict_simpl.
    destruct (Dict.get "upload_type" template_merged) as [t|] eqn:Et; cbn [negb default].
    - dict_simpl. split_and!; try done.
      intros k ? ? ?. by rewrite !dict_get_set_ne.
    - dict_simpl. split_and!; try done.
      intros k ? ? ?. by rewrite !dict_get_set_ne. }
  clearbody fixed.
  match goal with
  | |- context [bind ?m _ w] =>
      assert (∃ identified, m w = (Ok identified, w)
                ∧ ∀ k, k ≠ "related_identifiers" →
                       Dict.get k identified = Dict.get k fixed)
        as (identified & Hstep & Hsame)
  end.
  { destruct (Py.given html_url) eqn:Hurl; [|by exists fixed].
    specialize (Hfit Hurl).
    rewrite <- (Hk "related_identifiers") in Hfit by discriminate.
    unfold Dict.mem.
    destruct (Dict.get "related_identifiers" fixed) as [[| | | |identifiers|]|] eqn:Er;
      try done.
    - rewrite Er. eexists. split; [reflexivity|].
      intros k Hne. by rewrite dict_get_set_ne.
    - rewrite dict_get_set_eq. eexists. split; [reflexivity|].
      intros k Hne. by rewrite !dict_get_set_ne. }
  rewrite (bind_ok _ _ _ _ _ Hstep). clear Hstep.
  unfold bind at 1, lift. rewrite Hid.
  rewrite sent_after_exchange; cycle 1.
  { apply valid_url_https. }
  { intros r. destruct (negb (Http.status_code r =? 200)); quiet_sequel. }
  eexists _, _. split_and!; [reflexivity | reflexivity | reflexivity | ..].
  - destruct description, description_file, title; dict_simpl; by rewrite ?Hsame.
  - destruct description, description_file, title; dict_simpl;
      by rewrite ?Hsame by discriminate.
  - destruct description, description_file, title; dict_simpl;
      by rewrite ?Hsame by discriminate.
  - destruct description, description_file, title; dict_simpl;
      rewrite ?Hsame by discriminate; try done; by apply Hk.
  - destruct description, description_file, title; dict_simpl;
      rewrite ?Hsame by discriminate; try done; by apply Hk.
Qed.

(** C6, as stated, fails on the code: [datetime.today()] reads the local
    clock.  At 23:30 UTC on 2024-01-01, one hour east of Greenwich, the
    metadata sent carry the publication date 2024-01-02, which is not the
    date in UTC. *)
Lemma publication_date_counterexample :
  let w := Sample.world_with Sample.github [Http.Response 200 (Some Sample.published)] in
  ∃ r final,
    sent (snd (Zenodo.upload_metadata Sample.loads Sample.cli
                 (JObj (Sample.deposition 9 false)) (Some ".zenodo.json") "1.2.3"
                 None None None None w)) = [r]
    ∧ Http.body r = metadata_body final
    ∧ Dict.get "publication_date" final = Some (JStr "2024-01-02")
    ∧ Clock.utc_date w = "2024-01-01"
    ∧ Dict.get "publication_date" final ≠ Some (JStr (Clock.utc_date w)).
Proof.
  eexists _, _. split_and!.
  - vm_compute. reflexivity.
  - reflexivity.
  - vm_compute. reflexivity.
  - vm_compute. reflexivity.
  - vm_compute. discriminate.
Qed.

(** C6, amended.  In [upload_metadata] the fields of the template are merged
    into the deposition's metadata before the fixed fields are set: in the
    metadata sent, ["version"] is the given version, ["publication_date"]
    is the current date on the local clock, and ["upload_type"] is what the
    merged metadata had there, or ["software"] if they had nothing. *)
Theorem upload_metadata_fixed_fields (json_loads : string → option json)
    (self : Zenodo.client) (upload : json) (metadata : dict) (id : json)
    (zenodo_json : option string) (version : string)
    (html_url title description : option string) (description_file : option TextIO)
    (w : world) (template_merged : dict) :
  Py.subscript upload "metadata" = Ok (JObj metadata) →
  Py.subscript upload "id" = Ok id →
  merged json_loads w metadata zenodo_json template_merged →
  identifiers_fit html_url template_merged →
  ∃ r final,
    sent (snd (Zenodo.upload_metadata json_loads self upload zenodo_json version
                 html_url title description description_file w))
    = sent w ++ [r]
    ∧ Http.meth r = PUT
    ∧ Http.body r = metadata_body final
    ∧ Dict.get "version" final = Some (JStr version)
    ∧ Dict.get "publication_date" final = Some (JStr (Clock.local_date w))
    ∧ Dict.get "upload_type" final
      = Some (default (JStr "software") (Dict.get "upload_type" template_merged)).
Proof.
  intros Hmd Hid Hmerged Hfit.
  destruct (upload_metadata_request json_loads self upload metadata id zenodo_json
              version html_url title description description_file w template_merged
              Hmd Hid Hmerged Hfit)
    as (r & final & Hsent & Hmeth & Hbody & Hv & Hd & Ht & _).
  by exists r, final.
Qed.

(** C8.  In the metadata [upload_metadata] sends, a given title replaces
    the title of the merged metadata; a given literal description is the
    description, with or without a description file; the contents of the
    description file are the description only when no literal description
    is given; and what is not given stays as merged. *)
Theorem upload_metadata_overrides (json_loads : string → option json)
    (self : Zenodo.client) (upload : json) (metadata : dict) (id : json)
    (zenodo_json : option string) (version : string)
    (html_url title description : option string) (description_file : option TextIO)
    (w : world) (template_merged : dict) :
  Py.subscript upload "metadata" = Ok (JObj metadata) →
  Py.subscript upload "id" = Ok id →
  merged json_loads w metadata zenodo_json template_merged →
  identifiers_fit html_url template_merged →
  ∃ r final,
    sent (snd (Zenodo.upload_metadata json_loads self upload zenodo_json version
                 html_url title description description_file w))
    = sent w ++ [r]
    ∧ Http.meth r = PUT
    ∧ Http.body r = metadata_body final
    ∧ Dict.get "title" final
      = match title with
        | Some title => Some (JStr title)
        | None => Dict.get "title" template_merged
        end
    ∧ Dict.get "description" final
      = match description, description_file with
        | Some description, _ => Some (JStr description)
        | None, Some file => Some (JStr (unread file))
        | None, None => Dict.get "description" template_merged
        end.
Proof.
  intros Hmd Hid Hmerged Hfit.
  destruct (upload_metadata_request json_loads self upload metadata id zenodo_json
              version html_url title description description_file w template_merged
              Hmd Hid Hmerged Hfit)
    as (r & final & Hsent & Hmeth & Hbody & _ & _ & _ & Htitle & Hdesc).
  by exists r, final.
Qed.

(** ** The outputs of the invocation (lines 41-53, 209-214) *)

(** Without [GITHUB_ENV] the first [open] gets [None] for a path. *)
Lemma set_env_and_output_without_env (name : string) (value : json) (w : world) :
  environ w !! "GITHUB_ENV" = None →
  fst (set_env_and_output name value w) = Raise TypeError.
Proof.
  intros Henv. unfold set_env_and_output. cbn [for_each].
  unfold bind, environ_get, print, open_append, raise, lift. cbn.
  by rewrite Henv.
Qed.



(** C3: the code at the failing input.  A publish call that is accepted
    (202) and returns two links, in a world where [GITHUB_ENV] is not set:
    the record is published (the [POST] is on the record), then
    [open(None, "a")] raises [TypeError] and no file is written.  With
    [GITHUB_ENV] set and [GITHUB_OUTPUT] not, the first link reaches the
    first file and the same exception follows. *)
Theorem publish_needs_both_files :
  let data := JObj (Sample.deposition 9 false) in
  let accepted := [Http.Response 202 (Some Sample.published)] in
  let publish_request :=
    Http.Request POST "https://zenodo.org/api/deposit/depositions/9/actions/publish"
      [("access_token", Sample.token)] [] NoBody in
  let without_env := Sample.world_with (delete "GITHUB_ENV" Sample.github) accepted in
  let without_output := Sample.world_with (delete "GITHUB_OUTPUT" Sample.github) accepted in
  let run1 := Zenodo.publish Sample.cli data without_env in
  let run2 := Zenodo.publish Sample.cli data without_output in
  fst run1 = Raise TypeError
  ∧ sent (snd run1) = [publish_request]
  ∧ fs (snd run1) = Sample.files
  ∧ fst run2 = Raise TypeError
  ∧ sent (snd run2) = [publish_request]
  ∧ fs (snd run2) !! "/gh/env"
    = Some (File ("CI=true" +:+ nl +:+ "html=https://zenodo.org/records/9" +:+ nl))
  ∧ fs (snd run2) !! "/gh/out" = Some (File "").
Proof. cbn zeta. split_and!; vm_compute; reflexivity. Qed.

(** ** The archive argument (lines 293-308) *)

(** An archive path that does not exist stops the script before anything is
    sent. *)
Lemma upload_archive_missing_path (token : string) (json_loads : string → option json)
    (archive version : string) (html_url zenodo_json doi : option string)
    (sandbox : bool) (title description : option string)
    (description_file : option TextIO) (w : world) :
  fs w !! Path.abspath (cwd w) archive = None →
  upload_archive token json_loads archive version html_url zenodo_json doi sandbox
    title description description_file w
  = (Exit ("Archive " +:+ Path.abspath (cwd w) archive +:+ " does not exist."), w).
Proof.
  intros Hnone. unfold upload_archive, bind at 1, os_abspath, bind at 1, path_exists.
  rewrite bool_decide_eq_false_2; [done|]. rewrite Hnone. by intros [? ?].
Qed.


(** C4: the code at the failing input.  The pattern [dist/*.zip] matches
    two files of the working directory, but no file has the pattern for a
    name: the script stops at the check of line 294, before any request,
    and uploads neither. *)
Theorem glob_pattern_is_rejected :
  let w := Sample.world_with Sample.github
             [Http.Response 200 (Some (JArr [JObj (Sample.deposition 7 false)]))] in
  Glob.glob (fs w) "/work/dist/*.zip" = Some ["/work/dist/a.zip"; "/work/dist/b.zip"]
  ∧ upload_archive Sample.token Sample.loads "dist/*.zip" "1.2.3" None
      (Some ".zenodo.json") (Some "10.5281/zenodo.1") false None None None w
    = (Exit "Archive /work/dist/*.zip does not exist.", w).
Proof. cbn zeta. split; vm_compute; reflexivity. Qed.

(** ** A whole invocation *)

(** [upload --doi 10.5281/zenodo.1 --version 1.2.3 dist/a.zip] where the
    deposit of the lineage is found unsubmitted: the listing, the fetch of
    the draft, the two deletions, one file upload, one metadata replace
    call, one publish call and no new-version call; both links end up in
    both files. *)
Example upload_end_to_end :
  let run :=
    upload_archive Sample.token Sample.loads "dist/a.zip" "1.2.3" None None
      (Some "10.5281/zenodo.1") false None None None
      (Sample.world_with Sample.github
         [Http.Response 200 (Some (JArr (JObj <$> [Sample.stranger; Sample.deposition 7 false])));
          Http.Response 200 (Some (JObj (Sample.deposition 9 false)));
          Http.Response 204 None; Http.Response 204 None;
          Http.Response 201 None;
          Http.Response 200 (Some (JObj (Sample.deposition 9 false)));
          Http.Response 202 (Some Sample.published)]) in
  fst run = Ok tt
  ∧ map (λ r, (Http.meth r, Http.url r)) (sent (snd run))
    = [(GET, "https://zenodo.org/api/deposit/depositions");
       (GET, "https://zenodo.org/api/deposit/depositions/9");
       (DELETE, "https://zenodo.org/api/files/bucket-9/old.zip");
       (DELETE, "https://zenodo.org/api/files/bucket-9/notes.txt");
       (PUT, "https://zenodo.org/api/files/bucket-9/a.zip");
       (PUT, "https://zenodo.org/api/deposit/depositions/9");
       (POST, "https://zenodo.org/api/deposit/depositions/9/actions/publish")]
  ∧ fs (snd run) !! "/gh/out"
    = Some (File (link_lines [("html", JStr "https://zenodo.org/records/9");
                              ("doi", JStr "https://doi.org/10.5281/zenodo.9")])).
Proof. cbn zeta. split_and!; vm_compute; reflexivity. Qed.

(** * The theorems on the sample release *)

(** Settles membership of a concrete status in a concrete list. *)
Ltac accepted := apply (bool_decide_unpack _); vm_compute; exact I.

(** The scan on a listing that meets the precondition, with the match in
    third place after an unregistered deposition and one of another
    lineage; and on a listing in which a deposition with ["doi"] only comes
    before the match. *)
Lemma find_deposit_scan_witness :
  fst (Zenodo.find_deposit_loop "10.5281/zenodo.1"
         (JObj <$> [Sample.unregistered; Sample.stranger; Sample.deposition 7 true])
         (Sample.world_with Sample.github []))
  = Ok (Some (JObj (Sample.deposition 7 true)))
  ∧ fst (Zenodo.find_deposit_loop "10.5281/zenodo.1"
           (JObj <$> [Sample.stranger; Sample.malformed; Sample.deposition 7 true])
           (Sample.world_with Sample.github []))
    = Raise (KeyError "conceptdoi").
Proof.
  split.
  - destruct (find_deposit_scan "10.5281/zenodo.1"
                [Sample.unregistered; Sample.stranger; Sample.deposition 7 true]
                (Sample.world_with Sample.github [])) as (_ & _ & Htotal & _).
    cbn zeta in Htotal. rewrite Htotal; [reflexivity|].
    repeat constructor; intros _; reflexivity.
  - destruct (find_deposit_scan "10.5281/zenodo.1"
                [Sample.stranger; Sample.malformed; Sample.deposition 7 true]
                (Sample.world_with Sample.github [])) as (_ & _ & _ & Hpartial).
    apply (Hpartial [Sample.stranger] Sample.malformed [Sample.deposition 7 true]).
    + reflexivity.
    + repeat constructor; intros _; reflexivity.
    + reflexivity.
    + reflexivity.
    + reflexivity.
Defined.

(** A refused upload, a refused new-version call, and a refused listing
    whose body is not JSON. *)
Lemma required_calls_are_fatal_witness :
  let refused := Sample.world_with Sample.github [Http.Response 500 (Some Sample.error)] in
  fst (Zenodo.upload_archive Sample.cli (JObj (Sample.deposition 9 false)) "dist/a.zip"
         refused)
  = Exit "Trouble uploading artifact dist/a.zip to bucket with response code 500"
  ∧ fst (Zenodo.select_draft Sample.cli "10.5281/zenodo.1" (JObj (Sample.deposition 7 true))
           refused)
    = Exit "Cannot create a new version for doi '10.5281/zenodo.1'. {'message': 'Internal error'}"
  ∧ fst (Zenodo.get_depositions Sample.cli
           (Sample.world_with Sample.github [Http.Response 502 None]))
    = Raise JSONDecodeError.
Proof.
  cbn zeta.
  destruct (required_calls_are_fatal Sample.loads Sample.cli "10.5281/zenodo.1"
              (JObj (Sample.deposition 7 true)) (JObj (Sample.deposition 9 false))
              "dist/a.zip" (Some ".zenodo.json") "1.2.3" None None None None)
    as (Hlisting & _ & Hversion & _ & Hupload & _).
  split_and!.
  - rewrite (Hupload _ (Http.Response 500 (Some Sample.error))).
    + vm_compute. reflexivity.
    + vm_compute. reflexivity.
    + unfold refused. cbn [Http.status_code]. accepted.
  - rewrite (Hversion _ (Http.Response 500 (Some Sample.error))).
    + vm_compute. reflexivity.
    + vm_compute. reflexivity.
    + unfold refused. cbn [Http.status_code]. accepted.
  - rewrite (Hlisting _ (Http.Response 502 None)).
    + reflexivity.
    + vm_compute. reflexivity.
    + unfold refused. cbn [Http.status_code]. accepted.
Defined.

(** The two files of the sample draft.  The first deleted (204, no body)
    and the second refused with a JSON body (500): both requests are made
    and one line is printed.  The first refused by a proxy (502, a body
    that is not JSON): the run ends there and the second file is not asked
    for. *)
Lemma clearing_files_decodes_refused_answers_witness :
  let draft := JObj (Sample.deposition 9 false) in
  let old_zip := deletion Sample.cli "https://zenodo.org/api/files/bucket-9/old.zip" in
  let notes := deletion Sample.cli "https://zenodo.org/api/files/bucket-9/notes.txt" in
  (∃ w', Zenodo.clear_files Sample.cli draft
           (Sample.world_with Sample.github
              [Http.Response 204 None; Http.Response 500 (Some Sample.error)])
         = (Ok tt, w')
         ∧ sent w' = [old_zip; notes]
         ∧ stdout w' = [Line "could not delete file notes.txt: {'message': 'Internal error'}"])
  ∧ (∃ w', Zenodo.clear_files Sample.cli draft
             (Sample.world_with Sample.github [Http.Response 502 None; Http.Response 204 None])
           = (Raise JSONDecodeError, w')
           ∧ sent w' = [old_zip]
           ∧ inbox w' = [Http.Response 204 None]).
Proof.
  cbn zeta. split.
  - destruct (clearing_files_decodes_refused_answers Sample.loads Sample.cli
                (JObj (Sample.deposition 9 false))
                (Sample.world_with Sample.github
                   [Http.Response 204 None; Http.Response 500 (Some Sample.error)]))
      as (Htolerant & _ & _).
    destruct (Htolerant [Sample.old_file; Sample.other_file]
                [("https://zenodo.org/api/files/bucket-9/old.zip", JStr "old.zip");
                 ("https://zenodo.org/api/files/bucket-9/notes.txt", JStr "notes.txt")]
                [Http.Response 204 None; Http.Response 500 (Some Sample.error)] [])
      as (w' & Hrun & Hsent & _ & Hout & _).
    + reflexivity.
    + repeat constructor.
    + reflexivity.
    + reflexivity.
    + apply Forall_cons. split; [left; cbn [Http.status_code]; accepted|].
      apply Forall_cons. split; [right; by eexists | constructor].
    + exists w'. split_and!; [exact Hrun | exact Hsent | exact Hout].
  - destruct (clearing_files_decodes_refused_answers Sample.loads Sample.cli
                (JObj (Sample.deposition 9 false))
                (Sample.world_with Sample.github
                   [Http.Response 502 None; Http.Response 204 None]))
      as (_ & Hstops & _).
    destruct (Hstops [] Sample.old_file [Sample.other_file] []
                "https://zenodo.org/api/files/bucket-9/old.zip" (JStr "old.zip")
                [] (Http.Response 502 None) [Http.Response 204 None])
      as (w' & Hrun & Hsent & Hinbox & _).
    + reflexivity.
    + constructor.
    + reflexivity.
    + reflexivity.
    + reflexivity.
    + constructor.
    + cbn [Http.status_code]. unfold not. apply (bool_decide_unpack _). vm_compute. exact I.
    + reflexivity.
    + exists w'. split_and!; [exact Hrun | exact Hsent | exact Hinbox].
Defined.

(** The sample lineage with an unsubmitted deposition, and with a submitted
    one. *)
Lemma update_doi_branches_on_submitted_witness :
  let doi := "10.5281/zenodo.1" in
  let draft := Http.Response 200 (Some (JObj (Sample.deposition 9 false))) in
  let deleted := Http.Response 204 None in
  let unsubmitted :=
    Sample.world_with Sample.github
      [Http.Response 200 (Some (JArr [JObj (Sample.deposition 9 false)]));
       draft; deleted; deleted] in
  let submitted :=
    Sample.world_with Sample.github
      [Http.Response 200 (Some (JArr [JObj (Sample.deposition 7 true)]));
       Http.Response 201 (Some (JObj (Sample.deposition 9 false))); draft; deleted; deleted] in
  (∃ deletions,
     sent (snd (Zenodo.update_doi Sample.cli doi unsubmitted))
     = sent (snd (Zenodo.find_deposit Sample.cli doi unsubmitted))
       ++ wrapped GET Sample.cli "https://zenodo.org/api/deposit/depositions/9"
       :: deletions
     ∧ Forall (λ r, Http.meth r = DELETE) deletions)
  ∧ (∃ deletions,
       sent (snd (Zenodo.update_doi Sample.cli doi submitted))
       = sent (snd (Zenodo.find_deposit Sample.cli doi submitted))
         ++ wrapped POST Sample.cli
              "https://zenodo.org/api/deposit/depositions/7/actions/newversion"
         :: wrapped GET Sample.cli "https://zenodo.org/api/deposit/depositions/9"
         :: deletions
       ∧ Forall (λ r, Http.meth r = DELETE) deletions).
Proof.
  cbn zeta. split.
  - lazymatch goal with
    | |- context [Zenodo.find_deposit _ _ ?w] =>
        destruct (update_doi_branches_on_submitted Sample.cli "10.5281/zenodo.1" w
                    (snd (Zenodo.find_deposit Sample.cli "10.5281/zenodo.1" w))
                    (JObj (Sample.deposition 9 false)) (JBool false))
          as [Hunsubmitted _]
    end.
    + vm_compute. reflexivity.
    + reflexivity.
    + destruct (Hunsubmitted eq_refl) as [_ Hget].
      apply (Hget Sample.links); reflexivity.
  - lazymatch goal with
    | |- context [Zenodo.find_deposit _ _ ?w] =>
        destruct (update_doi_branches_on_submitted Sample.cli "10.5281/zenodo.1" w
                    (snd (Zenodo.find_deposit Sample.cli "10.5281/zenodo.1" w))
                    (JObj (Sample.deposition 7 true)) (JBool true))
          as [_ Hsubmitted]
    end.
    + vm_compute. reflexivity.
    + reflexivity.
    + eapply (Hsubmitted eq_refl Sample.links _
                (Http.Response 201 (Some (JObj (Sample.deposition 9 false)))) _
                (JObj (Sample.deposition 9 false)) Sample.links).
      * reflexivity.
      * reflexivity.
      * reflexivity.
      * vm_compute. reflexivity.
      * cbn [Http.status_code]. accepted.
      * reflexivity.
      * reflexivity.
      * reflexivity.
      * reflexivity.
Defined.

(** The sample draft with the sample template, a title and both
    descriptions. *)
Lemma upload_metadata_fixed_fields_witness :
  ∃ r final,
    sent (snd (Zenodo.upload_metadata Sample.loads Sample.cli
                 (JObj (Sample.deposition 9 false)) (Some ".zenodo.json") "1.2.3"
                 (Some "https://github.com/o/r/releases/1.2.3") (Some "A title")
                 (Some "Told") (Some {| unread := "From the file" |})
                 (Sample.world_with Sample.github [Http.Response 200 (Some Sample.published)])))
    = [r]
    ∧ Http.meth r = PUT
    ∧ Http.body r = metadata_body final
    ∧ Dict.get "version" final = Some (JStr "1.2.3")
    ∧ Dict.get "publication_date" final = Some (JStr "2024-01-02")
    ∧ Dict.get "upload_type" final = Some (JStr "dataset").
Proof.
  apply (upload_metadata_fixed_fields Sample.loads Sample.cli
           (JObj (Sample.deposition 9 false))
           [("title", JStr "Old title"); ("upload_type", JStr "dataset")] (JNum 9)
           (Some ".zenodo.json") "1.2.3" (Some "https://github.com/o/r/releases/1.2.3")
           (Some "A title") (Some "Told") (Some {| unread := "From the file" |})
           (Sample.world_with Sample.github [Http.Response 200 (Some Sample.published)])
           (Dict.update [("title", JStr "Old title"); ("upload_type", JStr "dataset")]
              [("title", JStr "Template title"); ("license", JStr "MIT")])).
  - reflexivity.
  - reflexivity.
  - apply merged_template; [reflexivity | vm_compute; reflexivity].
  - intros _. vm_compute. exact I.
Defined.

Lemma upload_metadata_overrides_witness :
  ∃ r final,
    sent (snd (Zenodo.upload_metadata Sample.loads Sample.cli
                 (JObj (Sample.deposition 9 false)) (Some ".zenodo.json") "1.2.3"
                 (Some "https://github.com/o/r/releases/1.2.3") (Some "A title")
                 (Some "Told") (Some {| unread := "From the file" |})
                 (Sample.world_with Sample.github [Http.Response 200 (Some Sample.published)])))
    = [r]
    ∧ Http.meth r = PUT
    ∧ Http.body r = metadata_body final
    ∧ Dict.get "title" final = Some (JStr "A title")
    ∧ Dict.get "description" final = Some (JStr "Told").
Proof.
  apply (upload_metadata_overrides Sample.loads Sample.cli
           (JObj (Sample.deposition 9 false))
           [("title", JStr "Old title"); ("upload_type", JStr "dataset")] (JNum 9)
           (Some ".zenodo.json") "1.2.3" (Some "https://github.com/o/r/releases/1.2.3")
           (Some "A title") (Some "Told") (Some {| unread := "From the file" |})
           (Sample.world_with Sample.github [Http.Response 200 (Some Sample.published)])
           (Dict.update [("title", JStr "Old title"); ("upload_type", JStr "dataset")]
              [("title", JStr "Template title"); ("license", JStr "MIT")])).
  - reflexivity.
  - reflexivity.
  - apply merged_template; [reflexivity | vm_compute; reflexivity].
  - intros _. vm_compute. exact I.
Defined.

(** * More of the script *)

(** ** Computations that leave the files alone *)

Lemma reads_only_ret {A} (a : A) : reads_only (ret a).
Proof. done. Qed.

Lemma reads_only_lift {A} (o : outcome A) : reads_only (lift o).
Proof. done. Qed.

Lemma reads_only_bind {A B} (m : M A) (k : A → M B) :
  reads_only m → (∀ a, reads_only (k a)) → reads_only (bind m k).
Proof.
  intros Hm Hk w. unfold bind. specialize (Hm w).
  destruct (m w) as [[a| |] w']; cbn in *; [|done..].
  destruct (Hk a w') as (-> & -> & ->). done.
Qed.

Lemma reads_only_for_each {A} (l : list A) (body : A → M unit) :
  (∀ a, reads_only (body a)) → reads_only (for_each l body).
Proof.
  intros Hbody. induction l as [|a l IH]; cbn [for_each].
  - apply reads_only_ret.
  - apply reads_only_bind; [apply Hbody | intros _; apply IH].
Qed.

Lemma reads_only_print (text : string) : reads_only (print text).
Proof. done. Qed.

Lemma reads_only_print_json (j : json) : reads_only (print_json j).
Proof. done. Qed.

Lemma reads_only_environ_get (name : string) : reads_only (environ_get name).
Proof. done. Qed.

Lemma reads_only_datetime_today : reads_only datetime_today.
Proof. done. Qed.

Lemma reads_only_os_abspath (path : string) : reads_only (os_abspath path).
Proof. done. Qed.

Lemma reads_only_path_exists (path : string) : reads_only (path_exists path).
Proof. done. Qed.

Lemma reads_only_os_path_exists (path : string) : reads_only (os_path_exists path).
Proof. done. Qed.

Lemma reads_only_open_read (path : string) : reads_only (open_read path).
Proof. intros w. unfold open_read. repeat case_match; done. Qed.

Lemma reads_only_glob (pat : string) : reads_only (glob pat).
Proof. intros w. unfold glob. case_match; done. Qed.

Lemma reads_only_requests_send (req : Http.request) : reads_only (requests_send req).
Proof. intros w. unfold requests_send. repeat case_match; done. Qed.

(** Takes a computation of the script apart, down to the operations on the
    world, for a property that holds of each operation and passes through
    sequencing, loops and branches. *)
Ltac through bind_lemma loop_lemma base :=
  repeat first
    [ lazymatch goal with |- ∀ _, _ => intro end
    | base
    | apply bind_lemma
    | apply loop_lemma
    | match goal with
      | |- context [if ?c then _ else _] => destruct c
      | |- context [match ?x with _ => _ end] => destruct x
      end ].

Ltac reads_only_base :=
  first [ apply reads_only_ret | apply reads_only_lift | apply reads_only_print
        | apply reads_only_print_json | apply reads_only_environ_get
        | apply reads_only_datetime_today | apply reads_only_os_abspath
        | apply reads_only_path_exists | apply reads_only_os_path_exists
        | apply reads_only_open_read | apply reads_only_glob
        | apply reads_only_requests_send ].

Lemma reads_only_find_deposit_loop (doi : string) (deposits : list json) :
  reads_only (Zenodo.find_deposit_loop doi deposits).
Proof.
  induction deposits as [|deposit rest IH]; cbn [Zenodo.find_deposit_loop];
    through (@reads_only_bind) (@reads_only_for_each)
      ltac:(first [reads_only_base | apply IH]).
Qed.

Lemma reads_only_find_deposit (self : Zenodo.client) (doi : string) :
  reads_only (Zenodo.find_deposit self doi).
Proof.
  unfold Zenodo.find_deposit, Zenodo.get_depositions, Zenodo.get, sys_exit, raise.
  through (@reads_only_bind) (@reads_only_for_each)
    ltac:(first [reads_only_base | apply reads_only_find_deposit_loop]).
Qed.

Lemma reads_only_update_doi (self : Zenodo.client) (doi : string) :
  reads_only (Zenodo.update_doi self doi).
Proof.
  unfold Zenodo.update_doi, Zenodo.select_draft, Zenodo.fetch_draft, Zenodo.clear_files,
    Zenodo.delete_file, Zenodo.get, Zenodo.post, sys_exit, raise, when.
  through (@reads_only_bind) (@reads_only_for_each)
    ltac:(first [reads_only_base | apply reads_only_find_deposit]).
Qed.

Lemma reads_only_new_doi (self : Zenodo.client) : reads_only (Zenodo.new_doi self).
Proof.
  unfold Zenodo.new_doi, sys_exit.
  through (@reads_only_bind) (@reads_only_for_each) ltac:(reads_only_base).
Qed.

Lemma reads_only_upload_archive (self : Zenodo.client) (upload : json) (archive : string) :
  reads_only (Zenodo.upload_archive self upload archive).
Proof.
  unfold Zenodo.upload_archive, sys_exit.
  through (@reads_only_bind) (@reads_only_for_each) ltac:(reads_only_base).
Qed.

Lemma reads_only_upload_metadata (json_loads : string → option json)
    (self : Zenodo.client) (upload : json) (zenodo_json : option string)
    (version : string) (html_url title description : option string)
    (description_file : option TextIO) :
  reads_only (Zenodo.upload_metadata json_loads self upload zenodo_json version
                html_url title description description_file).
Proof.
  unfold Zenodo.upload_metadata, Zenodo.read_json, sys_exit, raise.
  through (@reads_only_bind) (@reads_only_for_each) ltac:(reads_only_base).
Qed.

(** ** What is written, and where (lines 41-53, 209-214, 293-322) *)

Lemma spares_reads_only {A} (m : M A) : reads_only m → spares m.
Proof. intros Hm w. destruct (Hm w) as (-> & -> & ->). done. Qed.

Lemma spares_bind {A B} (m : M A) (k : A → M B) :
  spares m → (∀ a, spares (k a)) → spares (bind m k).
Proof.
  intros Hm Hk w. unfold bind. destruct (Hm w) as (Henv & Hcwd & Hfs).
  destruct (m w) as [[a| |] w']; cbn in *; [|done..].
  destruct (Hk a w') as (Henv' & Hcwd' & Hfs').
  rewrite Henv', Hcwd'. split_and!; [done..|].
  intros path Hpath. rewrite Hfs'; [by apply Hfs|].
  intros var file Hvar. rewrite Henv, Hcwd. by apply Hpath.
Qed.

Lemma spares_for_each {A} (l : list A) (body : A → M unit) :
  (∀ a, spares (body a)) → spares (for_each l body).
Proof.
  intros Hbody. induction l as [|a l IH]; cbn [for_each].
  - apply spares_reads_only, reads_only_ret.
  - apply spares_bind; [apply Hbody | intros _; apply IH].
Qed.

(** One pass of the loop of [set_env_and_output], for one of the two
    variables. *)
Lemma spares_output_line (env_var message text : string) :
  env_var ∈ ["GITHUB_ENV"; "GITHUB_OUTPUT"] →
  spares (let* environment_file_path := environ_get env_var in
          print message ;;; open_append environment_file_path text).
Proof.
  intros Hvar w. unfold bind, environ_get, print, open_append, raise, lift. cbn.
  destruct (environ w !! env_var) as [file|] eqn:Hfile; cbn; [|done].
  repeat case_match; cbn; split_and!; try done;
    intros path Hpath; apply lookup_insert_ne; by eapply Hpath.
Qed.

Lemma spares_set_env_and_output (name : string) (value : json) :
  spares (set_env_and_output name value).
Proof.
  unfold set_env_and_output. cbn [for_each].
  apply spares_bind; [apply spares_output_line; set_solver | intros _].
  apply spares_bind; [apply spares_output_line; set_solver | intros _].
  apply spares_reads_only, reads_only_ret.
Qed.

Ltac spares_base :=
  first [ apply spares_set_env_and_output
        | apply spares_reads_only;
          first [ reads_only_base | apply reads_only_update_doi | apply reads_only_new_doi
                | apply reads_only_upload_archive | apply reads_only_upload_metadata ] ].

Lemma spares_publish (self : Zenodo.client) (data : json) :
  spares (Zenodo.publish self data).
Proof.
  unfold Zenodo.publish, sys_exit.
  through (@spares_bind) (@spares_for_each) ltac:(spares_base).
Qed.

Lemma spares_upload_archive (token : string) (json_loads : string → option json)
    (archive version : string) (html_url zenodo_json doi : option string)
    (sandbox : bool) (title description : option string)
    (description_file : option TextIO) :
  spares (upload_archive token json_loads archive version html_url zenodo_json doi
            sandbox title description description_file).
Proof.
  unfold upload_archive, sys_exit.
  through (@spares_bind) (@spares_for_each)
    ltac:(first [spares_base | apply spares_publish]).
Qed.

Lemma never_exits_bind {A B} (m : M A) (k : A → M B) :
  never_exits m → (∀ a, never_exits (k a)) → never_exits (bind m k).
Proof.
  intros Hm Hk w msg. unfold bind. specialize (Hm w).
  destruct (m w) as [[a| |] w']; cbn in *; [apply Hk | by destruct (Hm msg0) | done].
Qed.

Lemma never_exits_for_each {A} (l : list A) (body : A → M unit) :
  (∀ a, never_exits (body a)) → never_exits (for_each l body).
Proof.
  intros Hbody. induction l as [|a l IH]; cbn [for_each]; [done|].
  apply never_exits_bind; [apply Hbody | intros _; apply IH].
Qed.

Lemma never_exits_set_env_and_output (name : string) (value : json) :
  never_exits (set_env_and_output name value).
Proof.
  apply never_exits_for_each. intros env_var.
  apply never_exits_bind; [done | intros path].
  apply never_exits_bind; [done | intros _].
  intros w msg. unfold open_append. destruct path; [|done].
  repeat case_match; done.
Qed.

Lemma exits_clean_reads_only {A} (m : M A) : reads_only m → exits_clean m.
Proof. intros Hm w msg _. apply Hm. Qed.

Lemma exits_clean_never {A} (m : M A) : never_exits m → exits_clean m.
Proof. intros Hm w msg Hexit. by destruct (Hm w msg). Qed.

Lemma exits_clean_bind {A B} (m : M A) (k : A → M B) :
  reads_only m → (∀ a, exits_clean (k a)) → exits_clean (bind m k).
Proof.
  intros Hm Hk w msg. unfold bind. destruct (Hm w) as (Hfs & _).
  destruct (m w) as [[a| |] w']; cbn in *; [|done..].
  intros Hexit. rewrite <- Hfs. by eapply Hk.
Qed.

Ltac exits_clean_base :=
  first [ reads_only_base
        | apply reads_only_update_doi | apply reads_only_new_doi
        | apply reads_only_upload_archive | apply reads_only_upload_metadata
        | apply reads_only_bind | apply reads_only_for_each
        | apply exits_clean_reads_only; reads_only_base
        | apply exits_clean_never, never_exits_for_each; intros ?;
          apply never_exits_set_env_and_output ].

Lemma exits_clean_publish (self : Zenodo.client) (data : json) :
  exits_clean (Zenodo.publish self data).
Proof.
  unfold Zenodo.publish, sys_exit.
  through (@exits_clean_bind) (@reads_only_for_each) ltac:(exits_clean_base).
Qed.

Lemma exits_clean_upload_archive (token : string) (json_loads : string → option json)
    (archive version : string) (html_url zenodo_json doi : option string)
    (sandbox : bool) (title description : option string)
    (description_file : option TextIO) :
  exits_clean (upload_archive token json_loads archive version html_url zenodo_json doi
                 sandbox title description description_file).
Proof.
  unfold upload_archive, sys_exit.
  through (@exits_clean_bind) (@reads_only_for_each)
    ltac:(first [exits_clean_base | apply exits_clean_publish]).
Qed.

(** X1.  Whatever its arguments and whatever the network answers, the
    upload leaves alone every path that the environment does not name as
    [GITHUB_ENV] or [GITHUB_OUTPUT]: the archive, the template and every
    other file and directory are as they were, and so are the environment
    and the working directory. *)
Theorem upload_writes_only_the_outputs (token : string) (json_loads : string → option json)
    (archive version : string) (html_url zenodo_json doi : option string)
    (sandbox : bool) (title description : option string)
    (description_file : option TextIO) (w : world) (path : string) :
  not_an_output w path →
  let w' := snd (upload_archive token json_loads archive version html_url zenodo_json
                   doi sandbox title description description_file w) in
  fs w' !! path = fs w !! path ∧ environ w' = environ w ∧ cwd w' = cwd w.
Proof.
  intros Hpath w'.
  destruct (spares_upload_archive token json_loads archive version html_url zenodo_json
              doi sandbox title description description_file w) as (Henv & Hcwd & Hfs).
  split_and!; [by apply Hfs | done | done].
Qed.

(** X2.  An upload that ends by [sys.exit] has written no file: the lines
    for the outputs are written only after the last call that can exit. *)
Theorem upload_exit_writes_nothing (token : string) (json_loads : string → option json)
    (archive version : string) (html_url zenodo_json doi : option string)
    (sandbox : bool) (title description : option string)
    (description_file : option TextIO) (w : world) (msg : string) :
  fst (upload_archive token json_loads archive version html_url zenodo_json
         doi sandbox title description description_file w) = Exit msg →
  fs (snd (upload_archive token json_loads archive version html_url zenodo_json
             doi sandbox title description description_file w)) = fs w.
Proof. apply exits_clean_upload_archive. Qed.

(** ** The token (lines 61-64, and every call) *)

Lemma returns_ret {A} (Q : A → Prop) (a : A) : Q a → returns Q (ret a).
Proof. intros HQ w a' [= <-]. done. Qed.

Lemma returns_exit {A} (Q : A → Prop) (msg : string) : returns Q (lift (Exit msg)).
Proof. intros w a. done. Qed.

Lemma returns_raise {A} (Q : A → Prop) (e : exn) : returns Q (lift (Raise e)).
Proof. intros w a. done. Qed.

Lemma returns_bind {A B} (Q : B → Prop) (m : M A) (k : A → M B) :
  (∀ a, returns Q (k a)) → returns Q (bind m k).
Proof.
  intros Hk w b. unfold bind. destruct (m w) as [[a| |] w']; cbn; [apply Hk | done..].
Qed.

Lemma sends_only_bind_post {A B} (P : Http.request → Prop) (Q : A → Prop)
    (m : M A) (k : A → M B) :
  sends_only P m → returns Q m → (∀ a, Q a → sends_only P (k a)) →
  sends_only P (bind m k).
Proof.
  intros Hm HQ Hk w. unfold bind. destruct (Hm w) as (new & Hsent & Hnew).
  specialize (HQ w).
  destruct (m w) as [[a| |] w']; cbn in *; [|by exists new..].
  destruct (Hk a (HQ a eq_refl) w') as (new' & Hsent' & Hnew').
  exists (new ++ new'). rewrite Hsent', Hsent, app_assoc. split; [done|].
  by apply Forall_app.
Qed.

Lemma quiet_find_deposit_loop (doi : string) (deposits : list json) :
  quiet (Zenodo.find_deposit_loop doi deposits).
Proof.
  intros w. destruct (find_deposit_loop_frame doi deposits w) as [out ->]. done.
Qed.

Lemma quiet_glob (pat : string) : quiet (glob pat).
Proof. intros w. unfold glob. case_match; done. Qed.

Ltac quiet_base :=
  first [ apply quiet_ret | apply quiet_lift | apply quiet_print | apply quiet_print_json
        | apply quiet_environ_get | apply quiet_open_append | apply quiet_open_read
        | apply quiet_set_env_and_output | apply quiet_read_json
        | apply quiet_datetime_today | apply quiet_find_deposit_loop | apply quiet_glob
        | done ].

(** The base case of [through] for what is sent: a call whose request has
    the property, or an operation that does not call. *)
Ltac sends_base :=
  first [ apply sends_only_requests_send; cbn; done
        | apply sends_only_quiet; quiet_base ].

(** The client's methods send with the client's parameters. *)
Lemma update_doi_params (self : Zenodo.client) (doi : string) :
  sends_only (λ r, Http.params r = Zenodo.params self) (Zenodo.update_doi self doi).
Proof.
  unfold Zenodo.update_doi, Zenodo.find_deposit, Zenodo.get_depositions,
    Zenodo.select_draft, Zenodo.fetch_draft, Zenodo.clear_files,
    Zenodo.delete_file, Zenodo.get, Zenodo.post, sys_exit, raise, when.
  through (@sends_only_bind) (@sends_only_for_each) ltac:(sends_base).
Qed.

Lemma new_doi_params (self : Zenodo.client) :
  sends_only (λ r, Http.params r = Zenodo.params self) (Zenodo.new_doi self).
Proof.
  unfold Zenodo.new_doi, sys_exit.
  through (@sends_only_bind) (@sends_only_for_each) ltac:(sends_base).
Qed.

Lemma upload_archive_params (self : Zenodo.client) (upload : json) (archive : string) :
  sends_only (λ r, Http.params r = Zenodo.params self)
    (Zenodo.upload_archive self upload archive).
Proof.
  unfold Zenodo.upload_archive, sys_exit.
  through (@sends_only_bind) (@sends_only_for_each) ltac:(sends_base).
Qed.

Lemma upload_metadata_params (json_loads : string → option json)
    (self : Zenodo.client) (upload : json) (zenodo_json : option string)
    (version : string) (html_url title description : option string)
    (description_file : option TextIO) :
  sends_only (λ r, Http.params r = Zenodo.params self)
    (Zenodo.upload_metadata json_loads self upload zenodo_json version
       html_url title description description_file).
Proof.
  unfold Zenodo.upload_metadata, sys_exit, raise.
  through (@sends_only_bind) (@sends_only_for_each) ltac:(sends_base).
Qed.

Lemma publish_params (self : Zenodo.client) (data : json) :
  sends_only (λ r, Http.params r = Zenodo.params self) (Zenodo.publish self data).
Proof.
  unfold Zenodo.publish, sys_exit.
  through (@sends_only_bind) (@sends_only_for_each) ltac:(sends_base).
Qed.

(** The client [upload_metadata] hands back differs from the one it got by
    the [Content-Type] header only. *)
Lemma upload_metadata_client (json_loads : string → option json)
    (self : Zenodo.client) (upload : json) (zenodo_json : option string)
    (version : string) (html_url title description : option string)
    (description_file : option TextIO) :
  returns (λ result, snd result
                     = Zenodo.Client
                         (Dict.set "Content-Type" "application/json" (Zenodo.headers self))
                         (Zenodo.params self) (Zenodo.host self))
    (Zenodo.upload_metadata json_loads self upload zenodo_json version
       html_url title description description_file).
Proof.
  unfold Zenodo.upload_metadata, sys_exit, raise.
  through (@returns_bind) (@returns_bind)
    ltac:(first [apply returns_exit | apply returns_raise | by apply returns_ret]).
Qed.

(** The requests of the orchestrator carry the token. *)
Lemma upload_archive_authenticated (token : string) (json_loads : string → option json)
    (archive version : string) (html_url zenodo_json doi : option string)
    (sandbox : bool) (title description : option string)
    (description_file : option TextIO) :
  sends_only (authenticated token)
    (upload_archive token json_loads archive version html_url zenodo_json doi
       sandbox title description description_file).
Proof.
  unfold upload_archive, sys_exit.
  set (cli := Zenodo.init token sandbox).
  assert (Zenodo.params cli = [("access_token", token)]) as Hparams
    by (by destruct sandbox).
  unfold authenticated. rewrite <- Hparams. clearbody cli.
  apply sends_only_bind; [sends_base | intros path].
  apply sends_only_bind; [sends_base | intros found].
  destruct (negb found); [sends_base|].
  apply sends_only_bind.
  { destruct (Py.given doi); [apply update_doi_params|].
    destruct (negb (Py.given zenodo_json)); [sends_base | apply new_doi_params]. }
  intros upload.
  apply sends_only_bind; [sends_base | intros paths].
  apply sends_only_bind.
  { apply sends_only_for_each. intros file. apply upload_archive_params. }
  intros _.
  eapply sends_only_bind_post.
  - apply upload_metadata_params.
  - apply upload_metadata_client.
  - intros [data cli'] Hcli. cbn in Hcli. subst cli'. cbn [fst snd].
    apply (publish_params
             (Zenodo.Client (Dict.set "Content-Type" "application/json" (Zenodo.headers cli))
                (Zenodo.params cli) (Zenodo.host cli))).
Qed.

(** X3.  Every request of an upload carries the token the client was built
    with as its [access_token] parameter, and no other parameter: the
    listing, the new-version call, the fetch of the draft, the deletions,
    the file uploads, the metadata and the publish call alike, for all
    arguments and all answers. *)
Theorem upload_is_authenticated (token : string) (json_loads : string → option json)
    (archive version : string) (html_url zenodo_json doi : option string)
    (sandbox : bool) (title description : option string)
    (description_file : option TextIO) :
  sends_only (authenticated token)
    (upload_archive token json_loads archive version html_url zenodo_json doi
       sandbox title description description_file).
Proof.
  apply upload_archive_authenticated.
Qed.

(** ** Checks before the first call (lines 293-304, 367-392) *)

(** X4.  The upload checks its arguments before it calls: when the archive
    path does not exist, or when there is neither a DOI nor a template, it
    ends by [sys.exit] with the message for the case and the world is as it
    was, nothing sent and nothing written or printed. *)
Theorem upload_checks_before_calling (token : string) (json_loads : string → option json)
    (archive version : string) (html_url zenodo_json doi : option string)
    (sandbox : bool) (title description : option string)
    (description_file : option TextIO) (w : world) :
  let run := upload_archive token json_loads archive version html_url zenodo_json doi
               sandbox title description description_file w in
  (fs w !! Path.abspath (cwd w) archive = None →
     run = (Exit ("Archive " +:+ Path.abspath (cwd w) archive +:+ " does not exist."), w))
  ∧ (is_Some (fs w !! Path.abspath (cwd w) archive) →
     Py.given doi = false → Py.given zenodo_json = false →
     run = (Exit "You MUST provided a .zenodo.json template to create a new DOI.", w)).
Proof.
  cbn zeta. split.
  - apply upload_archive_missing_path.
  - intros Hexists Hdoi Htemplate.
    unfold upload_archive, bind at 1, os_abspath, bind at 1, path_exists.
    rewrite bool_decide_eq_true_2 by done. cbn [negb].
    by rewrite Hdoi, Htemplate.
Qed.

Lemma upload_checks_before_calling_witness :
  upload_archive Sample.token Sample.loads "dist/c.zip" "1.2.3" None None
    (Some "10.5281/zenodo.1") false None None None (Sample.world_with Sample.github [])
  = (Exit "Archive /work/dist/c.zip does not exist.", Sample.world_with Sample.github [])
  ∧ upload_archive Sample.token Sample.loads "dist/a.zip" "1.2.3" None None
      None false None None None (Sample.world_with Sample.github [])
    = (Exit "You MUST provided a .zenodo.json template to create a new DOI.",
       Sample.world_with Sample.github []).
Proof.
  split.
  - apply (upload_checks_before_calling Sample.token Sample.loads "dist/c.zip" "1.2.3"
             None None (Some "10.5281/zenodo.1") false None None None
             (Sample.world_with Sample.github [])).
    reflexivity.
  - apply (upload_checks_before_calling Sample.token Sample.loads "dist/a.zip" "1.2.3"
             None None None false None None None
             (Sample.world_with Sample.github [])).
    + vm_compute. by eexists.
    + reflexivity.
    + reflexivity.
Defined.

(** X5.  Without a DOI the upload creates: it sends [POST] and [PUT]
    requests only, so it neither lists the depositions nor deletes a file
    of any. *)
Theorem upload_without_doi_only_creates (token : string)
    (json_loads : string → option json) (archive version : string)
    (html_url zenodo_json doi : option string) (sandbox : bool)
    (title description : option string) (description_file : option TextIO) :
  Py.given doi = false →
  sends_only (λ r, Http.meth r = POST ∨ Http.meth r = PUT)
    (upload_archive token json_loads archive version html_url zenodo_json doi
       sandbox title description description_file).
Proof.
  intros Hdoi. unfold upload_archive. rewrite Hdoi.
  unfold Zenodo.new_doi, Zenodo.upload_archive, Zenodo.upload_metadata,
    Zenodo.publish, sys_exit, raise.
  through (@sends_only_bind) (@sends_only_for_each)
    ltac:(first [ apply sends_only_requests_send; cbn; by (left + right) | sends_base ]).
Qed.

Lemma upload_without_doi_only_creates_witness :
  ∃ new, sent (snd (upload_archive Sample.token Sample.loads "dist/a.zip" "1.2.3" None
                      (Some ".zenodo.json") None false None None None
                      (Sample.world_with Sample.github
                         [Http.Response 201 (Some (JObj (Sample.deposition 9 false)));
                          Http.Response 201 None;
                          Http.Response 200 (Some (JObj (Sample.deposition 9 false)));
                          Http.Response 202 (Some Sample.published)])))
         = new
         ∧ Forall (λ r, Http.meth r = POST ∨ Http.meth r = PUT) new.
Proof.
  destruct (upload_without_doi_only_creates Sample.token Sample.loads "dist/a.zip" "1.2.3"
              None (Some ".zenodo.json") None false None None None eq_refl
              (Sample.world_with Sample.github
                 [Http.Response 201 (Some (JObj (Sample.deposition 9 false)));
                  Http.Response 201 None;
                  Http.Response 200 (Some (JObj (Sample.deposition 9 false)));
                  Http.Response 202 (Some Sample.published)]))
    as (new & Hsent & Hnew).
  exists new. split; [exact Hsent | exact Hnew].
Defined.

(** The archive after a complete upload of the sample release. *)
Lemma upload_writes_only_the_outputs_witness :
  fs (snd (upload_archive Sample.token Sample.loads "dist/a.zip" "1.2.3" None None
             (Some "10.5281/zenodo.1") false None None None
             (Sample.world_with Sample.github
                [Http.Response 200 (Some (JArr [JObj (Sample.deposition 7 false)]));
                 Http.Response 200 (Some (JObj (Sample.deposition 9 false)));
                 Http.Response 204 None; Http.Response 204 None;
                 Http.Response 201 None;
                 Http.Response 200 (Some (JObj (Sample.deposition 9 false)));
                 Http.Response 202 (Some Sample.published)])))
  !! "/work/dist/a.zip"
  = Some (File "PK-a").
Proof.
  apply (upload_writes_only_the_outputs Sample.token Sample.loads "dist/a.zip" "1.2.3"
           None None (Some "10.5281/zenodo.1") false None None None
           (Sample.world_with Sample.github
              [Http.Response 200 (Some (JArr [JObj (Sample.deposition 7 false)]));
               Http.Response 200 (Some (JObj (Sample.deposition 9 false)));
               Http.Response 204 None; Http.Response 204 None;
               Http.Response 201 None;
               Http.Response 200 (Some (JObj (Sample.deposition 9 false)));
               Http.Response 202 (Some Sample.published)])
           "/work/dist/a.zip").
  intros var file Hvar Hfile.
  apply elem_of_cons in Hvar as [->|Hvar].
  - vm_compute in Hfile. injection Hfile as <-. vm_compute. discriminate.
  - apply elem_of_cons in Hvar as [->|Hvar].
    + vm_compute in Hfile. injection Hfile as <-. vm_compute. discriminate.
    + by apply elem_of_nil in Hvar.
Defined.

(** An upload stopped by a refused listing. *)
Lemma upload_exit_writes_nothing_witness :
  fs (snd (upload_archive Sample.token Sample.loads "dist/a.zip" "1.2.3" None None
             (Some "10.5281/zenodo.1") false None None None
             (Sample.world_with Sample.github [Http.Response 500 (Some Sample.error)])))
  = Sample.files.
Proof.
  apply (upload_exit_writes_nothing Sample.token Sample.loads "dist/a.zip" "1.2.3"
           None None (Some "10.5281/zenodo.1") false None None None
           (Sample.world_with Sample.github [Http.Response 500 (Some Sample.error)])
           "Cannot query depositions: 500, {'message': 'Internal error'}").
  vm_compute. reflexivity.
Defined.

(** ** The file upload (lines 180-198) *)




(** ** Normalised paths (line 293) *)



























(** ** The rest of the metadata (lines 231-276) *)

(** The request of [upload_metadata] in full, with what it does to the
    identifiers and to the keys it does not write. *)
Lemma upload_metadata_sent (json_loads : string → option json) (self : Zenodo.client)
    (upload : json) (metadata : dict) (id : json) (zenodo_json : option string)
    (version : string) (html_url title description : option string)
    (description_file : option TextIO) (w : world) (template_merged : dict) :
  Py.subscript upload "metadata" = Ok (JObj metadata) →
  Py.subscript upload "id" = Ok id →
  merged json_loads w metadata zenodo_json template_merged →
  identifiers_fit html_url template_merged →
  ∃ final,
    sent (snd (Zenodo.upload_metadata json_loads self upload zenodo_json version
                 html_url title description description_file w))
    = sent w ++ [Http.Request PUT
                   ("https://zenodo.org/api/deposit/depositions/" +:+ Py.str id)
                   (Zenodo.params self)
                   (Dict.set "Content-Type" "application/json" (Zenodo.headers self))
                   (metadata_body final)]
    ∧ Dict.get "related_identifiers" final
      = (if Py.given html_url
         then Some (JArr (identifiers template_merged
                          ++ [Zenodo.related_identifier (default "" html_url)]))
         else Dict.get "related_identifiers" template_merged)
    ∧ ∀ k, k ∉ written_keys → Dict.get k final = Dict.get k template_merged.
Proof.
  intros Hmd Hid Hmerged Hfit.
  unfold Zenodo.upload_metadata, bind at 1, lift. rewrite Hmd.
  assert ((if Py.given zenodo_json
           then let* template := Zenodo.read_json json_loads (default "" zenodo_json) in
                lift (Zenodo.metadata_update metadata template)
           else ret metadata) w = (Ok template_merged, w)) as Hstep.
  { destruct Hmerged as [zj Hzj|path template Hpath Hread].
    - by rewrite Hzj.
    - cbn [Py.given default]. rewrite Hpath.
      by rewrite (bind_ok _ _ _ _ _ Hread). }
  rewrite (bind_ok _ _ _ _ _ Hstep). clear Hstep.
  unfold bind at 1, datetime_today. cbn zeta.
  match goal with
  | |- context [Dict.mem "related_identifiers" ?m] => set (fixed := m)
  end.
  assert (∀ k, k ≠ "version" → k ≠ "publication_date" → k ≠ "upload_type" →
               Dict.get k fixed = Dict.get k template_merged) as Hk.
  { subst fixed. intros k ? ? ?.
    destruct (negb (Dict.mem "upload_type" _)); by rewrite !dict_get_set_ne. }
  clearbody fixed.
  match goal with
  | |- context [bind ?m _ w] =>
      assert (∃ identified, m w = (Ok identified, w)
                ∧ Dict.get "related_identifiers" identified
                  = (if Py.given html_url
                     then Some (JArr (identifiers template_merged
                                      ++ [Zenodo.related_identifier (default "" html_url)]))
                     else Dict.get "related_identifiers" template_merged)
                ∧ ∀ k, k ≠ "related_identifiers" →
                       Dict.get k identified = Dict.get k fixed)
        as (identified & Hstep & Hids & Hsame)
  end.
  { unfold identifiers. rewrite <- (Hk "related_identifiers") by discriminate.
    destruct (Py.given html_url) eqn:Hurl; [|by exists fixed].
    specialize (Hfit Hurl).
    rewrite <- (Hk "related_identifiers") in Hfit by discriminate.
    unfold Dict.mem.
    destruct (Dict.get "related_identifiers" fixed) as [[| | | |existing|]|] eqn:Er;
      try done.
    - rewrite Er. eexists. split_and!; [reflexivity | apply dict_get_set_eq |].
      intros k Hne. by rewrite dict_get_set_ne.
    - rewrite dict_get_set_eq. eexists. split_and!; [reflexivity | apply dict_get_set_eq |].
      intros k Hne. by rewrite !dict_get_set_ne. }
  rewrite (bind_ok _ _ _ _ _ Hstep). clear Hstep.
  unfold bind at 1, lift. rewrite Hid.
  rewrite sent_after_exchange; cycle 1.
  { apply valid_url_https. }
  { intros r. destruct (negb (Http.status_code r =? 200)); quiet_sequel. }
  eexists. split_and!; [reflexivity | ..].
  - destruct description, description_file, title; dict_simpl; exact Hids.
  - intros k Hwritten. unfold written_keys in Hwritten.
    repeat (apply not_elem_of_cons in Hwritten as [? Hwritten]).
    destruct description, description_file, title;
      rewrite ?dict_get_set_ne by done; rewrite Hsame by done; by apply Hk.
Qed.

(** X7.  With a release URL, the metadata sent have, under
    ["related_identifiers"], the identifiers of the merged metadata in
    their order followed by one more entry, the [isSupplementTo] entry for
    the URL; nothing is compared, so an entry that is there already is there
    twice.  Without a release URL ([None] or the empty string) the key is
    as merged.  The one request is the [PUT] to the deposition's id on
    [zenodo.org], with the client's headers and
    [Content-Type: application/json]. *)
Theorem release_url_is_appended (json_loads : string → option json)
    (self : Zenodo.client) (upload : json) (metadata : dict) (id : json)
    (zenodo_json : option string) (version : string)
    (html_url title description : option string) (description_file : option TextIO)
    (w : world) (template_merged : dict) :
  Py.subscript upload "metadata" = Ok (JObj metadata) →
  Py.subscript upload "id" = Ok id →
  merged json_loads w metadata zenodo_json template_merged →
  identifiers_fit html_url template_merged →
  ∃ final,
    sent (snd (Zenodo.upload_metadata json_loads self upload zenodo_json version
                 html_url title description description_file w))
    = sent w ++ [Http.Request PUT
                   ("https://zenodo.org/api/deposit/depositions/" +:+ Py.str id)
                   (Zenodo.params self)
                   (Dict.set "Content-Type" "application/json" (Zenodo.headers self))
                   (metadata_body final)]
    ∧ Dict.get "related_identifiers" final
      = (if Py.given html_url
         then Some (JArr (identifiers template_merged
                          ++ [Zenodo.related_identifier (default "" html_url)]))
         else Dict.get "related_identifiers" template_merged).
Proof.
  intros Hmd Hid Hmerged Hfit.
  destruct (upload_metadata_sent json_loads self upload metadata id zenodo_json version
              html_url title description description_file w template_merged
              Hmd Hid Hmerged Hfit) as (final & Hsent & Hids & _).
  by exists final.
Qed.

(** A deposition that carries the entry of the release already: the entry
    is sent twice. *)
Lemma release_url_is_appended_witness :
  let entry := Zenodo.related_identifier "https://github.com/o/r/releases/1.2.3" in
  let upload := JObj [("id", JNum 9);
                      ("metadata", JObj [("related_identifiers", JArr [entry])])] in
  ∃ final,
    sent (snd (Zenodo.upload_metadata Sample.loads Sample.cli upload None "1.2.3"
                 (Some "https://github.com/o/r/releases/1.2.3") None None None
                 (Sample.world_with Sample.github [])))
    = [Http.Request PUT "https://zenodo.org/api/deposit/depositions/9"
         [("access_token", Sample.token)]
         [("Accept", "application/json"); ("Content-Type", "application/json")]
         (metadata_body final)]
    ∧ Dict.get "related_identifiers" final = Some (JArr [entry; entry]).
Proof.
  cbn zeta.
  apply (release_url_is_appended Sample.loads Sample.cli _
           [("related_identifiers",
             JArr [Zenodo.related_identifier "https://github.com/o/r/releases/1.2.3"])]
           (JNum 9) None "1.2.3" (Some "https://github.com/o/r/releases/1.2.3")
           None None None (Sample.world_with Sample.github [])
           [("related_identifiers",
             JArr [Zenodo.related_identifier "https://github.com/o/r/releases/1.2.3"])]).
  - reflexivity.
  - reflexivity.
  - by apply merged_alone.
  - intros _. vm_compute. exact I.
Defined.

(** X8.  On the keys it does not write itself, [upload_metadata] sends
    what the merge made: for each such key the value of the template if the
    template has the key (its last value, should it have several), and the
    value of the deposition's own metadata otherwise.  No key of either is
    dropped. *)
Theorem template_overrides_other_fields (json_loads : string → option json)
    (self : Zenodo.client) (upload : json) (metadata template : dict) (id : json)
    (path version : string) (html_url title description : option string)
    (description_file : option TextIO) (w : world) :
  Py.subscript upload "metadata" = Ok (JObj metadata) →
  Py.subscript upload "id" = Ok id →
  Py.nonempty path = true →
  Zenodo.read_json json_loads path w = (Ok (JObj template), w) →
  identifiers_fit html_url (Dict.update metadata template) →
  ∃ r final,
    sent (snd (Zenodo.upload_metadata json_loads self upload (Some path) version
                 html_url title description description_file w))
    = sent w ++ [r]
    ∧ Http.body r = metadata_body final
    ∧ ∀ k, k ∉ written_keys →
           Dict.get k final
           = match Dict.get k (rev template) with
             | Some v => Some v
             | None => Dict.get k metadata
             end.
Proof.
  intros Hmd Hid Hpath Hread Hfit.
  destruct (upload_metadata_sent json_loads self upload metadata id (Some path) version
              html_url title description description_file w
              (Dict.update metadata template) Hmd Hid
              (merged_template json_loads w metadata path template Hpath Hread) Hfit)
    as (final & Hsent & _ & Hother).
  eexists _, final. split_and!; [exact Hsent | reflexivity |].
  intros k Hk. rewrite (Hother k Hk). apply dict_get_update.
Qed.

Lemma template_overrides_other_fields_witness :
  ∃ r final,
    sent (snd (Zenodo.upload_metadata Sample.loads Sample.cli
                 (JObj [("id", JNum 9);
                        ("metadata", JObj [("license", JStr "GPL"); ("creators", JArr [])])])
                 (Some ".zenodo.json") "1.2.3" None None None None
                 (Sample.world_with Sample.github [])))
    = [r]
    ∧ Http.body r = metadata_body final
    ∧ Dict.get "license" final = Some (JStr "MIT")
    ∧ Dict.get "creators" final = Some (JArr []).
Proof.
  destruct (template_overrides_other_fields Sample.loads Sample.cli
              (JObj [("id", JNum 9);
                     ("metadata", JObj [("license", JStr "GPL"); ("creators", JArr [])])])
              [("license", JStr "GPL"); ("creators", JArr [])]
              [("title", JStr "Template title"); ("license", JStr "MIT")]
              (JNum 9) ".zenodo.json" "1.2.3" None None None None
              (Sample.world_with Sample.github []))
    as (r & final & Hsent & Hbody & Hother).
  - reflexivity.
  - reflexivity.
  - reflexivity.
  - vm_compute. reflexivity.
  - intros Hgiven. discriminate Hgiven.
  - exists r, final. split_and!; [exact Hsent | exact Hbody | |].
    + rewrite Hother; [reflexivity|]. apply (bool_decide_unpack _). vm_compute. exact I.
    + rewrite Hother; [reflexivity|]. apply (bool_decide_unpack _). vm_compute. exact I.
Defined.

Lemma read_json_world (json_loads : string → option json) (path : string) (w : world) :
  snd (Zenodo.read_json json_loads path w) = w.
Proof.
  unfold Zenodo.read_json, bind, open_read, ret, raise, lift. cbv zeta.
  destruct (fs w !! Path.abspath (cwd w) path) as [[content|]|]; [|done..].
  by destruct (json_loads content).
Qed.

(** X9.  A template that cannot be used stops [upload_metadata] before its
    request: when the file cannot be read or decoded, and when what it
    decodes to cannot be merged (a number, a boolean, [null], a non-empty
    string), the exception of that step is the result and the world is as
    it was. *)
Theorem unusable_template_sends_nothing (json_loads : string → option json)
    (self : Zenodo.client) (upload : json) (metadata : dict) (path version : string)
    (html_url title description : option string) (description_file : option TextIO)
    (w : world) (e : exn) :
  Py.subscript upload "metadata" = Ok (JObj metadata) →
  Py.nonempty path = true →
  (fst (Zenodo.read_json json_loads path w) = Raise e
   ∨ ∃ template, fst (Zenodo.read_json json_loads path w) = Ok template
                 ∧ Zenodo.metadata_update metadata template = Raise e) →
  Zenodo.upload_metadata json_loads self upload (Some path) version
    html_url title description description_file w
  = (Raise e, w).
Proof.
  intros Hmd Hpath Hbad.
  unfold Zenodo.upload_metadata, bind at 1, lift. rewrite Hmd.
  change (default "" (Some path)) with path.
  cbn [Py.given]. rewrite Hpath.
  unfold bind at 1, bind at 1, lift.
  pose proof (read_json_world json_loads path w) as Hw.
  destruct (Zenodo.read_json json_loads path w) as [o w1]. cbn in Hw, Hbad. subst w1.
  destruct Hbad as [->|(template & -> & Hmerge)]; [reflexivity|].
  cbv beta iota. by rewrite Hmerge.
Qed.

Lemma unusable_template_sends_nothing_witness :
  Zenodo.upload_metadata Sample.loads Sample.cli (JObj (Sample.deposition 9 false))
    (Some "dist/notes.txt") "1.2.3" None None None None
    (Sample.world_with Sample.github [Http.Response 200 (Some Sample.published)])
  = (Raise JSONDecodeError,
     Sample.world_with Sample.github [Http.Response 200 (Some Sample.published)]).
Proof.
  apply (unusable_template_sends_nothing Sample.loads Sample.cli
           (JObj (Sample.deposition 9 false))
           [("title", JStr "Old title"); ("upload_type", JStr "dataset")]
           "dist/notes.txt" "1.2.3" None None None None
           (Sample.world_with Sample.github [Http.Response 200 (Some Sample.published)])
           JSONDecodeError).
  - reflexivity.
  - reflexivity.
  - left. vm_compute. reflexivity.
Defined.

(** ** Publishing (lines 200-214) *)




(** ** The draft that is worked on (lines 138-178) *)

(** X11.  What [update_doi] returns is the answer to the fetch of
    [latest_draft], in both branches: once a deposit is found and a draft
    selected (the deposit itself, or the answer of the new-version call),
    an accepted fetch that decodes, followed by an answer for each deletion
    that is accepted or has a JSON body, makes [update_doi] return the
    fetched document, not the deposit and not the selected draft, after
    the [GET] of the draft's [latest_draft] link and one [DELETE] per file
    of the fetched document. *)
Theorem update_doi_returns_the_fetched_draft (self : Zenodo.client) (doi : string)
    (w w1 w2 : world) (deposit draft links : json) (latest : string)
    (fetched : Http.response) (responses rest : list Http.response)
    (new_version : json) (files : list json) (descriptors : list (string * json)) :
  Zenodo.find_deposit self doi w = (Ok (Some deposit), w1) →
  Zenodo.select_draft self doi deposit w1 = (Ok draft, w2) →
  Py.subscript draft "links" = Ok links →
  Py.subscript links "latest_draft" = Ok (JStr latest) →
  Http.valid_url (target self latest) = true →
  inbox w2 = fetched :: responses ++ rest →
  Http.status_code fetched ∈ [200; 201] →
  Http.json fetched = Ok new_version →
  Py.get_default new_version "files" (JArr []) = Ok (JArr files) →
  Forall2 (λ file d, file_descriptor file = Some d) files descriptors →
  length responses = length files →
  Forall tolerated responses →
  ∃ w', Zenodo.update_doi self doi w = (Ok new_version, w')
        ∧ sent w' = sent w2 ++ wrapped GET self latest
                            :: (deletion self ∘ fst <$> descriptors)
        ∧ inbox w' = rest.
Proof.
  intros Hfind Hselect Hlinks Hlatest Hvalid Hin Hok Hdecoded Hfiles Hdesc Hlen Htolerated.
  rewrite (update_doi_found _ _ _ _ _ Hfind).
  rewrite (bind_ok _ _ _ _ _ Hselect).
  unfold bind at 1, Zenodo.fetch_draft, bind at 1, lift. rewrite Hlinks.
  unfold bind at 1, lift. rewrite Hlatest.
  unfold bind at 1, Zenodo.get, requests_send. fold (target self latest).
  cbn [Http.url]. rewrite Hvalid, Hin. cbn [negb].
  unfold Zenodo.status_not_in. rewrite bool_decide_eq_true_2 by done. cbn [negb].
  rewrite Hdecoded.
  unfold bind at 1, Zenodo.clear_files, bind at 1, lift. rewrite Hfiles.
  unfold bind at 1, lift. cbn [Py.iter].
  destruct (clear_loop_run self files descriptors Hdesc responses rest
              (set_net (responses ++ rest) (sent w2 ++ [wrapped GET self latest]) w2)
              eq_refl Hlen Htolerated) as (w' & Hrun & Hsent & Hinbox & _).
  fold (wrapped GET self latest). rewrite Hrun. cbn.
  exists w'. split_and!; [done | | done].
  rewrite Hsent. cbn. by rewrite <- app_assoc.
Qed.

Lemma update_doi_returns_the_fetched_draft_witness :
  let w := Sample.world_with Sample.github
             [Http.Response 200 (Some (JArr [JObj (Sample.deposition 7 false)]));
              Http.Response 200 (Some (JObj (Sample.deposition 9 false)));
              Http.Response 204 None; Http.Response 404 (Some Sample.error)] in
  ∃ w', Zenodo.update_doi Sample.cli "10.5281/zenodo.1" w
        = (Ok (JObj (Sample.deposition 9 false)), w')
        ∧ inbox w' = [].
Proof.
  cbn zeta.
  lazymatch goal with
  | |- context [Zenodo.update_doi _ _ ?w] =>
      destruct (update_doi_returns_the_fetched_draft Sample.cli "10.5281/zenodo.1" w
                  (snd (Zenodo.find_deposit Sample.cli "10.5281/zenodo.1" w))
                  (snd (Zenodo.find_deposit Sample.cli "10.5281/zenodo.1" w))
                  (JObj (Sample.deposition 7 false)) (JObj (Sample.deposition 7 false))
                  Sample.links "https://zenodo.org/api/deposit/depositions/9"
                  (Http.Response 200 (Some (JObj (Sample.deposition 9 false))))
                  [Http.Response 204 None; Http.Response 404 (Some Sample.error)] []
                  (JObj (Sample.deposition 9 false))
                  [Sample.old_file; Sample.other_file]
                  [("https://zenodo.org/api/files/bucket-9/old.zip", JStr "old.zip");
                   ("https://zenodo.org/api/files/bucket-9/notes.txt", JStr "notes.txt")])
        as (w' & Hrun & _ & Hinbox)
  end.
  - vm_compute. reflexivity.
  - vm_compute. reflexivity.
  - reflexivity.
  - reflexivity.
  - reflexivity.
  - vm_compute. reflexivity.
  - cbn [Http.status_code]. accepted.
  - reflexivity.
  - reflexivity.
  - repeat constructor.
  - reflexivity.
  - apply Forall_cons. split; [left; cbn [Http.status_code]; accepted|].
    apply Forall_cons. split; [right; by eexists | constructor].
  - exists w'. split; [exact Hrun | exact Hinbox].
Defined.

(** X12.  Resolving the draft neither uploads nor writes: [update_doi]
    sends no [PUT] and no request with a body, and it leaves every file,
    the environment and the working directory as they were, for every
    world. *)
Theorem update_doi_never_uploads (self : Zenodo.client) (doi : string) :
  sends_only (λ r, Http.meth r ≠ PUT ∧ Http.body r = NoBody) (Zenodo.update_doi self doi)
  ∧ reads_only (Zenodo.update_doi self doi).
Proof.
  split; [|apply reads_only_update_doi].
  unfold Zenodo.update_doi, Zenodo.find_deposit, Zenodo.get_depositions,
    Zenodo.select_draft, Zenodo.fetch_draft, Zenodo.clear_files,
    Zenodo.delete_file, Zenodo.get, Zenodo.post, sys_exit, raise, when.
  through (@sends_only_bind) (@sends_only_for_each) ltac:(sends_base).
Qed.

(** ** The host of the listing and of relative links (lines 61-100) *)

(** A call sends its request whether or not an answer comes back. *)
Lemma requests_send_sent (req : Http.request) (w : world) :
  Http.valid_url (Http.url req) = true →
  sent (snd (requests_send req w)) = sent w ++ [req].
Proof.
  intros Hvalid. unfold requests_send. rewrite Hvalid. cbn [negb].
  by destruct (inbox w).
Qed.

(** X13.  The sandbox option is honoured where the wrappers build the URL.
    For a client made with or without it, [find_deposit] makes exactly one
    request, a [GET] with the token to the host chosen
    ([sandbox.zenodo.org] or [zenodo.org]); and for every link that starts
    with a slash, [self.get] and [self.post] make exactly one request, to
    that link on the host chosen, whatever the world. *)
Theorem listing_honours_the_sandbox_option (token doi : string) (sandbox : bool)
    (w : world) :
  let self := Zenodo.init token sandbox in
  let chosen := if sandbox then "sandbox.zenodo.org" else "zenodo.org" in
  (∃ r, sent (snd (Zenodo.find_deposit self doi w)) = sent w ++ [r]
        ∧ Http.meth r = GET ∧ goes_to chosen r ∧ authenticated token r)
  ∧ (∀ path,
       ∃ r, sent (snd (Zenodo.get self (JStr (String "/" path)) w)) = sent w ++ [r]
            ∧ Http.meth r = GET
            ∧ Http.url r = "https://" +:+ chosen +:+ String "/" path
            ∧ goes_to chosen r)
  ∧ (∀ path,
       ∃ r, sent (snd (Zenodo.post self (JStr (String "/" path)) w)) = sent w ++ [r]
            ∧ Http.meth r = POST
            ∧ Http.url r = "https://" +:+ chosen +:+ String "/" path
            ∧ goes_to chosen r).
Proof.
  cbn zeta. split_and!.
  - exists (wrapped GET (Zenodo.init token sandbox) "/api/deposit/depositions").
    split_and!; [|reflexivity|by destruct sandbox|by destruct sandbox].
    unfold Zenodo.find_deposit, Zenodo.get_depositions.
    assert (∀ {A B C} (m : M A) (k : A → M B) (k' : B → M C) w0,
              bind (bind m k) k' w0 = bind m (λ a, bind (k a) k') w0) as Hassoc.
    { intros A B C m k k' w0. unfold bind. by destruct (m w0) as [[a| |] w'']. }
    rewrite Hassoc. unfold Zenodo.get.
    apply sent_after_exchange.
    + apply valid_url_https.
    + intros r. apply quiet_bind.
      * destruct (Zenodo.status_not_in r [200; 201]); quiet_sequel.
      * intros listing. apply quiet_bind; [apply quiet_lift | intros deposits].
        apply quiet_find_deposit_loop.
  - intros path. eexists. split_and!.
    + unfold Zenodo.get. apply requests_send_sent.
      cbn. destruct sandbox; reflexivity.
    + reflexivity.
    + cbn. by destruct sandbox.
    + unfold goes_to. cbn. destruct sandbox; vm_compute; reflexivity.
  - intros path. eexists. split_and!.
    + unfold Zenodo.post. apply requests_send_sent.
      cbn. destruct sandbox; reflexivity.
    + reflexivity.
    + cbn. by destruct sandbox.
    + unfold goes_to. cbn. destruct sandbox; vm_compute; reflexivity.
Qed.

(** ** The command line (lines 359-392) *)

(** X14.  [main] calls Zenodo only after every check has passed.  Without
    a subcommand it prints the help and exits with code 0.  And in any run
    in which a request is sent, the subcommand is [upload], the archive
    argument is not empty and exists, a version is given, the template
    exists if one is given, and there is a DOI or a template. *)
Theorem main_calls_only_after_the_checks (token : string)
    (json_loads : string → option json) (help_text : string) (args : Namespace)
    (w : world) :
  (Py.given (command args) = false →
     main token json_loads help_text args w
     = (ExitCode 0, set_stdout (stdout w ++ [Line help_text]) w))
  ∧ (sent (snd (main token json_loads help_text args w)) ≠ sent w →
     command args = Some "upload"
     ∧ Py.nonempty (archive args) = true
     ∧ Py.given (version args) = true
     ∧ (Py.given (zenodo_json args) = true →
        is_Some (fs w !! Path.abspath (cwd w) (default "" (zenodo_json args))))
     ∧ is_Some (fs w !! Path.abspath (cwd w) (archive args))
     ∧ (Py.given (doi args) = true ∨ Py.given (zenodo_json args) = true)).
Proof.
  split.
  - intros Hcommand. unfold main. by rewrite Hcommand.
  - unfold main. destruct (Py.given (command args)) eqn:Hcommand; cbn [negb snd]; [|done].
    unfold main_upload, bind at 1.
    destruct (Py.given (zenodo_json args)) eqn:Htemplate.
    + unfold bind at 1, os_path_exists, ret.
      destruct (bool_decide (is_Some (fs w !! Path.abspath (cwd w)
                                        (default "" (zenodo_json args))))) eqn:Hfound;
        cbn [negb]; [|done].
      apply bool_decide_eq_true_1 in Hfound.
      destruct (Py.nonempty (archive args)) eqn:Harchive; cbn [negb]; [|done].
      destruct (Py.given (version args)) eqn:Hversion; cbn [negb]; [|done].
      destruct (bool_decide (command args = Some "upload")) eqn:Hupload; [|done].
      apply bool_decide_eq_true_1 in Hupload.
      intros Hsent. split_and!; try done; [|by right].
      destruct (fs w !! Path.abspath (cwd w) (archive args)) eqn:Hexists; [done|].
      by rewrite upload_archive_missing_path in Hsent.
    + cbn [ret].
      destruct (Py.nonempty (archive args)) eqn:Harchive; cbn [negb]; [|done].
      destruct (Py.given (version args)) eqn:Hversion; cbn [negb]; [|done].
      destruct (bool_decide (command args = Some "upload")) eqn:Hupload; [|done].
      apply bool_decide_eq_true_1 in Hupload.
      intros Hsent.
      assert (is_Some (fs w !! Path.abspath (cwd w) (archive args))) as Hexists.
      { destruct (fs w !! Path.abspath (cwd w) (archive args)) eqn:E; [done|].
        by rewrite upload_archive_missing_path in Hsent. }
      split_and!; try done.
      destruct (Py.given (doi args)) eqn:Hdoi; [by left|].
      exfalso. apply Hsent.
      unfold upload_archive, bind at 1, os_abspath, bind at 1, path_exists.
      rewrite bool_decide_eq_true_2 by done. cbn [negb].
      by rewrite Hdoi, Htemplate.
Qed.

Lemma main_calls_only_after_the_checks_witness :
  let args := {| command := Some "upload"; archive := "dist/a.zip";
                 zenodo_json := Some ".zenodo.json"; version := Some "1.2.3";
                 title := None; description := None; description_file := None;
                 doi := Some "10.5281/zenodo.1"; html_url := None |} in
  main Sample.token Sample.loads "usage: deploy.py" args
    (Sample.world_with Sample.github [])
  ≠ (ExitCode 0, Sample.world_with Sample.github [])
  ∧ is_Some (Sample.files !! "/work/dist/a.zip").
Proof.
  cbn zeta.
  destruct (main_calls_only_after_the_checks Sample.token Sample.loads "usage: deploy.py"
              {| command := Some "upload"; archive := "dist/a.zip";
                 zenodo_json := Some ".zenodo.json"; version := Some "1.2.3";
                 title := None; description := None; description_file := None;
                 doi := Some "10.5281/zenodo.1"; html_url := None |}
              (Sample.world_with Sample.github [])) as [_ Hchecks].
  destruct Hchecks as (_ & _ & _ & _ & Hexists & _).
  - vm_compute. discriminate.
  - split; [vm_compute; discriminate | exact Hexists].
Defined.

(** X15.  Every run of [main]: each request it sends carries the token as
    its only parameter, and every path other than the ones named by
    [GITHUB_ENV] and [GITHUB_OUTPUT] holds afterwards what it held before. *)
Theorem main_is_authenticated_and_writes_only_the_outputs (token : string)
    (json_loads : string → option json) (help_text : string) (args : Namespace)
    (w : world) :
  let w' := snd (main token json_loads help_text args w) in
  (∃ new, sent w' = sent w ++ new ∧ Forall (authenticated token) new)
  ∧ (∀ path, not_an_output w path → fs w' !! path = fs w !! path).
Proof.
  cbn zeta. unfold main.
  destruct (Py.given (command args)); cbn [negb snd].
  2: { split; [exists []; by rewrite app_nil_r | done]. }
  assert (sends_only (authenticated token) (main_upload token json_loads args)
          ∧ spares (main_upload token json_loads args)) as [Hsends Hspares].
  { unfold main_upload, sys_exit. split.
    - through (@sends_only_bind) (@sends_only_for_each)
        ltac:(first [apply upload_archive_authenticated | sends_base]).
    - through (@spares_bind) (@spares_for_each)
        ltac:(first [apply spares_upload_archive | spares_base]). }
  split; [apply Hsends | apply Hspares].
Qed.

Lemma main_is_authenticated_and_writes_only_the_outputs_witness :
  let args := {| command := Some "upload"; archive := "dist/a.zip";
                 zenodo_json := Some ".zenodo.json"; version := Some "1.2.3";
                 title := None; description := None; description_file := None;
                 doi := Some "10.5281/zenodo.1"; html_url := None |} in
  fs (snd (main Sample.token Sample.loads "usage: deploy.py" args
             (Sample.world_with Sample.github
                [Http.Response 200 (Some (JArr [JObj (Sample.deposition 7 false)]));
                 Http.Response 200 (Some (JObj (Sample.deposition 9 false)));
                 Http.Response 204 None; Http.Response 204 None;
                 Http.Response 201 None;
                 Http.Response 200 (Some (JObj (Sample.deposition 9 false)));
                 Http.Response 202 (Some Sample.published)])))
  !! "/work/.zenodo.json"
  = Some (File "TEMPLATE").
Proof.
  cbn zeta.
  lazymatch goal with
  | |- context [main _ _ _ ?args ?w] =>
      destruct (main_is_authenticated_and_writes_only_the_outputs Sample.token
                  Sample.loads "usage: deploy.py" args w) as [_ Hfiles]
  end.
  cbn zeta in Hfiles. rewrite Hfiles; [reflexivity|].
  intros var file Hvar Hfile.
  apply elem_of_cons in Hvar as [->|Hvar].
  - vm_compute in Hfile. injection Hfile as <-. vm_compute. discriminate.
  - apply elem_of_cons in Hvar as [->|Hvar].
    + vm_compute in Hfile. injection Hfile as <-. vm_compute. discriminate.
    + by apply elem_of_nil in Hvar.
Defined.

(** ** The steps in order (lines 293-322) *)






(** ** Deposits with keys missing (lines 149-163) *)

(** X17.  The keys [update_doi] reads from the deposit it found are read
    unguarded.  A deposit without ["submitted"] raises [KeyError] right
    after the listing; so does a deposit without ["links"], submitted or
    not; in both cases nothing is sent after the listing.  And when the
    accepted answer of the new-version call decodes to a document without
    ["links"], the error comes after that call has been made. *)
Theorem update_doi_reads_keys_unguarded (self : Zenodo.client) (doi : string)
    (w w1 : world) (deposit : dict) :
  Zenodo.find_deposit self doi w = (Ok (Some (JObj deposit)), w1) →
  (Dict.get "submitted" deposit = None →
     Zenodo.update_doi self doi w = (Raise (KeyError "submitted"), w1))
  ∧ (∀ submitted,
       Dict.get "submitted" deposit = Some submitted →
       Dict.get "links" deposit = None →
       Zenodo.update_doi self doi w = (Raise (KeyError "links"), w1))
  ∧ (∀ submitted links newversion response rest answer,
       Dict.get "submitted" deposit = Some submitted →
       Py.truthy submitted = true →
       Dict.get "links" deposit = Some links →
       Py.subscript links "newversion" = Ok (JStr newversion) →
       Http.valid_url (target self newversion) = true →
       inbox w1 = response :: rest →
       Http.status_code response ∈ [200; 201] →
       Http.json response = Ok answer →
       Py.subscript answer "links" = Raise (KeyError "links") →
       Zenodo.update_doi self doi w
       = (Raise (KeyError "links"),
          set_net rest (sent w1 ++ [wrapped POST self newversion]) w1)).
Proof.
  intros Hfind. rewrite (update_doi_found _ _ _ _ _ Hfind). split_and!.
  - intros Hsub. unfold bind at 1, Zenodo.select_draft, bind at 1, lift. cbn.
    by rewrite Hsub.
  - intros submitted Hsub Hlinks.
    unfold bind at 1, Zenodo.select_draft, bind at 1, lift. cbn. rewrite Hsub.
    destruct (Py.truthy submitted); cbn [negb].
    + unfold bind at 1, lift. cbn. by rewrite Hlinks.
    + cbn [ret]. unfold bind at 1, Zenodo.fetch_draft, bind at 1, lift. cbn.
      by rewrite Hlinks.
  - intros submitted links newversion response rest answer Hsub Htrue Hlinks Hnew Hvalid
      Hin Hok Hanswer Hnone.
    assert (Py.subscript (JObj deposit) "submitted" = Ok submitted) as Hsub'
      by (cbn; by rewrite Hsub).
    assert (Py.subscript (JObj deposit) "links" = Ok links) as Hlinks'
      by (cbn; by rewrite Hlinks).
    rewrite (bind_ok _ _ _ _ _
               (select_draft_submitted self doi _ _ _ _ _ _ _ w1
                  Hsub' Htrue Hlinks' Hnew Hvalid Hin Hok Hanswer)).
    unfold bind at 1, Zenodo.fetch_draft, bind at 1, lift. by rewrite Hnone.
Qed.

Lemma update_doi_reads_keys_unguarded_witness :
  let w := Sample.world_with Sample.github
             [Http.Response 200 (Some (JArr [JObj Sample.stranger]))] in
  fst (Zenodo.update_doi Sample.cli "10.5281/zenodo.4" w) = Raise (KeyError "links").
Proof.
  cbn zeta.
  lazymatch goal with
  | |- context [Zenodo.update_doi _ _ ?w] =>
      destruct (update_doi_reads_keys_unguarded Sample.cli "10.5281/zenodo.4" w
                  (snd (Zenodo.find_deposit Sample.cli "10.5281/zenodo.4" w))
                  Sample.stranger) as (_ & Hlinks & _)
  end.
  - vm_compute. reflexivity.
  - rewrite (Hlinks (JBool true)); reflexivity.
Defined.
